(** * PAC resilience core: boot journal and health oracle

    A shallow embedding of [src/journal/boot_journal.c] and
    [src/health_check/health_check.c], with the properties of the
    specification stated and proved over it.

    Platform model: LP64 Linux, little-endian, two's complement.
    Fixed-width integers are values of [Z]; every place where an unsigned
    value of the C code can wrap around is written out with [u8], [u32]
    or [u64].
    Output on stdout and stderr is not modelled. *)

From Stdlib Require Import ZArith List String Ascii Bool Lia.
From Stdlib Require Import Decimal DecimalString.
Import ListNotations.
Open Scope Z_scope.

(** ** Machine integers *)

Definition u8 (z : Z) : Z := z mod 2 ^ 8.
Definition u32 (z : Z) : Z := z mod 2 ^ 32.
Definition u64 (z : Z) : Z := z mod 2 ^ 64.

Definition LONG_MAX : Z := 2 ^ 63 - 1.
Definition LONG_MIN : Z := - 2 ^ 63.

(** Bitwise complement of a [uint32_t]. *)
Definition not32 (z : Z) : Z := u32 (Z.lnot z).

(** Little-endian bytes of a field [n] bytes wide, and back. *)
Fixpoint le_bytes (n : nat) (v : Z) : list Z :=
  match n with
  | O => []
  | S k => Z.land v 255 :: le_bytes k (Z.shiftr v 8)
  end.

Fixpoint le_value (bs : list Z) : Z :=
  match bs with
  | [] => 0
  | b :: t => Z.lor (Z.land b 255) (Z.shiftl (le_value t) 8)
  end.

(** ** boot_journal.h *)

Definition JOURNAL_MAGIC : Z := 0xA771A771.
Definition JOURNAL_VERSION : Z := 1.
Definition TIER_1 : Z := 1.
Definition TIER_2 : Z := 2.
Definition TIER_3 : Z := 3.
Definition FLAG_BROWNOUT : Z := Z.shiftl 1 2.
Definition FLAG_DIRTY : Z := Z.shiftl 1 3.
Definition DEFAULT_TRIES_T2 : Z := 3.
Definition DEFAULT_TRIES_T3 : Z := 3.

Definition JOURNAL_OK : Z := 0.
Definition JOURNAL_ERR_IO : Z := -1.
Definition JOURNAL_ERR_CORRUPT : Z := -2.
Definition JOURNAL_ERR_INVALID : Z := -3.
Definition JOURNAL_ERR_NOMEM : Z := -4.

(** [struct BootRecord], packed. *)
Record BootRecord : Type := mkBootRecord {
  version : Z;       (* uint32_t *)
  tier : Z;          (* uint8_t  *)
  tries_t2 : Z;      (* uint8_t  *)
  tries_t3 : Z;      (* uint8_t  *)
  rollback_idx : Z;  (* uint8_t  *)
  flags : Z;         (* uint32_t *)
  boot_count : Z;    (* uint64_t *)
  timestamp : Z;     (* uint64_t *)
  crc32 : Z;         (* uint32_t *)
  trailer : Z        (* uint32_t *)
}.

(** Every field holds a value of its C type. *)
Definition wf_record (r : BootRecord) : Prop :=
  0 <= version r < 2 ^ 32 /\
  0 <= tier r < 2 ^ 8 /\
  0 <= tries_t2 r < 2 ^ 8 /\
  0 <= tries_t3 r < 2 ^ 8 /\
  0 <= rollback_idx r < 2 ^ 8 /\
  0 <= flags r < 2 ^ 32 /\
  0 <= boot_count r < 2 ^ 64 /\
  0 <= timestamp r < 2 ^ 64 /\
  0 <= crc32 r < 2 ^ 32 /\
  0 <= trailer r < 2 ^ 32.

(** Assignment to one field of a record. *)
Definition set_version (r : BootRecord) (v : Z) : BootRecord :=
  mkBootRecord v (tier r) (tries_t2 r) (tries_t3 r) (rollback_idx r)
    (flags r) (boot_count r) (timestamp r) (crc32 r) (trailer r).
Definition set_tier (r : BootRecord) (v : Z) : BootRecord :=
  mkBootRecord (version r) v (tries_t2 r) (tries_t3 r) (rollback_idx r)
    (flags r) (boot_count r) (timestamp r) (crc32 r) (trailer r).
Definition set_tries_t2 (r : BootRecord) (v : Z) : BootRecord :=
  mkBootRecord (version r) (tier r) v (tries_t3 r) (rollback_idx r)
    (flags r) (boot_count r) (timestamp r) (crc32 r) (trailer r).
Definition set_tries_t3 (r : BootRecord) (v : Z) : BootRecord :=
  mkBootRecord (version r) (tier r) (tries_t2 r) v (rollback_idx r)
    (flags r) (boot_count r) (timestamp r) (crc32 r) (trailer r).
Definition set_rollback_idx (r : BootRecord) (v : Z) : BootRecord :=
  mkBootRecord (version r) (tier r) (tries_t2 r) (tries_t3 r) v
    (flags r) (boot_count r) (timestamp r) (crc32 r) (trailer r).
Definition set_flags (r : BootRecord) (v : Z) : BootRecord :=
  mkBootRecord (version r) (tier r) (tries_t2 r) (tries_t3 r) (rollback_idx r)
    v (boot_count r) (timestamp r) (crc32 r) (trailer r).
Definition set_boot_count (r : BootRecord) (v : Z) : BootRecord :=
  mkBootRecord (version r) (tier r) (tries_t2 r) (tries_t3 r) (rollback_idx r)
    (flags r) v (timestamp r) (crc32 r) (trailer r).
Definition set_timestamp (r : BootRecord) (v : Z) : BootRecord :=
  mkBootRecord (version r) (tier r) (tries_t2 r) (tries_t3 r) (rollback_idx r)
    (flags r) (boot_count r) v (crc32 r) (trailer r).
Definition set_crc32 (r : BootRecord) (v : Z) : BootRecord :=
  mkBootRecord (version r) (tier r) (tries_t2 r) (tries_t3 r) (rollback_idx r)
    (flags r) (boot_count r) (timestamp r) v (trailer r).
Definition set_trailer (r : BootRecord) (v : Z) : BootRecord :=
  mkBootRecord (version r) (tier r) (tries_t2 r) (tries_t3 r) (rollback_idx r)
    (flags r) (boot_count r) (timestamp r) (crc32 r) v.

(** The bytes of the packed struct, in memory and on disk. *)
Definition record_bytes (r : BootRecord) : list Z :=
  le_bytes 4 (version r) ++ le_bytes 1 (tier r) ++ le_bytes 1 (tries_t2 r)
  ++ le_bytes 1 (tries_t3 r) ++ le_bytes 1 (rollback_idx r)
  ++ le_bytes 4 (flags r) ++ le_bytes 8 (boot_count r)
  ++ le_bytes 8 (timestamp r) ++ le_bytes 4 (crc32 r)
  ++ le_bytes 4 (trailer r).

Definition slice (off len : nat) (bs : list Z) : list Z :=
  firstn len (skipn off bs).

Definition record_of_bytes (bs : list Z) : BootRecord :=
  {| version := le_value (slice 0 4 bs);
     tier := le_value (slice 4 1 bs);
     tries_t2 := le_value (slice 5 1 bs);
     tries_t3 := le_value (slice 6 1 bs);
     rollback_idx := le_value (slice 7 1 bs);
     flags := le_value (slice 8 4 bs);
     boot_count := le_value (slice 12 8 bs);
     timestamp := le_value (slice 20 8 bs);
     crc32 := le_value (slice 28 4 bs);
     trailer := le_value (slice 32 4 bs) |}.

(** [memset (rec, 0, sizeof ( *rec))]. *)
Definition zero_record : BootRecord := mkBootRecord 0 0 0 0 0 0 0 0 0 0.

Definition PAGE_SIZE : nat := 36.                 (* sizeof (struct BootRecord) *)
Definition PAGE_A_OFFSET : nat := 0.
Definition PAGE_B_OFFSET : nat := PAGE_SIZE.
Definition JOURNAL_FILE_SIZE : nat := PAGE_SIZE * 2.
Definition CRC_OFFSET : nat := 28.                (* offsetof (struct BootRecord, crc32) *)

(** ** CRC engine *)

Definition crc32_poly : Z := 0xEDB88320.

(** One round of the inner loop of [crc32_init_table]. *)
Definition crc32_round (crc : Z) : Z :=
  if Z.land crc 1 =? 1 then Z.lxor (Z.shiftr crc 1) crc32_poly
  else Z.shiftr crc 1.

(** The table [crc32_init_table] fills; it is filled once, before its
    first use, and never changes, so it is a constant here. *)
Definition crc32_table : list Z :=
  map (fun i => Nat.iter 8 crc32_round (Z.of_nat i)) (seq 0 256).

Definition crc32_compute (data : list Z) (len : nat) : Z :=
  let buf := firstn len data in
  let crc :=
    fold_left
      (fun crc b =>
         Z.lxor (Z.shiftr crc 8)
           (nth (Z.to_nat (Z.land (Z.lxor crc b) 255)) crc32_table 0))
      buf 0xFFFFFFFF in
  not32 crc.

Definition record_calculate_crc (rec : BootRecord) : Z :=
  crc32_compute (record_bytes rec) CRC_OFFSET.

(** ** Boot record codec *)

Definition journal_validate (rec : BootRecord) : bool :=
  if negb (trailer rec =? JOURNAL_MAGIC) then false
  else
    let calculated_crc := record_calculate_crc rec in
    if negb (crc32 rec =? calculated_crc) then false
    else if negb (version rec =? JOURNAL_VERSION) then false
    else if (tier rec <? TIER_1) || (tier rec >? TIER_3) then false
    else true.

(** [journal_decrement_tries]: the returned [int] and the record after the
    call. *)
Definition journal_decrement_tries (rec : BootRecord) (t : Z) : Z * BootRecord :=
  if t =? TIER_2 then
    let rec1 :=
      if tries_t2 rec >? 0 then set_tries_t2 rec (u8 (tries_t2 rec - 1))
      else rec in
    (tries_t2 rec1, rec1)
  else if t =? TIER_3 then
    let rec1 :=
      if tries_t3 rec >? 0 then set_tries_t3 rec (u8 (tries_t3 rec - 1))
      else rec in
    (tries_t3 rec1, rec1)
  else (-1, rec).

Definition journal_reset_tries (rec : BootRecord) : BootRecord :=
  set_tries_t3 (set_tries_t2 rec DEFAULT_TRIES_T2) DEFAULT_TRIES_T3.

Definition journal_set_flag (rec : BootRecord) (flag : Z) : BootRecord :=
  set_flags rec (Z.lor (flags rec) flag).

Definition journal_clear_flag (rec : BootRecord) (flag : Z) : BootRecord :=
  set_flags rec (Z.land (flags rec) (not32 flag)).

Definition journal_has_flag (rec : BootRecord) (flag : Z) : bool :=
  negb (Z.land (flags rec) flag =? 0).

(** ** Journal store

    The process-wide [journal_state], the file behind its descriptor, the
    clock and the outcome of each coming page transfer form the state the
    journal operations run in. *)

Record JournalState : Type := mkJournalState {
  path : option string;   (* char *path, NULL when none *)
  fd : Z;
  initialized : bool
}.

(** What the system calls of one [read_page] or [write_page] do: whether
    [lseek] reaches the offset, what [read] or [write] returns ([None] for
    -1, [Some n] for at most [n] bytes transferred) and whether [fsync]
    succeeds. *)
Record PageIO : Type := mkPageIO {
  seek_ok : bool;
  xfer : option nat;
  fsync_ok : bool
}.

Definition io_good : PageIO := mkPageIO true (Some PAGE_SIZE) true.

(** One call of [write_page]: the offset it was asked to write and what
    it returned. *)
Record WriteCall : Type := mkWriteCall {
  wc_offset : nat;
  wc_ret : Z
}.

Record World : Type := mkWorld {
  journal_state : JournalState;
  file : list Z;               (* bytes of the file behind journal_state.fd *)
  now : Z;                     (* what time (NULL) returns *)
  io_script : list PageIO;     (* outcomes of the page transfers to come *)
  write_log : list WriteCall   (* write_page calls so far, oldest first *)
}.

Definition M (A : Type) : Type := World -> A * World.

Definition ret {A : Type} (a : A) : M A := fun w => (a, w).

Definition bind {A B : Type} (m : M A) (k : A -> M B) : M B :=
  fun w => let (a, w1) := m w in k a w1.

Notation "x <- m ;; k" := (bind m (fun x => k))
  (at level 61, m at next level, right associativity).
Notation "m ;;; k" := (bind m (fun _ => k))
  (at level 61, right associativity).

Definition get_journal_state : M JournalState :=
  fun w => (journal_state w, w).

Definition get_file : M (list Z) := fun w => (file w, w).

Definition put_file (f : list Z) : M unit :=
  fun w => (tt, mkWorld (journal_state w) f (now w) (io_script w) (write_log w)).

(** [time (NULL)]. *)
Definition time : M Z := fun w => (now w, w).

(** The outcome of the next page transfer; an exhausted script means that
    every system call succeeds. *)
Definition next_io : M PageIO :=
  fun w =>
    match io_script w with
    | [] => (io_good, w)
    | io :: rest =>
        (io, mkWorld (journal_state w) (file w) (now w) rest (write_log w))
    end.

Definition log_write (offset : nat) (r : Z) : M unit :=
  fun w =>
    (tt, mkWorld (journal_state w) (file w) (now w) (io_script w)
           (write_log w ++ [mkWriteCall offset r])).

(** The file after [write] stored [bs] at offset [off]; a write past the
    end leaves a hole of zero bytes. *)
Definition file_write (f : list Z) (off : nat) (bs : list Z) : list Z :=
  match bs with
  | [] => f
  | _ => firstn off f ++ repeat 0 (off - List.length f) ++ bs
         ++ skipn (off + List.length bs) f
  end.

(** [read_page]: the return code and, when it is [JOURNAL_OK], the record
    read into the caller's buffer. *)
Definition read_page (fd : Z) (offset : nat) : M (Z * option BootRecord) :=
  io <- next_io ;;
  f <- get_file ;;
  if (fd <? 0) || negb (seek_ok io) then ret (JOURNAL_ERR_IO, None)
  else
    match xfer io with
    | None => ret (JOURNAL_ERR_IO, None)
    | Some n =>
        let got := firstn (Nat.min n PAGE_SIZE) (skipn offset f) in
        if negb (List.length got =? PAGE_SIZE)%nat then ret (JOURNAL_ERR_IO, None)
        else ret (JOURNAL_OK, Some (record_of_bytes got))
    end.

Definition write_page (fd : Z) (offset : nat) (rec : BootRecord) : M Z :=
  io <- next_io ;;
  f <- get_file ;;
  r <- (if (fd <? 0) || negb (seek_ok io) then ret JOURNAL_ERR_IO
        else
          match xfer io with
          | None => ret JOURNAL_ERR_IO
          | Some n =>
              let put := firstn (Nat.min n PAGE_SIZE) (record_bytes rec) in
              put_file (file_write f offset put) ;;;
              if negb (List.length put =? PAGE_SIZE)%nat then ret JOURNAL_ERR_IO
              else if negb (fsync_ok io) then ret JOURNAL_ERR_IO
              else ret JOURNAL_OK
          end) ;;
  log_write offset r ;;;
  ret r.

Definition journal_create_default : M BootRecord :=
  t <- time ;;
  let rec :=
    {| version := JOURNAL_VERSION;
       tier := TIER_1;
       tries_t2 := DEFAULT_TRIES_T2;
       tries_t3 := DEFAULT_TRIES_T3;
       rollback_idx := 0;
       flags := 0;
       boot_count := 0;
       timestamp := u64 t;
       crc32 := 0;
       trailer := JOURNAL_MAGIC |} in
  ret (set_crc32 rec (record_calculate_crc rec)).

(** The page a read delivered, when the read returned [JOURNAL_OK] and
    [journal_validate] accepts it: [Some page] stands for the flag
    [a_valid] (or [b_valid]) being set, with the buffer it speaks of. *)
Definition valid_page (r : Z * option BootRecord) : option BootRecord :=
  match r with
  | (code, Some page) =>
      if (code =? JOURNAL_OK) && journal_validate page then Some page else None
  | (_, None) => None
  end.

(** [journal_recover]: the return code and the caller's record after the
    call ([rec] is the record the caller passed in). *)
Definition journal_recover (rec : BootRecord) : M (Z * BootRecord) :=
  js <- get_journal_state ;;
  if negb (initialized js) || (fd js <? 0) then ret (JOURNAL_ERR_INVALID, rec)
  else
    ra <- read_page (fd js) PAGE_A_OFFSET ;;
    let a_valid := valid_page ra in
    rb <- read_page (fd js) PAGE_B_OFFSET ;;
    let b_valid := valid_page rb in
    match a_valid, b_valid with
    | Some page_a, Some page_b =>
        if boot_count page_a >=? boot_count page_b
        then ret (JOURNAL_OK, page_a)
        else ret (JOURNAL_OK, page_b)
    | Some page_a, None =>
        write_page (fd js) PAGE_B_OFFSET page_a ;;;
        ret (JOURNAL_OK, page_a)
    | None, Some page_b =>
        write_page (fd js) PAGE_A_OFFSET page_b ;;;
        ret (JOURNAL_OK, page_b)
    | None, None =>
        rec1 <- journal_create_default ;;
        write_page (fd js) PAGE_A_OFFSET rec1 ;;;
        write_page (fd js) PAGE_B_OFFSET rec1 ;;;
        ret (JOURNAL_OK, rec1)
    end.

(** [journal_read]; [None] is the null pointer. *)
Definition journal_read (rec : option BootRecord) : M (Z * option BootRecord) :=
  match rec with
  | None => ret (JOURNAL_ERR_INVALID, None)
  | Some rec0 =>
      js <- get_journal_state ;;
      if negb (initialized js) || (fd js <? 0)
      then ret (JOURNAL_ERR_INVALID, Some rec0)
      else
        r <- journal_recover rec0 ;;
        ret (fst r, Some (snd r))
  end.

(** [journal_write]; [None] is the null pointer. *)
Definition journal_write (rec : option BootRecord) : M Z :=
  match rec with
  | None => ret JOURNAL_ERR_INVALID
  | Some rec0 =>
      js <- get_journal_state ;;
      if negb (initialized js) || (fd js <? 0) then ret JOURNAL_ERR_INVALID
      else
        t <- time ;;
        let updated := rec0 in
        let updated := set_timestamp updated (u64 t) in
        let updated := set_trailer updated JOURNAL_MAGIC in
        let updated := set_crc32 updated (record_calculate_crc updated) in
        if negb (journal_validate updated) then ret JOURNAL_ERR_INVALID
        else
          ra <- write_page (fd js) PAGE_A_OFFSET updated ;;
          if negb (ra =? JOURNAL_OK) then ret JOURNAL_ERR_IO
          else
            rb <- write_page (fd js) PAGE_B_OFFSET updated ;;
            if negb (rb =? JOURNAL_OK) then ret JOURNAL_ERR_IO
            else ret JOURNAL_OK
  end.

Definition journal_get_path : M (option string) :=
  js <- get_journal_state ;;
  ret (path js).

(** Page A and page B of a file, as far as the file reaches. *)
Definition page_a_bytes (f : list Z) : list Z := slice PAGE_A_OFFSET PAGE_SIZE f.
Definition page_b_bytes (f : list Z) : list Z := slice PAGE_B_OFFSET PAGE_SIZE f.

(** The outcome of the [k]-th page transfer from now. *)
Definition nth_io (k : nat) (w : World) : PageIO :=
  nth k (io_script w) io_good.

(** [lseek] succeeds and [read] or [write] transfers the whole page. *)
Definition transfers (io : PageIO) : bool :=
  seek_ok io &&
  match xfer io with
  | Some n => (PAGE_SIZE <=? n)%nat
  | None => false
  end.

(** What [write_page] returns on a valid descriptor under [io]. *)
Definition write_code (io : PageIO) : Z :=
  if transfers io && fsync_ok io then JOURNAL_OK else JOURNAL_ERR_IO.

(** The world once one page transfer has used up its outcome. *)
Definition advance (w : World) : World :=
  mkWorld (journal_state w) (file w) (now w) (tl (io_script w)) (write_log w).

(** The record a page of the file holds, when the file reaches to the
    end of that page. *)
Definition disk_page (f : list Z) (offset : nat) : option BootRecord :=
  let bs := slice offset PAGE_SIZE f in
  if (List.length bs =? PAGE_SIZE)%nat then Some (record_of_bytes bs) else None.

(** The file after [write_page] ran under [io]. *)
Definition written_file (io : PageIO) (f : list Z) (offset : nat)
  (rec : BootRecord) : list Z :=
  if seek_ok io then
    match xfer io with
    | Some n => file_write f offset (firstn (Nat.min n PAGE_SIZE) (record_bytes rec))
    | None => f
    end
  else f.

(** The world after [write_page] on a valid descriptor. *)
Definition after_write (w : World) (offset : nat) (rec : BootRecord) : World :=
  mkWorld (journal_state w)
    (written_file (nth_io 0 w) (file w) offset rec)
    (now w) (tl (io_script w))
    (write_log w ++ [mkWriteCall offset (write_code (nth_io 0 w))]).

(** The record [journal_write] sends to disk for the caller's [rec] at
    time [t]. *)
Definition updated_record (rec : BootRecord) (t : Z) : BootRecord :=
  let updated := set_trailer (set_timestamp rec (u64 t)) JOURNAL_MAGIC in
  set_crc32 updated (record_calculate_crc updated).

(** The record after [n] calls of [journal_decrement_tries] for tier [t]. *)
Fixpoint decrement_calls (n : nat) (rec : BootRecord) (t : Z) : BootRecord :=
  match n with
  | O => rec
  | S k => snd (journal_decrement_tries (decrement_calls k rec t) t)
  end.

(** ** Journal store: closing, opening and the states in between *)

(** The record of a page of the file when the page is whole and
    [journal_validate] accepts it. *)
Definition valid_disk_page (f : list Z) (offset : nat) : option BootRecord :=
  match disk_page f offset with
  | Some page => if journal_validate page then Some page else None
  | None => None
  end.

(** The journal is open: initialised, on a valid descriptor. *)
Definition journal_open (w : World) : Prop :=
  initialized (journal_state w) = true /\ 0 <= fd (journal_state w).

(** The world after a [write_page] all of whose system calls succeed. *)
Definition page_written (w : World) (offset : nat) (rec : BootRecord) : World :=
  mkWorld (journal_state w) (file_write (file w) offset (record_bytes rec))
    (now w) [] (write_log w ++ [mkWriteCall offset JOURNAL_OK]).

Definition put_journal_state (js : JournalState) : M unit :=
  fun w => (tt, mkWorld js (file w) (now w) (io_script w) (write_log w)).

(** [journal_close]. *)
Definition journal_close : M unit :=
  js <- get_journal_state ;;
  let fd1 := if fd js >=? 0 then -1 else fd js in
  put_journal_state (mkJournalState None fd1 false).

(** What [journal_init] meets outside the journal file: whether [strdup]
    returns memory, whether [stat] finds the path, and what [open]
    returns (a descriptor, or a negative value). *)
Record InitEnv : Type := mkInitEnv {
  strdup_ok : bool;
  path_exists : bool;
  open_result : Z
}.

(** [journal_init]; [None] is the null pointer. The file of the world is
    the file [path] names; [open] with [O_CREAT] makes an empty file of a
    path that did not exist. *)
Definition journal_init (path : option string) (env : InitEnv) : M Z :=
  match path with
  | None => ret JOURNAL_ERR_INVALID
  | Some p =>
      js0 <- get_journal_state ;;
      (if initialized js0 then journal_close else ret tt) ;;;
      js1 <- get_journal_state ;;
      if negb (strdup_ok env) then
        put_journal_state (mkJournalState None (fd js1) (initialized js1)) ;;;
        ret JOURNAL_ERR_NOMEM
      else
        f <- get_file ;;
        let exists_ := path_exists env in
        let st_size := Z.of_nat (List.length f) in
        let fd1 := open_result env in
        if fd1 <? 0 then
          put_journal_state (mkJournalState None fd1 (initialized js1)) ;;;
          ret JOURNAL_ERR_IO
        else
          (if exists_ then ret tt else put_file []) ;;;
          put_journal_state (mkJournalState (Some p) fd1 (initialized js1)) ;;;
          if negb exists_ || (st_size <? Z.of_nat JOURNAL_FILE_SIZE) then
            rec <- journal_create_default ;;
            ra <- write_page fd1 PAGE_A_OFFSET rec ;;
            if negb (ra =? JOURNAL_OK) then
              put_journal_state (mkJournalState None (-1) (initialized js1)) ;;;
              ret JOURNAL_ERR_IO
            else
              rb <- write_page fd1 PAGE_B_OFFSET rec ;;
              if negb (rb =? JOURNAL_OK) then
                put_journal_state (mkJournalState None (-1) (initialized js1)) ;;;
                ret JOURNAL_ERR_IO
              else
                put_journal_state (mkJournalState (Some p) fd1 true) ;;;
                ret JOURNAL_OK
          else
            put_journal_state (mkJournalState (Some p) fd1 true) ;;;
            ret JOURNAL_OK
  end.

(** [main] of journal_tool.c on the command line [inc-boot <file>]: the
    exit status. [rec0] is what the local [rec] holds before
    [journal_read] fills it. *)
Definition journal_tool_inc_boot (path : string) (env : InitEnv)
  (rec0 : BootRecord) : M Z :=
  r <- journal_init (Some path) env ;;
  if negb (r =? JOURNAL_OK) then ret 1
  else
    rr <- journal_read (Some rec0) ;;
    let rec := match snd rr with Some r => r | None => rec0 end in
    if negb (fst rr =? JOURNAL_OK) then journal_close ;;; ret 1
    else
      let rec := set_boot_count rec (u64 (boot_count rec + 1)) in
      rw <- journal_write (Some rec) ;;
      if negb (rw =? JOURNAL_OK) then journal_close ;;; ret 1
      else journal_close ;;; ret 0.

(** The world when the clock shows [t]. *)
Definition at_time (t : Z) (w : World) : World :=
  mkWorld (journal_state w) (file w) t (io_script w) (write_log w).

(** The world after one run of [inc-boot] at each of the times [ts]. *)
Fixpoint inc_boot_runs (path : string) (env : InitEnv) (rec0 : BootRecord)
  (ts : list Z) (w : World) : World :=
  match ts with
  | [] => w
  | t :: rest =>
      inc_boot_runs path env rec0 rest
        (snd (journal_tool_inc_boot path env rec0 (at_time t w)))
  end.

(** Both pages hold the valid record [r]. *)
Definition committed (f : list Z) (r : BootRecord) : Prop :=
  valid_disk_page f PAGE_A_OFFSET = Some r
  /\ valid_disk_page f PAGE_B_OFFSET = Some r.

(** The world [journal_init] works on once it has closed a journal that
    was open. *)
Definition closed_first (w : World) : World :=
  if initialized (journal_state w) then snd (journal_close w) else w.

(** The world with another [journal_state]. *)
Definition with_journal_state (w : World) (js : JournalState) : World :=
  snd (put_journal_state js w).

(** ** The CRC loop, byte by byte *)

(** One round of the loop of [crc32_compute]. *)
Definition crc32_step (crc b : Z) : Z :=
  Z.lxor (Z.shiftr crc 8)
    (nth (Z.to_nat (Z.land (Z.lxor crc b) 255)) crc32_table 0).

(** The top byte of the table entry at index [i]. *)
Definition crc32_table_top (i : nat) : Z := Z.shiftr (nth i crc32_table 0) 24.

(** The index of the first table entry whose top byte is [v]; 256 when
    there is none. *)
Definition crc32_top_index (v : Z) : nat :=
  match find (fun i => crc32_table_top i =? v) (seq 0 256) with
  | Some i => i
  | None => 256%nat
  end.

(** The buffer with the byte at index [i] replaced by [b]. *)
Definition set_byte (i : nat) (b : Z) (bs : list Z) : list Z :=
  firstn i bs ++ b :: skipn (S i) bs.

(** A value a byte can hold. *)
Definition is_byte (z : Z) : Prop := 0 <= z < 256.

(** ** health_check.h *)

Record HealthCheckResult : Type := mkHealthCheckResult {
  ok : bool;
  message : string;   (* char message[256] *)
  value : Z           (* uint32_t *)
}.

Record HealthReport : Type := mkHealthReport {
  report_timestamp : Z;   (* time_t timestamp *)
  watchdog : HealthCheckResult;
  ecc : HealthCheckResult;
  storage : HealthCheckResult;
  network : HealthCheckResult;
  memory : HealthCheckResult;
  temperature : HealthCheckResult;
  overall_score : Z;      (* uint8_t *)
  max_score : Z;          (* uint8_t *)
  overall_status : string (* char overall_status[32] *)
}.

Record HealthConfig : Type := mkHealthConfig {
  ecc_threshold : Z;         (* uint32_t *)
  mem_min_free_kb : Z;       (* uint32_t *)
  storage_min_free_pct : Z;  (* uint8_t *)
  network_timeout_sec : Z;   (* uint8_t *)
  temp_max_celsius : Z;      (* uint8_t *)
  verbose : bool
}.

Definition HEALTH_CONFIG_DEFAULT : HealthConfig :=
  {| ecc_threshold := 10;
     mem_min_free_kb := 10240;
     storage_min_free_pct := 5;
     network_timeout_sec := 2;
     temp_max_celsius := 85;
     verbose := false |}.

Definition HEALTH_OK : Z := 0.
Definition HEALTH_DEGRADED : Z := 1.
Definition HEALTH_CRITICAL : Z := 2.
Definition HEALTH_ERROR : Z := -1.

(** ** The host the probes look at *)

Inductive file_type : Type := S_IFCHR | S_IFREG | S_IFDIR | S_IFOTHER.

Record Host : Type := mkHost {
  host_stat : string -> option file_type;        (* stat: None when it fails *)
  host_opendir : string -> option (list string); (* the d_name of each entry *)
  host_fopen : string -> option string;          (* content, when fopen (path, "r") succeeds *)
  host_statvfs : string + Z * Z;                 (* statvfs ("/"): strerror (errno), or f_blocks and f_bavail *)
  host_system : string -> Z;                     (* what system (cmd) returns *)
  host_time : Z                                  (* time (NULL) *)
}.

(** A directory stream [DIR *]: the null pointer, a stream that is open
    with the entries [readdir] has still to deliver, or a stream that
    [closedir] has released. *)
Inductive DIR : Type :=
| DirNull
| DirOpen (entries : list string)
| DirClosed.

Definition opendir (host : Host) (name : string) : DIR :=
  match host_opendir host name with
  | Some entries => DirOpen entries
  | None => DirNull
  end.

(** All the entries a loop [while ((entry = readdir (d)) != NULL)] sees.
    [None]: [readdir] of the null pointer dereferences it, and [readdir]
    of a stream that [closedir] has released reads freed memory; neither
    has a defined result. *)
Definition readdir_all (d : DIR) : option (list string) :=
  match d with
  | DirOpen entries => Some entries
  | DirNull | DirClosed => None
  end.

(** ** libc helpers *)

Local Open Scope string_scope.
Local Open Scope Z_scope.

(** What [snprintf (buf, size, ...)] leaves in [buf] when the formatted
    text is [s]. *)
Definition snprintf (size : nat) (s : string) : string :=
  substring 0 (size - 1) s.

(** [%u], [%ld] and [%d] of a value that fits the argument's type. *)
Definition dec (z : Z) : string := NilZero.string_of_int (Z.to_int z).

Definition newline : ascii := ascii_of_nat 10.

Definition isspace (c : ascii) : bool :=
  let n := nat_of_ascii c in
  ((n =? 32) || ((9 <=? n) && (n <=? 13)))%nat.

Definition isdigit (c : ascii) : bool :=
  let n := nat_of_ascii c in
  ((48 <=? n) && (n <=? 57))%nat.

Fixpoint skip_space (s : string) : string :=
  match s with
  | String c s1 => if isspace c then skip_space s1 else s
  | EmptyString => s
  end.

(** The digits at the head of [s] as a number, starting from [acc], and
    whether there was a digit. *)
Fixpoint scan_digits (s : string) (acc : Z) (seen : bool) : Z * bool :=
  match s with
  | String c s1 =>
      if isdigit c
      then scan_digits s1 (10 * acc + (Z.of_nat (nat_of_ascii c) - 48)) true
      else (acc, seen)
  | EmptyString => (acc, seen)
  end.

Definition clamp_long (z : Z) : Z := Z.max LONG_MIN (Z.min LONG_MAX z).

(** The conversion [strtol (s, NULL, 10)] and [%ld] of [sscanf] share:
    white space, an optional sign, decimal digits; [None] when there is no
    digit. A number out of range is clamped, as glibc does. *)
Definition scan_long (s : string) : option Z :=
  let s1 := skip_space s in
  let (neg, s2) :=
    match s1 with
    | String "-" r => (true, r)
    | String "+" r => (false, r)
    | _ => (false, s1)
    end in
  let (n, seen) := scan_digits s2 0 false in
  if seen then Some (clamp_long (if neg then - n else n)) else None.

Definition atol (s : string) : Z :=
  match scan_long s with
  | Some z => z
  | None => 0
  end.

(** The characters one [fgets] takes when it may store [n] of them, and
    the rest of the stream. *)
Fixpoint take_line (n : nat) (s : string) : string * string :=
  match n, s with
  | S k, String c s1 =>
      if Ascii.eqb c newline then (String c EmptyString, s1)
      else let (l, r) := take_line k s1 in (String c l, r)
  | _, _ => (EmptyString, s)
  end.

(** [fgets (buf, size, f)] on a stream with [content] left: [None] at end
    of file. *)
Definition fgets (size : nat) (content : string) : option (string * string) :=
  match content with
  | EmptyString => None
  | _ => Some (take_line (size - 1) content)
  end.

(** The successive results of [fgets] until it returns NULL. *)
Fixpoint fgets_loop (fuel : nat) (size : nat) (content : string) : list string :=
  match fuel with
  | O => []
  | S k =>
      match fgets size content with
      | None => []
      | Some (line, rest) => line :: fgets_loop k size rest
      end
  end.

Fixpoint strip_newline (s : string) : string :=
  match s with
  | EmptyString => s
  | String c EmptyString => if Ascii.eqb c newline then EmptyString else s
  | String c s1 => String c (strip_newline s1)
  end.

(** [strstr (s, sub) != NULL]. *)
Definition strstr (s sub : string) : bool :=
  match index 0 sub s with
  | Some _ => true
  | None => false
  end.

(** ** Probes *)

(** [read_file_line]: [None] for -1, else the line in [buf]. *)
Definition read_file_line (host : Host) (path : string) (bufsize : nat)
  : option string :=
  match host_fopen host path with
  | None => None
  | Some content =>
      match fgets bufsize content with
      | None => None
      | Some (buf, _) => Some (strip_newline buf)
      end
  end.

Definition read_file_long (host : Host) (path : string) : Z :=
  match read_file_line host path 64 with
  | None => -1
  | Some buf => atol buf
  end.

Definition file_exists (host : Host) (path : string) : bool :=
  match host_stat host path with
  | Some _ => true
  | None => false
  end.

Definition is_char_device (host : Host) (path : string) : bool :=
  match host_stat host path with
  | Some S_IFCHR => true
  | _ => false
  end.

(** [memset (result, 0, sizeof ( *result))]. *)
Definition zero_result : HealthCheckResult := mkHealthCheckResult false "" 0.

Definition health_check_watchdog (host : Host) : HealthCheckResult :=
  if is_char_device host "/dev/watchdog" then
    {| ok := true;
       message := snprintf 256 "Watchdog device present at /dev/watchdog";
       value := value zero_result |}
  else if is_char_device host "/dev/watchdog0" then
    {| ok := true;
       message := snprintf 256 "Watchdog device present at /dev/watchdog0";
       value := value zero_result |}
  else
    {| ok := false;
       message := snprintf 256 "No watchdog device found";
       value := value zero_result |}.

(** One round of the loop of [health_check_ecc] over the entries of
    /sys/devices/system/edac/mc: the totals [(ce_total, ue_total)].
    [ce_total += ce] adds the two as [long] and stores the sum in a
    [uint32_t], that is modulo 2^32: [u32] of the sum, as long as the sum
    fits [long], which it does for every count up to [LONG_MAX - 2^32].
    A larger count makes the addition overflow, which C leaves
    undefined; the properties of this probe are stated for counts up to
    that bound. *)
Definition ecc_step (host : Host) (totals : Z * Z) (d_name : string) : Z * Z :=
  let (ce_total, ue_total) := totals in
  if negb (prefix "mc" d_name) then totals
  else
    let path := snprintf 256 ("/sys/devices/system/edac/mc/" ++ d_name ++ "/ce_count") in
    let ce := read_file_long host path in
    let ce_total := if ce >=? 0 then u32 (ce_total + ce) else ce_total in
    let path := snprintf 256 ("/sys/devices/system/edac/mc/" ++ d_name ++ "/ue_count") in
    let ue := read_file_long host path in
    let ue_total := if ue >=? 0 then u32 (ue_total + ue) else ue_total in
    (ce_total, ue_total).

Definition health_check_ecc (threshold : Z) (host : Host) : HealthCheckResult :=
  if negb (file_exists host "/sys/devices/system/edac") then
    {| ok := true;
       message := snprintf 256 "EDAC not available, assuming OK";
       value := value zero_result |}
  else
    let (ce_total, ue_total) :=
      match opendir host "/sys/devices/system/edac/mc" with
      | DirOpen entries => fold_left (ecc_step host) entries (0, 0)
      | _ => (0, 0)
      end in
    if ue_total >? 0 then
      {| ok := false;
         message := snprintf 256
           ("Uncorrectable ECC errors detected: " ++ dec ue_total);
         value := ce_total |}
    else if ce_total <? threshold then
      {| ok := true;
         message := snprintf 256
           ("ECC errors within threshold: " ++ dec ce_total ++ " < " ++ dec threshold);
         value := ce_total |}
    else
      {| ok := false;
         message := snprintf 256
           ("ECC errors exceed threshold: " ++ dec ce_total ++ " >= " ++ dec threshold);
         value := ce_total |}.

(** [None]: the division by [blocks_total] is a division by zero. *)
Definition health_check_storage (min_free_pct : Z) (host : Host)
  : option HealthCheckResult :=
  match host_statvfs host with
  | inl err =>
      Some {| ok := false;
              message := snprintf 256 ("Failed to check storage: " ++ err);
              value := value zero_result |}
  | inr (f_blocks, f_bavail) =>
      let blocks_total := u64 f_blocks in
      let blocks_avail := u64 f_bavail in
      if blocks_total =? 0 then None
      else
        let free_pct := u8 (u64 (blocks_avail * 100) / blocks_total) in
        if free_pct >=? min_free_pct then
          Some {| ok := true;
                  message := snprintf 256
                    ("Storage healthy: " ++ dec free_pct ++ "% free");
                  value := free_pct |}
        else
          Some {| ok := false;
                  message := snprintf 256
                    ("Storage low: " ++ dec free_pct ++ "% free (min: "
                     ++ dec min_free_pct ++ "%)");
                  value := free_pct |}
  end.

Definition ping_targets : list string := ["8.8.8.8"; "1.1.1.1"].

Fixpoint ping_loop (host : Host) (timeout_sec : Z) (targets : list string)
  : HealthCheckResult :=
  match targets with
  | [] =>
      {| ok := false;
         message := snprintf 256 "Network unreachable";
         value := value zero_result |}
  | target :: rest =>
      let cmd := snprintf 256
        ("ping -c 1 -W " ++ dec timeout_sec ++ " " ++ target ++ " >/dev/null 2>&1") in
      if host_system host cmd =? 0 then
        {| ok := true;
           message := snprintf 256 ("Network reachable (tested: " ++ target ++ ")");
           value := value zero_result |}
      else ping_loop host timeout_sec rest
  end.

Definition health_check_network (timeout_sec : Z) (host : Host)
  : HealthCheckResult :=
  ping_loop host timeout_sec ping_targets.

(** [sscanf (s, "%ld", &x)]: [x] after the call. *)
Definition sscanf_ld (s : string) (x : Z) : Z :=
  match scan_long s with
  | Some z => z
  | None => x
  end.

(** One round of the loop of [health_check_memory] over the lines of
    /proc/meminfo: [(mem_available, mem_free, mem_total)]. *)
Definition meminfo_step (acc : Z * Z * Z) (line : string) : Z * Z * Z :=
  let '(mem_available, mem_free, mem_total) := acc in
  if prefix "MemAvailable:" line then
    (sscanf_ld (substring 13 (length line) line) mem_available, mem_free, mem_total)
  else if prefix "MemFree:" line then
    (mem_available, sscanf_ld (substring 8 (length line) line) mem_free, mem_total)
  else if prefix "MemTotal:" line then
    (mem_available, mem_free, sscanf_ld (substring 9 (length line) line) mem_total)
  else acc.

(** [None]: the product [mem_avail * 100] overflows [long], or the
    division by [mem_total] is a division by zero. *)
Definition health_check_memory (min_free_kb : Z) (host : Host)
  : option HealthCheckResult :=
  match host_fopen host "/proc/meminfo" with
  | None =>
      Some {| ok := false;
              message := snprintf 256 "Failed to read /proc/meminfo";
              value := value zero_result |}
  | Some content =>
      let lines := fgets_loop (length content) 256 content in
      let '(mem_available, mem_free, mem_total) :=
        fold_left meminfo_step lines (-1, -1, -1) in
      let mem_avail := if mem_available >=? 0 then mem_available else mem_free in
      if (mem_avail <? 0) || (mem_total <? 0) then
        Some {| ok := false;
                message := snprintf 256 "Failed to parse memory info";
                value := value zero_result |}
      else if mem_avail * 100 >? LONG_MAX then None
      else if mem_total =? 0 then None
      else
        let mem_pct := u8 (Z.quot (mem_avail * 100) mem_total) in
        if mem_avail >=? min_free_kb then
          Some {| ok := true;
                  message := snprintf 256
                    ("Memory healthy: " ++ dec mem_avail ++ "KB available ("
                     ++ dec mem_pct ++ "%)");
                  value := u32 mem_avail |}
        else
          Some {| ok := false;
                  message := snprintf 256
                    ("Low memory: " ++ dec mem_avail ++ "KB available ("
                     ++ dec mem_pct ++ "%)");
                  value := u32 mem_avail |}
  end.

(** What a reading of [temp_millic] does to [(max_temp, temp_found)]. *)
Definition note_temperature (acc : Z * bool) (temp_millic : Z) : Z * bool :=
  let (max_temp, temp_found) := acc in
  if temp_millic >? 0 then
    let temp_c := u8 (Z.quot temp_millic 1000) in
    (if temp_c >? max_temp then temp_c else max_temp, true)
  else acc.

(** One round of the loop over /sys/class/thermal. *)
Definition thermal_step (host : Host) (acc : Z * bool) (d_name : string)
  : Z * bool :=
  if negb (prefix "thermal_zone" d_name) then acc
  else
    let path := snprintf 256 ("/sys/class/thermal/" ++ d_name ++ "/temp") in
    note_temperature acc (read_file_long host path).

(** One round of the loop over the entries of one hwmon device. *)
Definition sensor_step (host : Host) (hwmon_path : string) (acc : Z * bool)
  (d_name : string) : Z * bool :=
  if strstr d_name "temp" && strstr d_name "_input" then
    let path := snprintf 512 (hwmon_path ++ "/" ++ d_name) in
    note_temperature acc (read_file_long host path)
  else acc.

(** One round of the outer loop of the hwmon branch, for the entry
    [d_name] the loop was given. *)
Definition hwmon_step (host : Host) (acc : Z * bool) (d_name : string)
  : Z * bool :=
  let hwmon_path := snprintf 256 ("/sys/class/hwmon/" ++ d_name) in
  match opendir host hwmon_path with
  | DirOpen sensors => fold_left (sensor_step host hwmon_path) sensors acc
  | _ => acc
  end.

(** The end of [health_check_temperature], after both branches. *)
Definition temperature_result (max_celsius : Z) (acc : Z * bool)
  : HealthCheckResult :=
  let (max_temp, temp_found) := acc in
  if negb temp_found then
    {| ok := true;
       message := snprintf 256 "Temperature monitoring not available";
       value := value zero_result |}
  else if max_temp <=? max_celsius then
    {| ok := true;
       message := snprintf 256
         ("Temperature normal: " ++ dec max_temp ++ "°C (max: "
          ++ dec max_celsius ++ "°C)");
       value := max_temp |}
  else
    {| ok := false;
       message := snprintf 256
         ("Temperature critical: " ++ dec max_temp ++ "°C (max: "
          ++ dec max_celsius ++ "°C)");
       value := max_temp |}.

(** [health_check_temperature]. In the hwmon branch the loop calls
    [readdir (thermal_dir)], not [readdir (hwmon_dir)]: at that point
    [thermal_dir] is the null pointer, when /sys/class/thermal could not
    be opened, or a stream already closed. [None]: no defined result. *)
Definition health_check_temperature (max_celsius : Z) (host : Host)
  : option HealthCheckResult :=
  let acc := (0, false) in
  let thermal_dir := opendir host "/sys/class/thermal" in
  let (acc, thermal_dir) :=
    match thermal_dir with
    | DirOpen entries => (fold_left (thermal_step host) entries acc, DirClosed)
    | _ => (acc, thermal_dir)
    end in
  let hwmon_dir := opendir host "/sys/class/hwmon" in
  let acc :=
    match hwmon_dir with
    | DirOpen _ =>
        match readdir_all thermal_dir with
        | Some entries => Some (fold_left (hwmon_step host) entries acc)
        | None => None
        end
    | _ => Some acc
    end in
  match acc with
  | Some acc => Some (temperature_result max_celsius acc)
  | None => None
  end.

(** The temperature probe as the specification words it: the hwmon branch
    iterates the hwmon directory. *)
Definition spec_health_check_temperature (max_celsius : Z) (host : Host)
  : HealthCheckResult :=
  let acc := (0, false) in
  let acc :=
    match opendir host "/sys/class/thermal" with
    | DirOpen entries => fold_left (thermal_step host) entries acc
    | _ => acc
    end in
  let acc :=
    match opendir host "/sys/class/hwmon" with
    | DirOpen entries => fold_left (hwmon_step host) entries acc
    | _ => acc
    end in
  temperature_result max_celsius acc.

(** ** Health aggregator *)

Definition health_report_clear : HealthReport :=
  {| report_timestamp := 0;
     watchdog := zero_result; ecc := zero_result; storage := zero_result;
     network := zero_result; memory := zero_result; temperature := zero_result;
     overall_score := 0; max_score := 0; overall_status := "" |}.

Definition health_config_default : HealthConfig := HEALTH_CONFIG_DEFAULT.

Definition health_score_to_status (score max : Z) : string :=
  if score >=? (max * 5) / 6 then "healthy"
  else if score >=? max / 2 then "degraded"
  else "critical".

(** The value [health_check_run] returns for a score: its last statement. *)
Definition health_verdict (score : Z) : Z :=
  if score >=? 5 then HEALTH_OK
  else if score >=? 3 then HEALTH_DEGRADED
  else HEALTH_CRITICAL.

(** [strncpy (dst, src, n)] into a zeroed buffer longer than [n]. *)
Definition strncpy (src : string) (n : nat) : string := substring 0 n src.

Definition bump (b : bool) (score : Z) : Z :=
  if b then u8 (score + 1) else score.

(** [health_check_run]: the value returned and the report after the call;
    [None] for [config] or [report] is the null pointer. The outer [None]:
    a probe ran into undefined behaviour. *)
Definition health_check_run (config : option HealthConfig)
  (report : option HealthReport) (host : Host)
  : option (Z * option HealthReport) :=
  match report with
  | None => Some (HEALTH_ERROR, None)
  | Some _ =>
      let default_config := HEALTH_CONFIG_DEFAULT in
      let config := match config with Some c => c | None => default_config end in
      let r_watchdog := health_check_watchdog host in
      let r_ecc := health_check_ecc (ecc_threshold config) host in
      match health_check_storage (storage_min_free_pct config) host with
      | None => None
      | Some r_storage =>
          let r_network := health_check_network (network_timeout_sec config) host in
          match health_check_memory (mem_min_free_kb config) host with
          | None => None
          | Some r_memory =>
              match health_check_temperature (temp_max_celsius config) host with
              | None => None
              | Some r_temperature =>
                  let score := 0 in
                  let score := bump (ok r_watchdog) score in
                  let score := bump (ok r_ecc) score in
                  let score := bump (ok r_storage) score in
                  let score := bump (ok r_network) score in
                  let score := bump (ok r_memory) score in
                  let score := bump (ok r_temperature) score in
                  let max := 6 in
                  let status := health_score_to_status score max in
                  Some (health_verdict score,
                        Some {| report_timestamp := host_time host;
                                watchdog := r_watchdog;
                                ecc := r_ecc;
                                storage := r_storage;
                                network := r_network;
                                memory := r_memory;
                                temperature := r_temperature;
                                overall_score := score;
                                max_score := max;
                                overall_status := strncpy status 31 |})
              end
          end
      end
  end.

(** The three classes both tables map a score to. *)
Inductive health_class : Type := Healthy | Degraded | Critical.

Definition status_class (status : string) : option health_class :=
  if String.eqb status "healthy" then Some Healthy
  else if String.eqb status "degraded" then Some Degraded
  else if String.eqb status "critical" then Some Critical
  else None.

Definition verdict_class (verdict : Z) : option health_class :=
  if verdict =? HEALTH_OK then Some Healthy
  else if verdict =? HEALTH_DEGRADED then Some Degraded
  else if verdict =? HEALTH_CRITICAL then Some Critical
  else None.

(** How many of the six probes of a report passed. *)
Definition probes_ok (r : HealthReport) : Z :=
  Z.of_nat
    (List.length
       (filter ok
          [watchdog r; ecc r; storage r; network r; memory r; temperature r])).

(** ** Derived notions of the probes and of journal_tool.c *)

(** The entries of /sys/devices/system/edac/mc that [health_check_ecc]
    takes for memory controllers. *)
Definition memory_controllers (entries : list string) : list string :=
  filter (prefix "mc") entries.

(** What [health_check_ecc] reads from the files ce_count and ue_count of
    the controller [d_name]. *)
Definition ce_count (host : Host) (d_name : string) : Z :=
  read_file_long host
    (snprintf 256 ("/sys/devices/system/edac/mc/" ++ d_name ++ "/ce_count")).

Definition ue_count (host : Host) (d_name : string) : Z :=
  read_file_long host
    (snprintf 256 ("/sys/devices/system/edac/mc/" ++ d_name ++ "/ue_count")).

(** The sum of the counts that were read; a negative reading, such as the
    -1 of a file that cannot be read, adds nothing. *)
Fixpoint counted (readings : list Z) : Z :=
  match readings with
  | [] => 0
  | c :: rest => (if c >=? 0 then c else 0) + counted rest
  end.

(** The text [health_check_network] formats for one target. *)
Definition ping_command (timeout_sec : Z) (target : string) : string :=
  "ping -c 1 -W " ++ dec timeout_sec ++ " " ++ target ++ " >/dev/null 2>&1".

(** [s] is one line of text: it ends with a newline and has no other. *)
Fixpoint ends_line (s : string) : bool :=
  match s with
  | EmptyString => false
  | String c EmptyString => Ascii.eqb c newline
  | String c s1 => negb (Ascii.eqb c newline) && ends_line s1
  end.

(** A line that one [fgets] into the 256-byte buffer of
    [health_check_memory] takes whole. *)
Definition text_line (line : string) : Prop :=
  ends_line line = true /\ (length line <= 255)%nat.

(** No line starts with [key]. *)
Definition no_line (key : string) (lines : list string) : Prop :=
  Forall (fun line => prefix key line = false) lines.

(** The last of the lines that start with [key] has the number [v] after
    the key, as [sscanf] with [%ld] reads it. *)
Definition last_line (key : string) (v : Z) (lines : list string) : Prop :=
  exists (before : list string) (line : string) (after : list string),
    lines = (before ++ line :: after)%list
    /\ prefix key line = true
    /\ scan_long (substring (length key) (length line) line) = Some v
    /\ no_line key after.

(** Healthy above degraded above critical. *)
Definition status_rank (status : string) : Z :=
  if String.eqb status "healthy" then 2
  else if String.eqb status "degraded" then 1
  else 0.


(** The strings of a list one after the other. *)
Fixpoint string_concat (l : list string) : string :=
  match l with
  | [] => EmptyString
  | s :: rest => s ++ string_concat rest
  end.

(** ** Sample inputs *)

(** A record as [journal_create_default] makes it at time 0. *)
Definition sample_record : BootRecord :=
  fst (journal_create_default (mkWorld (mkJournalState None (-1) false) [] 0 [] [])).

(** A record as [journal_write] commits it, with the given boot count. *)
Definition committed_record (n : Z) : BootRecord :=
  updated_record (set_boot_count sample_record n) 1700000000.

Definition sample_journal : JournalState :=
  mkJournalState (Some "/var/pac/journal.dat") 3 true.

(** [write] stores half a page. *)
Definition io_torn : PageIO := mkPageIO true (Some 18%nat) true.

(** [fsync] fails after a whole page was stored. *)
Definition io_unsynced : PageIO := mkPageIO true (Some PAGE_SIZE) false.

(** An open journal whose pages hold the given bytes. *)
Definition sample_world (page_a page_b : list Z) (script : list PageIO) : World :=
  mkWorld sample_journal (List.app page_a page_b) 1700000100 script [].

(** An open journal with boot count 7 committed, whose next write of a
    page stores half of it. *)
Definition torn_world : World :=
  sample_world (record_bytes (committed_record 7))
    (record_bytes (committed_record 7)) [io_torn].

(** A page whose crc32 field was overwritten with 0xDEADBEEF. *)
Definition corrupt_page (n : Z) : list Z :=
  record_bytes (set_crc32 (committed_record n) 0xDEADBEEF).

Definition nl : string := String newline EmptyString.

(** A host on which each probe passes or fails as the six flags say:
    a watchdog at /dev/watchdog0 or none; no EDAC tree or one controller
    with an uncorrectable error; a root file system half or one percent
    free; 1.1.1.1 answering or nobody; two gigabytes or two megabytes of
    memory available; one thermal zone at 45 or 95 degrees; no hwmon. *)
Definition sample_host (wdt edac stor net mem temp : bool) : Host :=
  {| host_stat := fun p =>
       if String.eqb p "/dev/watchdog0" then
         if wdt then Some S_IFCHR else None
       else if String.eqb p "/sys/devices/system/edac" then
         if edac then None else Some S_IFDIR
       else None;
     host_opendir := fun p =>
       if String.eqb p "/sys/devices/system/edac/mc" then
         Some ["."; ".."; "mc0"]
       else if String.eqb p "/sys/class/thermal" then
         Some ["."; ".."; "cooling_device0"; "thermal_zone0"]
       else None;
     host_fopen := fun p =>
       if String.eqb p "/sys/devices/system/edac/mc/mc0/ce_count" then
         Some ("3" ++ nl)
       else if String.eqb p "/sys/devices/system/edac/mc/mc0/ue_count" then
         Some ("1" ++ nl)
       else if String.eqb p "/proc/meminfo" then
         Some ("MemTotal:        4000000 kB" ++ nl
               ++ "MemFree:            1000 kB" ++ nl
               ++ "MemAvailable:   "
               ++ (if mem then "2000000" else "2000") ++ " kB" ++ nl)
       else if String.eqb p "/sys/class/thermal/thermal_zone0/temp" then
         Some ((if temp then "45000" else "95000") ++ nl)
       else None;
     host_statvfs := inr (1000, if stor then 500 else 10);
     host_system := fun cmd =>
       if net && String.eqb cmd "ping -c 1 -W 2 1.1.1.1 >/dev/null 2>&1"
       then 0 else 256;
     host_time := 1700000000 |}.

(** A host without /sys/class/thermal, with a hwmon device whose sensor
    reads 95 degrees. *)
Definition hwmon_only_host : Host :=
  {| host_stat := fun _ => None;
     host_opendir := fun p =>
       if String.eqb p "/sys/class/hwmon" then
         Some ["."; ".."; "hwmon0"]
       else if String.eqb p "/sys/class/hwmon/hwmon0" then
         Some ["."; ".."; "name"; "temp1_input"; "temp1_label"]
       else None;
     host_fopen := fun p =>
       if String.eqb p "/sys/class/hwmon/hwmon0/temp1_input" then
         Some ("95000" ++ nl)
       else None;
     host_statvfs := inr (1000, 500);
     host_system := fun _ => 256;
     host_time := 1700000000 |}.

(** An open journal with boot count 7 committed to both pages, on which
    every system call succeeds. *)
Definition steady_world : World :=
  sample_world (record_bytes (committed_record 7))
    (record_bytes (committed_record 7)) [].

(** A journal that was never opened, on a path that does not exist. *)
Definition blank_world : World :=
  mkWorld (mkJournalState None (-1) false) [] 1700000100 [] [].

(** The path exists and can be opened. *)
Definition good_env : InitEnv := mkInitEnv true true 3.

(** The path does not exist and can be created. *)
Definition fresh_env : InitEnv := mkInitEnv true false 3.

(** [open] fails. *)
Definition locked_env : InitEnv := mkInitEnv true true (-1).


(** A host with two memory controllers that counted 3 and 4 correctable
    errors and no uncorrectable one; mc1 has no ue_count. *)
Definition edac_host : Host :=
  {| host_stat := fun p =>
       if String.eqb p "/sys/devices/system/edac" then Some S_IFDIR else None;
     host_opendir := fun p =>
       if String.eqb p "/sys/devices/system/edac/mc" then
         Some ["."; ".."; "mc0"; "mc1"; "power"]
       else None;
     host_fopen := fun p =>
       if String.eqb p "/sys/devices/system/edac/mc/mc0/ce_count" then
         Some ("3" ++ nl)
       else if String.eqb p "/sys/devices/system/edac/mc/mc0/ue_count" then
         Some ("0" ++ nl)
       else if String.eqb p "/sys/devices/system/edac/mc/mc1/ce_count" then
         Some ("4" ++ nl)
       else if String.eqb p "/sys/devices/system/edac/mc/power/ce_count" then
         Some ("100" ++ nl)
       else None;
     host_statvfs := inr (1000, 500);
     host_system := fun _ => 256;
     host_time := 1700000000 |}.

Local Close Scope string_scope.

(** * Properties *)

(** ** Sanity of the embedding *)

Example crc32_check_value :
  crc32_compute [49; 50; 51; 52; 53; 54; 55; 56; 57] 9 = 0xCBF43926.
Proof. vm_compute. reflexivity. Qed.

Lemma le_bytes_length (n : nat) (v : Z) : List.length (le_bytes n v) = n.
Proof.
  revert v; induction n as [|n IH]; intro v; simpl; [reflexivity|].
  now rewrite IH.
Qed.

Lemma record_bytes_length (r : BootRecord) :
  List.length (record_bytes r) = PAGE_SIZE.
Proof.
  unfold record_bytes.
  repeat rewrite length_app. repeat rewrite le_bytes_length. reflexivity.
Qed.

(** ** Try counters and flags *)

Lemma u8_small (z : Z) : 0 <= z < 2 ^ 8 -> u8 z = z.
Proof. intro H. unfold u8. now apply Z.mod_small. Qed.

Lemma decrement_tier2_eq (R : BootRecord) :
  0 <= tries_t2 R < 2 ^ 8 ->
  journal_decrement_tries R TIER_2 =
  if tries_t2 R >? 0 then (tries_t2 R - 1, set_tries_t2 R (tries_t2 R - 1))
  else (0, R).
Proof.
  intro H. unfold journal_decrement_tries. simpl (TIER_2 =? TIER_2).
  destruct (tries_t2 R >? 0) eqn:E; cbn iota.
  - apply Z.gtb_lt in E. rewrite u8_small by lia. reflexivity.
  - f_equal. rewrite Z.gtb_ltb in E. apply Z.ltb_ge in E. lia.
Qed.

Lemma decrement_tier3_eq (R : BootRecord) :
  0 <= tries_t3 R < 2 ^ 8 ->
  journal_decrement_tries R TIER_3 =
  if tries_t3 R >? 0 then (tries_t3 R - 1, set_tries_t3 R (tries_t3 R - 1))
  else (0, R).
Proof.
  intro H. unfold journal_decrement_tries.
  simpl (TIER_3 =? TIER_2). simpl (TIER_3 =? TIER_3). cbn iota.
  destruct (tries_t3 R >? 0) eqn:E; cbn iota.
  - apply Z.gtb_lt in E. rewrite u8_small by lia. reflexivity.
  - f_equal. rewrite Z.gtb_ltb in E. apply Z.ltb_ge in E. lia.
Qed.

Lemma decrement_calls_tier2 (n : nat) (R : BootRecord) :
  0 <= tries_t2 R < 2 ^ 8 ->
  tries_t2 (decrement_calls n R TIER_2) = Z.max 0 (tries_t2 R - Z.of_nat n).
Proof.
  intro H. induction n as [|n IH].
  - simpl. lia.
  - cbn [decrement_calls]. rewrite decrement_tier2_eq by (rewrite IH; lia).
    destruct (tries_t2 (decrement_calls n R TIER_2) >? 0) eqn:E; cbn [snd].
    + apply Z.gtb_lt in E. cbn [set_tries_t2 tries_t2]. lia.
    + rewrite Z.gtb_ltb in E. apply Z.ltb_ge in E. lia.
Qed.

Lemma decrement_calls_tier3 (n : nat) (R : BootRecord) :
  0 <= tries_t3 R < 2 ^ 8 ->
  tries_t3 (decrement_calls n R TIER_3) = Z.max 0 (tries_t3 R - Z.of_nat n).
Proof.
  intro H. induction n as [|n IH].
  - simpl. lia.
  - cbn [decrement_calls]. rewrite decrement_tier3_eq by (rewrite IH; lia).
    destruct (tries_t3 (decrement_calls n R TIER_3) >? 0) eqn:E; cbn [snd].
    + apply Z.gtb_lt in E. cbn [set_tries_t3 tries_t3]. lia.
    + rewrite Z.gtb_ltb in E. apply Z.ltb_ge in E. lia.
Qed.

(** C4. For a record whose fields hold values of their C types:
    [journal_decrement_tries] for tier 2 decrements [tries_t2] only when
    it is positive, leaves every other field alone and returns the new
    count; for tier 3 it does the same with [tries_t3]; once a counter
    has been decremented as often as its initial value says, every call
    returns 0, however many follow; and for a tier other than 2 and 3
    the call returns -1 and the record stays as it is. *)
Theorem journal_decrement_tries_spec (R : BootRecord) (t : Z) :
  wf_record R ->
  (tries_t2 R > 0 ->
   journal_decrement_tries R 2 = (tries_t2 R - 1, set_tries_t2 R (tries_t2 R - 1)))
  /\ (tries_t2 R = 0 -> journal_decrement_tries R 2 = (0, R))
  /\ (tries_t3 R > 0 ->
      journal_decrement_tries R 3 = (tries_t3 R - 1, set_tries_t3 R (tries_t3 R - 1)))
  /\ (tries_t3 R = 0 -> journal_decrement_tries R 3 = (0, R))
  /\ (forall n : nat,
        tries_t2 R <= Z.of_nat (S n) ->
        fst (journal_decrement_tries (decrement_calls n R 2) 2) = 0)
  /\ (forall n : nat,
        tries_t3 R <= Z.of_nat (S n) ->
        fst (journal_decrement_tries (decrement_calls n R 3) 3) = 0)
  /\ (t <> 2 -> t <> 3 -> journal_decrement_tries R t = (-1, R)).
Proof.
  intros (_ & _ & H2 & H3 & _).
  change 2 with TIER_2. change 3 with TIER_3.
  repeat split.
  - intro Hp. rewrite decrement_tier2_eq by exact H2.
    destruct (tries_t2 R >? 0) eqn:E; [reflexivity|].
    rewrite Z.gtb_ltb in E. apply Z.ltb_ge in E. lia.
  - intro Hz. rewrite decrement_tier2_eq by exact H2.
    rewrite Hz. reflexivity.
  - intro Hp. rewrite decrement_tier3_eq by exact H3.
    destruct (tries_t3 R >? 0) eqn:E; [reflexivity|].
    rewrite Z.gtb_ltb in E. apply Z.ltb_ge in E. lia.
  - intro Hz. rewrite decrement_tier3_eq by exact H3.
    rewrite Hz. reflexivity.
  - intros n Hn.
    pose proof (decrement_calls_tier2 n R H2) as Hc.
    rewrite decrement_tier2_eq by (rewrite Hc; lia).
    destruct (tries_t2 (decrement_calls n R TIER_2) >? 0) eqn:E; cbn [fst];
      [|reflexivity].
    apply Z.gtb_lt in E. lia.
  - intros n Hn.
    pose proof (decrement_calls_tier3 n R H3) as Hc.
    rewrite decrement_tier3_eq by (rewrite Hc; lia).
    destruct (tries_t3 (decrement_calls n R TIER_3) >? 0) eqn:E; cbn [fst];
      [|reflexivity].
    apply Z.gtb_lt in E. lia.
  - intros Ht2 Ht3. unfold journal_decrement_tries, TIER_2, TIER_3.
    destruct (Z.eqb_spec t 2); [contradiction|].
    destruct (Z.eqb_spec t 3); [contradiction|]. reflexivity.
Qed.

Lemma sample_record_wf : wf_record sample_record.
Proof. vm_compute. repeat split; discriminate. Qed.

Lemma journal_decrement_tries_witness :
  journal_decrement_tries sample_record 2 = (2, set_tries_t2 sample_record 2)
  /\ fst (journal_decrement_tries (decrement_calls 5 sample_record 2) 2) = 0
  /\ journal_decrement_tries sample_record 7 = (-1, sample_record).
Proof.
  pose proof (journal_decrement_tries_spec sample_record 7 sample_record_wf)
    as (H1 & _ & _ & _ & H5 & _ & H7).
  split; [|split].
  - apply H1. vm_compute. reflexivity.
  - apply (H5 5%nat). vm_compute. discriminate.
  - apply H7; discriminate.
Defined.

Lemma set_clear_bits (x f : Z) :
  0 <= x < 2 ^ 32 -> Z.lor (Z.land x (not32 f)) f = Z.lor x f.
Proof.
  intro Hx. apply Z.bits_inj'. intros n Hn.
  rewrite !Z.lor_spec, Z.land_spec. unfold not32, u32.
  destruct (Z.lt_ge_cases n 32) as [Hlt | Hge].
  - rewrite Z.mod_pow2_bits_low by lia. rewrite Z.lnot_spec by exact Hn.
    destruct (Z.testbit x n), (Z.testbit f n); reflexivity.
  - rewrite Z.mod_pow2_bits_high by lia.
    rewrite <- (Z.mod_small x (2 ^ 32)) by exact Hx.
    rewrite Z.mod_pow2_bits_high by lia. reflexivity.
Qed.

(** C8. Setting a flag mask after clearing it gives the record that
    setting it directly gives, for every record whose fields hold values
    of their C types and every mask. *)
Theorem journal_set_after_clear_flag (R : BootRecord) (f : Z) :
  wf_record R ->
  journal_set_flag (journal_clear_flag R f) f = journal_set_flag R f.
Proof.
  intros (_ & _ & _ & _ & _ & Hf & _).
  unfold journal_set_flag, journal_clear_flag, set_flags. cbn.
  rewrite set_clear_bits by exact Hf. reflexivity.
Qed.

Lemma journal_set_after_clear_flag_witness :
  journal_set_flag
    (journal_clear_flag (journal_set_flag sample_record FLAG_DIRTY) FLAG_DIRTY)
    FLAG_DIRTY
  = journal_set_flag (journal_set_flag sample_record FLAG_DIRTY) FLAG_DIRTY.
Proof.
  apply (journal_set_after_clear_flag
           (journal_set_flag sample_record FLAG_DIRTY) FLAG_DIRTY).
  vm_compute. repeat split; discriminate.
Defined.

(** ** Journal store *)

(** *** Page transfers *)

Lemma world_eta (w : World) :
  mkWorld (journal_state w) (file w) (now w) (io_script w) (write_log w) = w.
Proof. destruct w; reflexivity. Qed.

Lemma next_io_eq (w : World) : next_io w = (nth_io 0 w, advance w).
Proof.
  unfold next_io, nth_io, advance. destruct w as [js f t script log]; cbn.
  destruct script; reflexivity.
Qed.

Lemma nth_io_advance (k : nat) (w : World) :
  nth_io k (advance w) = nth_io (S k) w.
Proof.
  unfold nth_io, advance; cbn. destruct (io_script w); [|reflexivity].
  destruct k; reflexivity.
Qed.

Lemma nth_io_after_write (k : nat) (w : World) (offset : nat) (rec : BootRecord) :
  nth_io k (after_write w offset rec) = nth_io (S k) w.
Proof.
  unfold nth_io, after_write; cbn. destruct (io_script w); [|reflexivity].
  destruct k; reflexivity.
Qed.

Lemma fd_guard (z : Z) (b : bool) : 0 <= z -> (z <? 0) || b = b.
Proof. intro H. destruct (Z.ltb_spec z 0); [lia | reflexivity]. Qed.

Lemma whole_page_put (n : nat) (rec : BootRecord) :
  (List.length (firstn (Nat.min n PAGE_SIZE) (record_bytes rec)) =? PAGE_SIZE)%nat
  = (PAGE_SIZE <=? n)%nat.
Proof.
  rewrite length_firstn, record_bytes_length.
  destruct (Nat.leb_spec PAGE_SIZE n).
  - apply Nat.eqb_eq. lia.
  - apply Nat.eqb_neq. lia.
Qed.

Lemma write_page_eq (z : Z) (offset : nat) (rec : BootRecord) (w : World) :
  0 <= z ->
  write_page z offset rec w = (write_code (nth_io 0 w), after_write w offset rec).
Proof.
  intro Hz. unfold write_page, bind. rewrite next_io_eq.
  unfold get_file, after_write, written_file, write_code, transfers.
  rewrite (fd_guard _ _ Hz).
  destruct (seek_ok (nth_io 0 w)); cbn [negb andb]; [|reflexivity].
  destruct (xfer (nth_io 0 w)) as [n|]; [|reflexivity].
  unfold put_file, log_write, ret, bind. cbn [advance file journal_state now io_script write_log].
  rewrite whole_page_put.
  destruct (PAGE_SIZE <=? n)%nat; cbn [negb andb]; [|reflexivity].
  destruct (fsync_ok (nth_io 0 w)); reflexivity.
Qed.

Lemma read_page_world (z : Z) (offset : nat) (w : World) :
  snd (read_page z offset w) = advance w.
Proof.
  unfold read_page, bind. rewrite next_io_eq. unfold get_file, ret.
  destruct ((z <? 0) || negb (seek_ok (nth_io 0 w))); [reflexivity|].
  destruct (xfer (nth_io 0 w)); [|reflexivity].
  destruct (negb _); reflexivity.
Qed.

Lemma read_page_transfers (z : Z) (offset : nat) (w : World) :
  0 <= z -> transfers (nth_io 0 w) = true ->
  fst (read_page z offset w) =
  match disk_page (file w) offset with
  | Some page => (JOURNAL_OK, Some page)
  | None => (JOURNAL_ERR_IO, None)
  end.
Proof.
  intros Hz Hio. unfold read_page, bind. rewrite next_io_eq.
  unfold get_file, ret. rewrite (fd_guard _ _ Hz).
  unfold transfers in Hio. apply andb_prop in Hio as [Hseek Hx].
  rewrite Hseek. cbn [negb].
  destruct (xfer (nth_io 0 w)) as [n|]; [|discriminate].
  apply Nat.leb_le in Hx. rewrite Nat.min_r by exact Hx.
  unfold disk_page, slice. cbn [advance file].
  destruct (List.length (firstn PAGE_SIZE (skipn offset (file w))) =? PAGE_SIZE)%nat;
    reflexivity.
Qed.

Lemma read_page_pair (z : Z) (offset : nat) (w : World) :
  read_page z offset w = (fst (read_page z offset w), advance w).
Proof. rewrite <- (read_page_world z offset w). now destruct (read_page z offset w). Qed.

Lemma journal_create_default_world (w : World) :
  snd (journal_create_default w) = w.
Proof. reflexivity. Qed.

(** *** Validation of the record [journal_write] regenerates *)

Lemma crc_prefix_set_crc32 (rec : BootRecord) (c : Z) :
  firstn CRC_OFFSET (record_bytes (set_crc32 rec c)) =
  firstn CRC_OFFSET (record_bytes rec).
Proof.
  unfold record_bytes, CRC_OFFSET.
  cbn [set_crc32 version tier tries_t2 tries_t3 rollback_idx flags boot_count
       timestamp crc32 trailer].
  cbn [le_bytes List.app firstn]. reflexivity.
Qed.

Lemma record_calculate_crc_set_crc32 (rec : BootRecord) (c : Z) :
  record_calculate_crc (set_crc32 rec c) = record_calculate_crc rec.
Proof.
  unfold record_calculate_crc, crc32_compute.
  rewrite crc_prefix_set_crc32. reflexivity.
Qed.

Lemma journal_validate_updated (rec : BootRecord) (t : Z) :
  journal_validate (updated_record rec t) =
  (version rec =? 1) && negb ((tier rec <? 1) || (tier rec >? 3)).
Proof.
  unfold journal_validate, updated_record.
  cbn [trailer set_crc32 set_trailer set_timestamp crc32 version tier].
  rewrite Z.eqb_refl. cbn [negb].
  rewrite record_calculate_crc_set_crc32. 
  cbn [trailer set_crc32 set_trailer set_timestamp crc32 version tier].
  rewrite Z.eqb_refl. cbn [negb].
  unfold JOURNAL_VERSION, TIER_1, TIER_3.
  destruct (version rec =? 1); cbn [negb andb]; [|reflexivity].
  destruct ((tier rec <? 1) || (tier rec >? 3)); reflexivity.
Qed.

Lemma page_eq_dec_guard (w : World) :
  initialized (journal_state w) = true -> 0 <= fd (journal_state w) ->
  negb (initialized (journal_state w)) || (fd (journal_state w) <? 0) = false.
Proof.
  intros Hi Hf. rewrite Hi. cbn [negb orb].
  destruct (Z.ltb_spec (fd (journal_state w)) 0); [lia | reflexivity].
Qed.

(** The shape of [journal_recover] on an open journal, with the worlds
    between its steps written out. *)
Lemma journal_recover_eq (rec : BootRecord) (w : World) :
  initialized (journal_state w) = true -> 0 <= fd (journal_state w) ->
  let z := fd (journal_state w) in
  let w2 := advance (advance w) in
  journal_recover rec w =
  match valid_page (fst (read_page z PAGE_A_OFFSET w)),
        valid_page (fst (read_page z PAGE_B_OFFSET (advance w))) with
  | Some page_a, Some page_b =>
      ((JOURNAL_OK,
        if boot_count page_a >=? boot_count page_b then page_a else page_b), w2)
  | Some page_a, None =>
      ((JOURNAL_OK, page_a), after_write w2 PAGE_B_OFFSET page_a)
  | None, Some page_b =>
      ((JOURNAL_OK, page_b), after_write w2 PAGE_A_OFFSET page_b)
  | None, None =>
      let rec1 := fst (journal_create_default w) in
      ((JOURNAL_OK, rec1),
       after_write (after_write w2 PAGE_A_OFFSET rec1) PAGE_B_OFFSET rec1)
  end.
Proof.
  intros Hi Hf z w2. unfold journal_recover, bind at 1. unfold get_journal_state.
  rewrite (page_eq_dec_guard w Hi Hf). fold z.
  pose proof (read_page_world z PAGE_A_OFFSET w) as Ha.
  unfold bind at 1.
  destruct (read_page z PAGE_A_OFFSET w) as [ra wa]. cbn [fst snd] in *. subst wa.
  pose proof (read_page_world z PAGE_B_OFFSET (advance w)) as Hb.
  unfold bind at 1.
  destruct (read_page z PAGE_B_OFFSET (advance w)) as [rb wb].
  cbn [fst snd] in *. subst wb. fold w2.
  destruct (valid_page ra) as [page_a|]; destruct (valid_page rb) as [page_b|].
  - destruct (boot_count page_a >=? boot_count page_b); reflexivity.
  - unfold bind, ret. rewrite write_page_eq by exact Hf. reflexivity.
  - unfold bind, ret. rewrite write_page_eq by exact Hf. reflexivity.
  - unfold bind at 1.
    change (journal_create_default w2) with (fst (journal_create_default w), w2).
    cbv zeta. unfold bind, ret.
    rewrite write_page_eq by exact Hf. rewrite write_page_eq by exact Hf.
    reflexivity.
Qed.

Lemma valid_page_ok (page : BootRecord) :
  journal_validate page = true ->
  valid_page (JOURNAL_OK, Some page) = Some page.
Proof. intro H. unfold valid_page. rewrite H. reflexivity. Qed.

(** C1. On an open journal whose two pages both hold valid records and
    are both read in full, [journal_recover] returns [JOURNAL_OK] with
    the record of the page with the larger [boot_count], page A's on a
    tie, and writes nothing: the file and the log of [write_page] calls
    are as before. *)
Theorem journal_recover_both_valid
  (rec : BootRecord) (w : World) (page_a page_b : BootRecord) :
  initialized (journal_state w) = true ->
  0 <= fd (journal_state w) ->
  transfers (nth_io 0 w) = true ->
  transfers (nth_io 1 w) = true ->
  disk_page (file w) PAGE_A_OFFSET = Some page_a ->
  disk_page (file w) PAGE_B_OFFSET = Some page_b ->
  journal_validate page_a = true ->
  journal_validate page_b = true ->
  exists (out : BootRecord) (w1 : World),
    journal_recover rec w = ((JOURNAL_OK, out), w1)
    /\ (boot_count page_a > boot_count page_b -> out = page_a)
    /\ (boot_count page_a = boot_count page_b -> out = page_a)
    /\ (boot_count page_a < boot_count page_b -> out = page_b)
    /\ file w1 = file w
    /\ write_log w1 = write_log w.
Proof.
  intros Hi Hf Ha Hb Da Db Va Vb.
  rewrite (journal_recover_eq rec w Hi Hf). cbv zeta.
  rewrite (read_page_transfers _ _ w Hf Ha), Da.
  rewrite (read_page_transfers _ _ (advance w) Hf)
    by (rewrite nth_io_advance; exact Hb).
  cbn [advance file]. rewrite Db.
  rewrite (valid_page_ok _ Va), (valid_page_ok _ Vb).
  eexists. eexists. split; [reflexivity|].
  repeat split; intro Hc.
  - destruct (Z.geb_spec (boot_count page_a) (boot_count page_b)); [reflexivity | lia].
  - destruct (Z.geb_spec (boot_count page_a) (boot_count page_b)); [reflexivity | lia].
  - destruct (Z.geb_spec (boot_count page_a) (boot_count page_b)); [lia | reflexivity].
Qed.

Lemma journal_recover_both_valid_witness :
  exists (out : BootRecord) (w1 : World),
    journal_recover zero_record
      (sample_world (record_bytes (committed_record 7))
         (record_bytes (committed_record 8)) []) = ((JOURNAL_OK, out), w1)
    /\ out = committed_record 8
    /\ write_log w1 = [].
Proof.
  destruct (journal_recover_both_valid zero_record
              (sample_world (record_bytes (committed_record 7))
                 (record_bytes (committed_record 8)) [])
              (committed_record 7) (committed_record 8))
    as (out & w1 & Hrun & _ & _ & Hlt & _ & Hlog);
    try (vm_compute; reflexivity).
  - vm_compute. discriminate.
  - exists out, w1. split; [exact Hrun|]. split; [|exact Hlog].
    apply Hlt. vm_compute. reflexivity.
Defined.

(** C10. On an open journal [journal_recover] returns [JOURNAL_OK]
    whatever its repair writes return. With only page A valid it returns
    page A's record after one [write_page] to page B; with only page B
    valid, page B's record after one [write_page] to page A; with neither
    valid, the default record after a [write_page] to each page. The code
    each of these writes returned, which is [JOURNAL_ERR_IO] when the
    transfer or its [fsync] fails, shows in the log only. *)
Theorem journal_recover_ignores_repair_failure (rec : BootRecord) (w : World) :
  initialized (journal_state w) = true ->
  0 <= fd (journal_state w) ->
  let z := fd (journal_state w) in
  let a_valid := valid_page (fst (read_page z PAGE_A_OFFSET w)) in
  let b_valid := valid_page (fst (read_page z PAGE_B_OFFSET (advance w))) in
  let repair := fun (k : nat) (offset : nat) =>
                  mkWriteCall offset (write_code (nth_io k w)) in
  exists (out : BootRecord) (w1 : World),
    journal_recover rec w = ((JOURNAL_OK, out), w1)
    /\ match a_valid, b_valid with
       | Some page_a, Some page_b => write_log w1 = write_log w
       | Some page_a, None =>
           out = page_a
           /\ write_log w1 = write_log w ++ [repair 2%nat PAGE_B_OFFSET]
       | None, Some page_b =>
           out = page_b
           /\ write_log w1 = write_log w ++ [repair 2%nat PAGE_A_OFFSET]
       | None, None =>
           out = fst (journal_create_default w)
           /\ write_log w1 =
              write_log w ++ [repair 2%nat PAGE_A_OFFSET; repair 3%nat PAGE_B_OFFSET]
       end.
Proof.
  intros Hi Hf z a_valid b_valid repair.
  rewrite (journal_recover_eq rec w Hi Hf). cbv zeta.
  fold z. fold a_valid. fold b_valid.
  destruct a_valid as [page_a|]; destruct b_valid as [page_b|];
    eexists; eexists; (split; [reflexivity|]).
  - reflexivity.
  - split; [reflexivity|]. unfold after_write, repair. cbn [write_log advance].
    rewrite !nth_io_advance. reflexivity.
  - split; [reflexivity|]. unfold after_write, repair. cbn [write_log advance].
    rewrite !nth_io_advance. reflexivity.
  - split; [reflexivity|]. unfold repair.
    unfold after_write at 1. cbn [write_log].
    rewrite nth_io_after_write, !nth_io_advance.
    unfold after_write. cbn [write_log advance].
    rewrite !nth_io_advance. rewrite <- app_assoc. reflexivity.
Qed.

Lemma journal_recover_ignores_repair_failure_witness :
  exists (out : BootRecord) (w1 : World),
    journal_recover zero_record
      (sample_world (record_bytes (committed_record 7)) (corrupt_page 7)
         [io_good; io_good; io_unsynced]) = ((JOURNAL_OK, out), w1)
    /\ out = committed_record 7
    /\ write_log w1 = [mkWriteCall PAGE_B_OFFSET JOURNAL_ERR_IO].
Proof.
  destruct (journal_recover_ignores_repair_failure zero_record
              (sample_world (record_bytes (committed_record 7)) (corrupt_page 7)
                 [io_good; io_good; io_unsynced]))
    as (out & w1 & Hrun & Hcase); try (vm_compute; reflexivity).
  - vm_compute. discriminate.
  - exists out, w1. split; [exact Hrun|].
    vm_compute in Hcase. exact Hcase.
Defined.

(** The shape of [journal_write] on an open journal. *)
Lemma journal_write_eq (rec : BootRecord) (w : World) :
  initialized (journal_state w) = true -> 0 <= fd (journal_state w) ->
  let updated := updated_record rec (now w) in
  journal_write (Some rec) w =
  if negb (journal_validate updated) then (JOURNAL_ERR_INVALID, w)
  else if negb (write_code (nth_io 0 w) =? JOURNAL_OK)
  then (JOURNAL_ERR_IO, after_write w PAGE_A_OFFSET updated)
  else
    let w2 := after_write (after_write w PAGE_A_OFFSET updated)
                PAGE_B_OFFSET updated in
    if negb (write_code (nth_io 1 w) =? JOURNAL_OK)
    then (JOURNAL_ERR_IO, w2) else (JOURNAL_OK, w2).
Proof.
  intros Hi Hf updated. unfold journal_write, bind at 1. unfold get_journal_state.
  rewrite (page_eq_dec_guard w Hi Hf).
  unfold bind at 1. unfold time.
  change (set_crc32 (set_trailer (set_timestamp rec (u64 (now w))) JOURNAL_MAGIC)
            (record_calculate_crc
               (set_trailer (set_timestamp rec (u64 (now w))) JOURNAL_MAGIC)))
    with updated.
  destruct (negb (journal_validate updated)); [reflexivity|].
  unfold bind at 1. rewrite write_page_eq by exact Hf.
  destruct (negb (write_code (nth_io 0 w) =? JOURNAL_OK)); [reflexivity|].
  unfold bind at 1. rewrite write_page_eq by exact Hf.
  rewrite nth_io_after_write. cbv zeta.
  destruct (negb (write_code (nth_io 1 w) =? JOURNAL_OK)); reflexivity.
Qed.

Lemma write_code_cases (io : PageIO) :
  write_code io = JOURNAL_OK \/ write_code io = JOURNAL_ERR_IO.
Proof. unfold write_code. destruct (transfers io && fsync_ok io); auto. Qed.

Lemma semantic_fields_spec (rec : BootRecord) :
  (version rec =? 1) && negb ((tier rec <? 1) || (tier rec >? 3)) = true
  <-> version rec = 1 /\ 1 <= tier rec <= 3.
Proof.
  rewrite andb_true_iff, negb_true_iff, orb_false_iff.
  rewrite Z.eqb_eq, Z.ltb_ge, Z.gtb_ltb, Z.ltb_ge. tauto.
Qed.

Lemma updated_record_regenerates (rec : BootRecord) (c t ts : Z) :
  updated_record (set_trailer (set_crc32 rec c) t) ts = updated_record rec ts.
Proof.
  unfold updated_record. cbv zeta.
  replace (set_trailer (set_timestamp (set_trailer (set_crc32 rec c) t) (u64 ts))
             JOURNAL_MAGIC)
    with (set_crc32 (set_trailer (set_timestamp rec (u64 ts)) JOURNAL_MAGIC) c)
    by reflexivity.
  rewrite record_calculate_crc_set_crc32.
  generalize (record_calculate_crc
                (set_trailer (set_timestamp rec (u64 ts)) JOURNAL_MAGIC)).
  intro x. reflexivity.
Qed.

(** C9. On an open journal and a non-null record, [journal_write]
    returns [JOURNAL_ERR_INVALID] exactly when the record's [version] is
    not 1 or its [tier] is outside 1..3; with [version] 1, a [tier] in
    1..3 and both page writes succeeding it returns [JOURNAL_OK]; and the
    [crc32] and [trailer] the caller put in the record have no effect on
    the result or on what is written. *)
Theorem journal_write_validates_semantic_fields (rec : BootRecord) (w : World) :
  initialized (journal_state w) = true ->
  0 <= fd (journal_state w) ->
  (fst (journal_write (Some rec) w) = JOURNAL_ERR_INVALID
   <-> (version rec <> 1 \/ ~ (1 <= tier rec <= 3)))
  /\ (version rec = 1 -> 1 <= tier rec <= 3 ->
      write_code (nth_io 0 w) = JOURNAL_OK ->
      write_code (nth_io 1 w) = JOURNAL_OK ->
      fst (journal_write (Some rec) w) = JOURNAL_OK)
  /\ (forall c t : Z,
        journal_write (Some (set_trailer (set_crc32 rec c) t)) w
        = journal_write (Some rec) w).
Proof.
  intros Hi Hf. split; [|split].
  - rewrite (journal_write_eq rec w Hi Hf). cbv zeta.
    rewrite journal_validate_updated.
    pose proof (semantic_fields_spec rec) as Hs.
    destruct ((version rec =? 1) && negb ((tier rec <? 1) || (tier rec >? 3))).
    + cbn [negb]. split.
      * intro H. exfalso.
        destruct (write_code_cases (nth_io 0 w)) as [E0 | E0]; rewrite E0 in H;
          cbn in H; [|discriminate].
        destruct (write_code_cases (nth_io 1 w)) as [E1 | E1]; rewrite E1 in H;
          cbn in H; discriminate.
      * intro H. exfalso. destruct Hs as [Hs _]. specialize (Hs eq_refl). tauto.
    + cbn [negb fst]. split; [|reflexivity].
      intros _. destruct (Z.eq_dec (version rec) 1) as [Ev|Ev]; [|now left].
      right. intro Ht. destruct Hs as [_ Hs]. discriminate Hs. now split.
  - intros Hv Ht H0 H1.
    rewrite (journal_write_eq rec w Hi Hf). cbv zeta.
    rewrite journal_validate_updated.
    destruct (semantic_fields_spec rec) as [_ Hs]. rewrite Hs by now split.
    rewrite H0, H1. reflexivity.
  - intros c t.
    rewrite (journal_write_eq rec w Hi Hf).
    rewrite (journal_write_eq (set_trailer (set_crc32 rec c) t) w Hi Hf).
    rewrite updated_record_regenerates. reflexivity.
Qed.

Lemma journal_write_validates_semantic_fields_witness :
  fst (journal_write (Some (set_trailer (set_crc32 (committed_record 9) 0xDEADBEEF) 0))
         (sample_world (record_bytes (committed_record 7))
            (record_bytes (committed_record 7)) [])) = JOURNAL_OK.
Proof.
  apply (journal_write_validates_semantic_fields
           (set_trailer (set_crc32 (committed_record 9) 0xDEADBEEF) 0)
           (sample_world (record_bytes (committed_record 7))
              (record_bytes (committed_record 7)) []));
    vm_compute; solve [reflexivity | discriminate | split; discriminate].
Defined.

(** *** Page B during a write of page A *)

Lemma skipn_file_write_front (f put : list Z) :
  (List.length put <= PAGE_SIZE)%nat ->
  skipn PAGE_SIZE (file_write f PAGE_A_OFFSET put) = skipn PAGE_SIZE f.
Proof.
  intro Hlen. unfold file_write, PAGE_A_OFFSET.
  destruct put as [|b put']; [reflexivity|].
  set (put := b :: put') in *.
  cbn [firstn Nat.sub repeat List.app Nat.add].
  rewrite skipn_app.
  rewrite (skipn_all2 put) by exact Hlen. cbn [List.app].
  rewrite skipn_skipn. f_equal. lia.
Qed.

Lemma page_b_after_write_a (io : PageIO) (f : list Z) (rec : BootRecord) :
  skipn PAGE_SIZE (written_file io f PAGE_A_OFFSET rec) = skipn PAGE_SIZE f.
Proof.
  unfold written_file. destruct (seek_ok io); [|reflexivity].
  destruct (xfer io) as [n|]; [|reflexivity].
  apply skipn_file_write_front. rewrite length_firstn. lia.
Qed.

(** C2. On an open journal and a record that passes validation, when
    the [write_page] of page A does not return [JOURNAL_OK] then
    [journal_write] returns [JOURNAL_ERR_IO], the bytes of page B in the
    file are what they were, and page A's is the only [write_page] call
    made. In every run of [journal_write] a [write_page] to page B is
    made only after the one to page A returned [JOURNAL_OK]. *)
Theorem journal_write_page_a_failure (rec : BootRecord) (w : World) :
  initialized (journal_state w) = true ->
  0 <= fd (journal_state w) ->
  let code := fst (journal_write (Some rec) w) in
  let w1 := snd (journal_write (Some rec) w) in
  (version rec = 1 -> 1 <= tier rec <= 3 ->
   write_code (nth_io 0 w) <> JOURNAL_OK ->
   code = JOURNAL_ERR_IO
   /\ page_b_bytes (file w1) = page_b_bytes (file w)
   /\ write_log w1 = write_log w ++ [mkWriteCall PAGE_A_OFFSET JOURNAL_ERR_IO])
  /\ (exists calls : list WriteCall,
        write_log w1 = write_log w ++ calls
        /\ (calls = []
            \/ calls = [mkWriteCall PAGE_A_OFFSET JOURNAL_ERR_IO]
            \/ exists c : Z,
                 calls = [mkWriteCall PAGE_A_OFFSET JOURNAL_OK;
                          mkWriteCall PAGE_B_OFFSET c])).
Proof.
  intros Hi Hf. cbv zeta.
  rewrite (journal_write_eq rec w Hi Hf). cbv zeta.
  rewrite journal_validate_updated. split.
  - intros Hv Ht Hfail.
    destruct (semantic_fields_spec rec) as [_ Hs]. rewrite Hs by now split.
    cbn [negb].
    destruct (write_code_cases (nth_io 0 w)) as [E | E]; [contradiction|].
    rewrite E. cbn [Z.eqb JOURNAL_ERR_IO JOURNAL_OK negb fst snd].
    split; [reflexivity|]. split.
    + unfold page_b_bytes, slice, after_write, PAGE_B_OFFSET. cbn [file].
      rewrite page_b_after_write_a. reflexivity.
    + unfold after_write. cbn [write_log]. rewrite E. reflexivity.
  - destruct (negb ((version rec =? 1) && negb ((tier rec <? 1) || (tier rec >? 3)))).
    + exists []. cbn [snd]. rewrite app_nil_r. auto.
    + destruct (write_code_cases (nth_io 0 w)) as [E | E]; rewrite E.
      * cbn [Z.eqb JOURNAL_OK negb].
        exists [mkWriteCall PAGE_A_OFFSET JOURNAL_OK;
                mkWriteCall PAGE_B_OFFSET (write_code (nth_io 1 w))].
        split; [|right; right; eexists; reflexivity].
        destruct (negb (write_code (nth_io 1 w) =? JOURNAL_OK)); cbn [snd];
          unfold after_write; cbn [write_log]; rewrite E;
          rewrite <- app_assoc; cbn [List.app];
          change (nth_io 0 _) with (nth_io 0 (after_write w PAGE_A_OFFSET
             (updated_record rec (now w))));
          rewrite nth_io_after_write; reflexivity.
      * cbn [Z.eqb JOURNAL_ERR_IO JOURNAL_OK negb snd].
        exists [mkWriteCall PAGE_A_OFFSET JOURNAL_ERR_IO].
        split; [|auto]. unfold after_write. cbn [write_log]. rewrite E. reflexivity.
Qed.

Lemma journal_write_page_a_failure_witness :
  fst (journal_write (Some (committed_record 8)) torn_world) = JOURNAL_ERR_IO
  /\ page_b_bytes (file (snd (journal_write (Some (committed_record 8)) torn_world)))
     = page_b_bytes (file torn_world)
  /\ write_log (snd (journal_write (Some (committed_record 8)) torn_world))
     = write_log torn_world ++ [mkWriteCall PAGE_A_OFFSET JOURNAL_ERR_IO].
Proof.
  assert (Hi : initialized (journal_state torn_world) = true) by reflexivity.
  assert (Hf : 0 <= fd (journal_state torn_world))
    by (vm_compute; discriminate).
  assert (Hv : version (committed_record 8) = 1) by reflexivity.
  assert (Ht : 1 <= tier (committed_record 8) <= 3)
    by (vm_compute; split; discriminate).
  assert (Hw : write_code (nth_io 0 torn_world) <> JOURNAL_OK)
    by (vm_compute; discriminate).
  exact (proj1 (journal_write_page_a_failure _ _ Hi Hf) Hv Ht Hw).
Defined.

(** ** Probes *)

Local Open Scope string_scope.
Local Open Scope Z_scope.

(** C3, as the code has it. When neither /dev/watchdog nor /dev/watchdog0
    is a character device, [health_check_watchdog] reports failure:
    [ok] is false, the message is "No watchdog device found" and the
    value is 0. *)
Theorem health_check_watchdog_absent (host : Host) :
  is_char_device host "/dev/watchdog" = false ->
  is_char_device host "/dev/watchdog0" = false ->
  health_check_watchdog host =
  {| ok := false; message := "No watchdog device found"; value := 0 |}.
Proof.
  intros H0 H1. unfold health_check_watchdog. rewrite H0, H1. reflexivity.
Qed.

Lemma health_check_watchdog_absent_witness :
  health_check_watchdog (sample_host false true true true true true) =
  {| ok := false; message := "No watchdog device found"; value := 0 |}.
Proof.
  apply (health_check_watchdog_absent
           (sample_host false true true true true true));
    vm_compute; reflexivity.
Defined.

(** C3, as the specification words it, fails: on a host without any
    watchdog device the probe does not return [ok = true]. *)
Lemma health_check_watchdog_absent_not_ok :
  is_char_device (sample_host false true true true true true) "/dev/watchdog"
    = false
  /\ is_char_device (sample_host false true true true true true) "/dev/watchdog0"
    = false
  /\ ok (health_check_watchdog (sample_host false true true true true true))
    <> true
  /\ message (health_check_watchdog (sample_host false true true true true true))
    = "No watchdog device found".
Proof. vm_compute. repeat split; discriminate. Qed.

Lemma health_check_watchdog_present (host : Host) :
  is_char_device host "/dev/watchdog" = true
  \/ is_char_device host "/dev/watchdog0" = true ->
  ok (health_check_watchdog host) = true.
Proof.
  intro H. unfold health_check_watchdog.
  destruct (is_char_device host "/dev/watchdog"); [reflexivity|].
  destruct H as [H | H]; [discriminate|]. rewrite H. reflexivity.
Qed.

(** As soon as /sys/class/hwmon can be opened the probe has no defined
    result: its hwmon loop reads the thermal stream, which by then is the
    null pointer or was closed. *)
Lemma health_check_temperature_hwmon_undefined
  (max_celsius : Z) (host : Host) (entries : list string) :
  host_opendir host "/sys/class/hwmon" = Some entries ->
  health_check_temperature max_celsius host = None.
Proof.
  intro H. unfold health_check_temperature, opendir. rewrite H.
  destruct (host_opendir host "/sys/class/thermal"); reflexivity.
Qed.

(** Without /sys/class/hwmon the probe and its specification agree. *)
Lemma health_check_temperature_no_hwmon (max_celsius : Z) (host : Host) :
  host_opendir host "/sys/class/hwmon" = None ->
  health_check_temperature max_celsius host =
  Some (spec_health_check_temperature max_celsius host).
Proof.
  intro H.
  unfold health_check_temperature, spec_health_check_temperature, opendir.
  rewrite H.
  destruct (host_opendir host "/sys/class/thermal"); reflexivity.
Qed.

(** Without /sys/class/thermal and with /sys/class/hwmon the stream the
    hwmon loop reads is the null pointer. *)
Lemma health_check_temperature_null_stream
  (max_celsius : Z) (host : Host) (entries : list string) :
  host_opendir host "/sys/class/thermal" = None ->
  host_opendir host "/sys/class/hwmon" = Some entries ->
  opendir host "/sys/class/thermal" = DirNull
  /\ readdir_all (opendir host "/sys/class/thermal") = None
  /\ health_check_temperature max_celsius host = None.
Proof.
  intros Ht Hh. unfold health_check_temperature, opendir. rewrite Ht, Hh.
  repeat split.
Qed.

(** C7. On a host without /sys/class/thermal whose hwmon device hwmon0 has
    a sensor temp1_input at 95000 millidegrees, the probe the
    specification describes reports 95 degrees against the limit of 85
    and fails. The code has no result there: its hwmon loop calls
    [readdir] on the thermal stream, here the null pointer, instead of
    the hwmon stream it has just opened. *)
Theorem health_check_temperature_skips_hwmon :
  opendir hwmon_only_host "/sys/class/thermal" = DirNull
  /\ opendir hwmon_only_host "/sys/class/hwmon" = DirOpen ["."; ".."; "hwmon0"]
  /\ read_file_long hwmon_only_host "/sys/class/hwmon/hwmon0/temp1_input"
     = 95000
  /\ spec_health_check_temperature 85 hwmon_only_host =
     {| ok := false;
        message := "Temperature critical: 95°C (max: 85°C)";
        value := 95 |}
  /\ health_check_temperature 85 hwmon_only_host = None.
Proof. vm_compute. repeat split; reflexivity. Qed.

(** ** Health aggregator *)

Lemma bump_range (b : bool) (score : Z) :
  0 <= score < 255 -> bump b score = score + (if b then 1 else 0).
Proof.
  intro H. unfold bump, u8. destruct b; [|lia]. apply Z.mod_small. lia.
Qed.

Lemma score_is_count (r1 r2 r3 r4 r5 r6 : HealthCheckResult) :
  let score :=
    bump (ok r6) (bump (ok r5) (bump (ok r4) (bump (ok r3)
      (bump (ok r2) (bump (ok r1) 0))))) in
  score = Z.of_nat (List.length (filter ok [r1; r2; r3; r4; r5; r6]))
  /\ 0 <= score <= 6.
Proof.
  cbn [filter].
  destruct (ok r1), (ok r2), (ok r3), (ok r4), (ok r5), (ok r6);
    cbn [List.length]; split; try reflexivity; vm_compute;
    split; discriminate.
Qed.

(** C5. Whenever the three probes that can run into undefined behaviour
    (storage, memory, temperature) return, [health_check_run] returns a
    report that holds the six probe results, whose [overall_score] is
    the number of results with [ok] set, lies between 0 and 6, and whose
    [max_score] is 6; this for every configuration, the default one
    included, and every host. *)
Theorem health_check_run_score
  (config : option HealthConfig) (report0 : HealthReport) (host : Host)
  (r_storage r_memory r_temperature : HealthCheckResult) :
  let cfg := match config with Some c => c | None => HEALTH_CONFIG_DEFAULT end in
  health_check_storage (storage_min_free_pct cfg) host = Some r_storage ->
  health_check_memory (mem_min_free_kb cfg) host = Some r_memory ->
  health_check_temperature (temp_max_celsius cfg) host = Some r_temperature ->
  exists (verdict : Z) (report : HealthReport),
    health_check_run config (Some report0) host = Some (verdict, Some report)
    /\ watchdog report = health_check_watchdog host
    /\ ecc report = health_check_ecc (ecc_threshold cfg) host
    /\ storage report = r_storage
    /\ network report = health_check_network (network_timeout_sec cfg) host
    /\ memory report = r_memory
    /\ temperature report = r_temperature
    /\ overall_score report = probes_ok report
    /\ 0 <= overall_score report <= 6
    /\ max_score report = 6.
Proof.
  intros cfg Hs Hm Ht. unfold health_check_run. fold cfg.
  rewrite Hs, Hm, Ht.
  eexists. eexists. split; [reflexivity|].
  cbn [watchdog ecc storage network memory temperature overall_score max_score].
  repeat (split; [reflexivity|]).
  unfold probes_ok.
  cbn [watchdog ecc storage network memory temperature].
  pose proof (score_is_count (health_check_watchdog host)
                (health_check_ecc (ecc_threshold cfg) host) r_storage
                (health_check_network (network_timeout_sec cfg) host)
                r_memory r_temperature) as [Hcount Hrange].
  split; [exact Hcount|]. split; [exact Hrange | reflexivity].
Qed.

Lemma health_check_run_score_witness :
  exists (verdict : Z) (report : HealthReport),
    health_check_run None (Some health_report_clear)
      (sample_host true true false true false true) = Some (verdict, Some report)
    /\ overall_score report = 4
    /\ probes_ok report = 4
    /\ max_score report = 6.
Proof.
  destruct (health_check_run_score None health_report_clear
              (sample_host true true false true false true)
              {| ok := false;
                 message := "Storage low: 1% free (min: 5%)";
                 value := 1 |}
              {| ok := false;
                 message := "Low memory: 2000KB available (0%)";
                 value := 2000 |}
              {| ok := true;
                 message := "Temperature normal: 45°C (max: 85°C)";
                 value := 45 |})
    as (verdict & report & Hrun & _ & _ & _ & _ & _ & _ & Hscore & _ & Hmax);
    try (vm_compute; reflexivity).
  exists verdict, report. split; [exact Hrun|].
  assert (Hc : probes_ok report = 4).
  { vm_compute in Hrun. injection Hrun as _ Hr. subst report. reflexivity. }
  rewrite Hscore. repeat split; assumption.
Defined.

(** Every combination of probe outcomes occurs on some host. *)
Lemma every_probe_outcome_occurs (b1 b2 b3 b4 b5 b6 : bool) :
  exists (verdict : Z) (report : HealthReport),
    health_check_run None (Some health_report_clear)
      (sample_host b1 b2 b3 b4 b5 b6) = Some (verdict, Some report)
    /\ map ok [watchdog report; ecc report; storage report; network report;
               memory report; temperature report] = [b1; b2; b3; b4; b5; b6].
Proof.
  destruct b1, b2, b3, b4, b5, b6;
    eexists; eexists; (split; [vm_compute; reflexivity | reflexivity]).
Qed.

Lemma health_score_to_status_6 (score : Z) :
  health_score_to_status score 6 =
  if score >=? 5 then "healthy"
  else if score >=? 3 then "degraded" else "critical".
Proof. reflexivity. Qed.

Lemma status_and_verdict_agree_aux (score : Z) :
  status_class (health_score_to_status score 6) = verdict_class (health_verdict score)
  /\ verdict_class (health_verdict score) <> None.
Proof.
  rewrite health_score_to_status_6. unfold health_verdict.
  destruct (score >=? 5); [|destruct (score >=? 3)];
    vm_compute; repeat split; discriminate.
Qed.

(** C6, as the code has it. The status string and the verdict come from
    two separate tables, and with the maximum of 6 that
    [health_check_run] passes the two agree on every score: healthy with
    OK, degraded with DEGRADED, critical with CRITICAL. They part only
    for another maximum, such as 12 at score 5. *)
Theorem status_and_verdict_agree (score : Z) :
  status_class (health_score_to_status score 6) = verdict_class (health_verdict score)
  /\ verdict_class (health_verdict score) <> None
  /\ status_class (health_score_to_status 5 12) <> verdict_class (health_verdict 5).
Proof.
  rewrite health_score_to_status_6. unfold health_verdict.
  destruct (score >=? 5); [|destruct (score >=? 3)];
    vm_compute; repeat split; discriminate.
Qed.

(** C6, as the specification words it, fails: no score from 0 to 6 puts
    the status and the verdict in different classes. *)
Lemma status_and_verdict_never_disagree :
  ~ (exists score : Z,
       0 <= score <= 6
       /\ status_class (health_score_to_status score 6)
          <> verdict_class (health_verdict score)).
Proof.
  intros (score & _ & H). apply H.
  exact (proj1 (status_and_verdict_agree_aux score)).
Qed.

(** The report of a run carries the status of its verdict. *)
Lemma health_check_run_status_verdict
  (config : option HealthConfig) (report0 : HealthReport) (host : Host)
  (verdict : Z) (report : HealthReport) :
  health_check_run config (Some report0) host = Some (verdict, Some report) ->
  status_class (overall_status report) = verdict_class verdict
  /\ verdict = health_verdict (overall_score report).
Proof.
  unfold health_check_run.
  destruct (health_check_storage _ host); [|discriminate].
  destruct (health_check_memory _ host); [|discriminate].
  destruct (health_check_temperature _ host); [|discriminate].
  intro H. injection H as Hv Hr. subst verdict report.
  cbn [overall_status overall_score]. split; [|reflexivity].
  rewrite health_score_to_status_6. unfold health_verdict.
  match goal with |- context [?s >=? 5] =>
    destruct (s >=? 5); [|destruct (s >=? 3)] end; reflexivity.
Qed.

Local Close Scope string_scope.

(** * Further properties of the boot journal *)

(** *** The packed layout *)

Lemma le_value_bits (n : nat) (v i : Z) :
  0 <= i ->
  Z.testbit (le_value (le_bytes n v)) i =
  if i <? 8 * Z.of_nat n then Z.testbit v i else false.
Proof.
  revert v i. induction n as [|n IH]; intros v i Hi.
  - cbn [le_bytes le_value]. rewrite Z.bits_0.
    destruct (Z.ltb_spec i (8 * Z.of_nat 0)); [lia | reflexivity].
  - cbn [le_bytes le_value]. rewrite Z.lor_spec, !Z.land_spec.
    change 255 with (Z.ones 8).
    destruct (Z.ltb_spec i 8) as [Hlt | Hge].
    + rewrite Z.ones_spec_low by lia. rewrite Z.shiftl_spec_low by lia.
      rewrite !andb_true_r, orb_false_r.
      destruct (Z.ltb_spec i (8 * Z.of_nat (S n))); [reflexivity | lia].
    + rewrite Z.ones_spec_high by lia. rewrite !andb_false_r, orb_false_l.
      rewrite Z.shiftl_spec by lia. rewrite IH by lia.
      rewrite Z.shiftr_spec by lia. replace (i - 8 + 8) with i by lia.
      destruct (Z.ltb_spec (i - 8) (8 * Z.of_nat n));
        destruct (Z.ltb_spec i (8 * Z.of_nat (S n))); try reflexivity; lia.
Qed.

Lemma le_value_le_bytes (n : nat) (v : Z) :
  le_value (le_bytes n v) = v mod 2 ^ (8 * Z.of_nat n).
Proof.
  apply Z.bits_inj'. intros i Hi. rewrite le_value_bits by exact Hi.
  destruct (Z.ltb_spec i (8 * Z.of_nat n)).
  - rewrite Z.mod_pow2_bits_low by lia. reflexivity.
  - rewrite Z.mod_pow2_bits_high by lia. reflexivity.
Qed.

Lemma le_value_le_bytes_small (n : nat) (v : Z) :
  0 <= v < 2 ^ (8 * Z.of_nat n) -> le_value (le_bytes n v) = v.
Proof. intro H. rewrite le_value_le_bytes. now apply Z.mod_small. Qed.

Lemma le_value_range (bs : list Z) :
  0 <= le_value bs < 2 ^ (8 * Z.of_nat (List.length bs)).
Proof.
  induction bs as [|b t IH].
  - cbn. lia.
  - cbn [le_value List.length].
    assert (Hb : 0 <= Z.land b 255 < 2 ^ 8).
    { change 255 with (Z.ones 8). rewrite Z.land_ones by lia.
      apply Z.mod_pos_bound. lia. }
    set (x := Z.land b 255) in *. set (y := le_value t) in *.
    assert (Hy : 0 <= Z.shiftl y 8) by (apply Z.shiftl_nonneg; lia).
    split.
    + apply Z.lor_nonneg. lia.
    + replace (8 * Z.of_nat (S (List.length t)))
        with (8 * Z.of_nat (List.length t) + 8) by lia.
      destruct (Z.eq_dec (Z.lor x (Z.shiftl y 8)) 0) as [E|E].
      { rewrite E. apply Z.pow_pos_nonneg; lia. }
      apply Z.log2_lt_pow2; [pose proof (Z.lor_nonneg x (Z.shiftl y 8)); lia|].
      rewrite Z.log2_lor by lia.
      apply Z.max_lub_lt.
      * destruct (Z.eq_dec x 0) as [Ex|Ex]; [rewrite Ex; change (Z.log2 0) with 0; lia|].
        apply Z.log2_lt_pow2; [lia|].
        eapply Z.lt_le_trans; [apply Hb|].
        apply Z.pow_le_mono_r; lia.
      * destruct (Z.eq_dec y 0) as [Ey|Ey].
        { rewrite Ey, Z.shiftl_0_l. change (Z.log2 0) with 0. lia. }
        apply Z.log2_lt_pow2;
          [rewrite Z.shiftl_mul_pow2 by lia; apply Z.mul_pos_pos; lia|].
        rewrite Z.shiftl_mul_pow2 by lia.
        rewrite Z.pow_add_r by lia. 
        apply Z.mul_lt_mono_pos_r; lia.
Qed.

(** Reading back the bytes of a record whose fields fit their types. *)
Lemma record_of_bytes_record_bytes (r : BootRecord) :
  wf_record r -> record_of_bytes (record_bytes r) = r.
Proof.
  intros (Hv & Ht & H2 & H3 & Hr & Hf & Hb & Hs & Hc & Hm).
  destruct r as [v t t2 t3 ri fl bc ts c m]. cbn [version tier tries_t2 tries_t3
    rollback_idx flags boot_count timestamp crc32 trailer] in *.
  unfold record_of_bytes.
  change (slice 0 4 (record_bytes (mkBootRecord v t t2 t3 ri fl bc ts c m)))
    with (le_bytes 4 v).
  change (slice 4 1 (record_bytes (mkBootRecord v t t2 t3 ri fl bc ts c m)))
    with (le_bytes 1 t).
  change (slice 5 1 (record_bytes (mkBootRecord v t t2 t3 ri fl bc ts c m)))
    with (le_bytes 1 t2).
  change (slice 6 1 (record_bytes (mkBootRecord v t t2 t3 ri fl bc ts c m)))
    with (le_bytes 1 t3).
  change (slice 7 1 (record_bytes (mkBootRecord v t t2 t3 ri fl bc ts c m)))
    with (le_bytes 1 ri).
  change (slice 8 4 (record_bytes (mkBootRecord v t t2 t3 ri fl bc ts c m)))
    with (le_bytes 4 fl).
  change (slice 12 8 (record_bytes (mkBootRecord v t t2 t3 ri fl bc ts c m)))
    with (le_bytes 8 bc).
  change (slice 20 8 (record_bytes (mkBootRecord v t t2 t3 ri fl bc ts c m)))
    with (le_bytes 8 ts).
  change (slice 28 4 (record_bytes (mkBootRecord v t t2 t3 ri fl bc ts c m)))
    with (le_bytes 4 c).
  change (slice 32 4 (record_bytes (mkBootRecord v t t2 t3 ri fl bc ts c m)))
    with (le_bytes 4 m).
  rewrite !le_value_le_bytes_small by assumption. reflexivity.
Qed.

Lemma slice_length (off len : nat) (bs : list Z) :
  (List.length (slice off len bs) <= len)%nat.
Proof. unfold slice. rewrite length_firstn. lia. Qed.

Lemma le_value_slice_range (off len : nat) (bs : list Z) :
  0 <= le_value (slice off len bs) < 2 ^ (8 * Z.of_nat len).
Proof.
  pose proof (le_value_range (slice off len bs)) as [H0 H1].
  split; [exact H0|]. eapply Z.lt_le_trans; [exact H1|].
  apply Z.pow_le_mono_r; [lia|]. pose proof (slice_length off len bs). lia.
Qed.

(** Whatever bytes a page holds, the record read from it has fields that
    fit their types. *)
Lemma record_of_bytes_wf (bs : list Z) : wf_record (record_of_bytes bs).
Proof.
  unfold wf_record, record_of_bytes.
  cbn [version tier tries_t2 tries_t3 rollback_idx flags boot_count timestamp
       crc32 trailer].
  repeat split; try apply (le_value_slice_range _ 4);
    try apply (le_value_slice_range _ 1); try apply (le_value_slice_range _ 8).
Qed.

Lemma not32_range (z : Z) : 0 <= not32 z < 2 ^ 32.
Proof. unfold not32, u32. apply Z.mod_pos_bound. lia. Qed.

Lemma record_calculate_crc_range (r : BootRecord) :
  0 <= record_calculate_crc r < 2 ^ 32.
Proof. unfold record_calculate_crc, crc32_compute. apply not32_range. Qed.

Lemma updated_record_wf (r : BootRecord) (t : Z) :
  wf_record r -> wf_record (updated_record r t).
Proof.
  intros (Hv & Ht & H2 & H3 & Hr & Hf & Hb & Hs & Hc & Hm).
  unfold wf_record, updated_record.
  cbn [version tier tries_t2 tries_t3 rollback_idx flags boot_count timestamp
       crc32 trailer set_crc32 set_trailer set_timestamp].
  repeat (split; try assumption);
    try (apply Z.mod_pos_bound; lia);
    try apply record_calculate_crc_range;
    try (unfold JOURNAL_MAGIC; lia).
Qed.

(** *** The file under page writes *)

Lemma file_write_front (f bs : list Z) :
  file_write f PAGE_A_OFFSET bs = bs ++ skipn (List.length bs) f.
Proof.
  unfold file_write, PAGE_A_OFFSET. destruct bs as [|b bs']; [reflexivity|].
  reflexivity.
Qed.

Lemma file_write_back (f bs : list Z) :
  (PAGE_SIZE <= List.length f)%nat ->
  file_write f PAGE_B_OFFSET bs =
  firstn PAGE_SIZE f ++ bs ++ skipn (PAGE_SIZE + List.length bs) f.
Proof.
  intro Hlen. unfold file_write, PAGE_B_OFFSET.
  destruct bs as [|b bs'].
  - cbn [List.app List.length]. rewrite Nat.add_0_r.
    symmetry. apply firstn_skipn.
  - replace (PAGE_SIZE - List.length f)%nat with 0%nat by lia. reflexivity.
Qed.

Lemma firstn_page_app (bs rest : list Z) :
  List.length bs = PAGE_SIZE -> firstn PAGE_SIZE (bs ++ rest) = bs.
Proof.
  intro Hlen. rewrite <- Hlen. rewrite firstn_app, Nat.sub_diag, firstn_all.
  cbn [firstn]. apply app_nil_r.
Qed.

Lemma skipn_page_app (bs rest : list Z) :
  List.length bs = PAGE_SIZE -> skipn PAGE_SIZE (bs ++ rest) = rest.
Proof.
  intro Hlen. rewrite <- Hlen. rewrite skipn_app, Nat.sub_diag, skipn_all.
  reflexivity.
Qed.

Lemma disk_page_front (bs rest : list Z) :
  List.length bs = PAGE_SIZE ->
  disk_page (bs ++ rest) PAGE_A_OFFSET = Some (record_of_bytes bs).
Proof.
  intro Hlen. unfold disk_page, slice, PAGE_A_OFFSET. cbn [skipn].
  rewrite (firstn_page_app _ _ Hlen), Hlen, Nat.eqb_refl. reflexivity.
Qed.

Lemma disk_page_back (pre bs rest : list Z) :
  List.length pre = PAGE_SIZE -> List.length bs = PAGE_SIZE ->
  disk_page (pre ++ bs ++ rest) PAGE_B_OFFSET = Some (record_of_bytes bs).
Proof.
  intros Hpre Hlen. unfold disk_page, slice, PAGE_B_OFFSET.
  rewrite (skipn_page_app _ _ Hpre), (firstn_page_app _ _ Hlen), Hlen, Nat.eqb_refl.
  reflexivity.
Qed.

Lemma disk_page_front_kept (f mid : list Z) :
  (PAGE_SIZE <= List.length f)%nat ->
  disk_page (firstn PAGE_SIZE f ++ mid) PAGE_A_OFFSET = disk_page f PAGE_A_OFFSET.
Proof.
  intro Hlen. unfold disk_page, slice, PAGE_A_OFFSET. cbn [skipn].
  rewrite firstn_page_app by (rewrite length_firstn; lia).
  reflexivity.
Qed.

Lemma disk_page_back_kept (bs f : list Z) :
  List.length bs = PAGE_SIZE ->
  disk_page (bs ++ skipn PAGE_SIZE f) PAGE_B_OFFSET = disk_page f PAGE_B_OFFSET.
Proof.
  intro Hlen. unfold disk_page, slice, PAGE_B_OFFSET.
  rewrite (skipn_page_app _ _ Hlen). reflexivity.
Qed.

Lemma disk_page_length (f : list Z) (offset : nat) (r : BootRecord) :
  disk_page f offset = Some r -> (offset + PAGE_SIZE <= List.length f)%nat.
Proof.
  unfold disk_page, slice.
  destruct (Nat.eqb_spec (List.length (firstn PAGE_SIZE (skipn offset f))) PAGE_SIZE)
    as [E|E]; [|discriminate].
  intros _. rewrite length_firstn, length_skipn in E. unfold PAGE_SIZE in *. lia.
Qed.

Lemma nth_io_quiet (k : nat) (w : World) :
  io_script w = [] -> nth_io k w = io_good.
Proof. intro H. unfold nth_io. rewrite H. destruct k; reflexivity. Qed.

Lemma advance_quiet (w : World) : io_script w = [] -> advance w = w.
Proof. intro H. destruct w; cbn in *. subst. reflexivity. Qed.

Lemma after_write_quiet (w : World) (offset : nat) (rec : BootRecord) :
  io_script w = [] -> after_write w offset rec = page_written w offset rec.
Proof.
  intro H. unfold after_write, page_written. rewrite (nth_io_quiet 0 w H), H.
  unfold written_file. cbn [io_good seek_ok xfer tl].
  rewrite Nat.min_id, firstn_all2 by (rewrite record_bytes_length; lia).
  reflexivity.
Qed.

Lemma valid_page_read (z : Z) (offset : nat) (w : World) :
  0 <= z -> transfers (nth_io 0 w) = true ->
  valid_page (fst (read_page z offset w)) = valid_disk_page (file w) offset.
Proof.
  intros Hz Hio. rewrite (read_page_transfers z offset w Hz Hio).
  unfold valid_disk_page, valid_page.
  destruct (disk_page (file w) offset) as [page|]; reflexivity.
Qed.

Lemma valid_disk_page_some (f : list Z) (offset : nat) (r : BootRecord) :
  valid_disk_page f offset = Some r <->
  disk_page f offset = Some r /\ journal_validate r = true.
Proof.
  unfold valid_disk_page. destruct (disk_page f offset) as [page|].
  - destruct (journal_validate page) eqn:E; split.
    + intro H. injection H as ->. auto.
    + intros [H _]. exact H.
    + discriminate.
    + intros [H V]. injection H as ->. congruence.
  - split; [discriminate | intros [H _]; discriminate].
Qed.

Lemma disk_page_wf (f : list Z) (offset : nat) (r : BootRecord) :
  disk_page f offset = Some r -> wf_record r.
Proof.
  unfold disk_page. destruct (_ =? _)%nat; [|discriminate].
  intro H. injection H as <-. apply record_of_bytes_wf.
Qed.

(** The shape of [journal_recover] on an open journal when every system
    call succeeds. *)
Lemma journal_recover_quiet (rec : BootRecord) (w : World) :
  journal_open w -> io_script w = [] ->
  journal_recover rec w =
  match valid_disk_page (file w) PAGE_A_OFFSET,
        valid_disk_page (file w) PAGE_B_OFFSET with
  | Some page_a, Some page_b =>
      ((JOURNAL_OK,
        if boot_count page_a >=? boot_count page_b then page_a else page_b), w)
  | Some page_a, None =>
      ((JOURNAL_OK, page_a), page_written w PAGE_B_OFFSET page_a)
  | None, Some page_b =>
      ((JOURNAL_OK, page_b), page_written w PAGE_A_OFFSET page_b)
  | None, None =>
      let rec1 := fst (journal_create_default w) in
      ((JOURNAL_OK, rec1),
       page_written (page_written w PAGE_A_OFFSET rec1) PAGE_B_OFFSET rec1)
  end.
Proof.
  intros [Hi Hf] Hq. rewrite (journal_recover_eq rec w Hi Hf). cbv zeta.
  rewrite !(advance_quiet w Hq).
  rewrite !valid_page_read
    by (try exact Hf; rewrite nth_io_quiet by exact Hq; reflexivity).
  destruct (valid_disk_page (file w) PAGE_A_OFFSET) as [page_a|];
    destruct (valid_disk_page (file w) PAGE_B_OFFSET) as [page_b|];
    rewrite ?(fun o r => after_write_quiet w o r Hq);
    rewrite ?(after_write_quiet (page_written w PAGE_A_OFFSET _)) by reflexivity;
    reflexivity.
Qed.

Lemma journal_write_quiet (rec : BootRecord) (w : World) :
  journal_open w -> io_script w = [] ->
  journal_write (Some rec) w =
  let updated := updated_record rec (now w) in
  if (version rec =? 1) && negb ((tier rec <? 1) || (tier rec >? 3))
  then (JOURNAL_OK,
        page_written (page_written w PAGE_A_OFFSET updated) PAGE_B_OFFSET updated)
  else (JOURNAL_ERR_INVALID, w).
Proof.
  intros [Hi Hf] Hq. rewrite (journal_write_eq rec w Hi Hf). cbv zeta.
  rewrite journal_validate_updated.
  destruct ((version rec =? 1) && negb ((tier rec <? 1) || (tier rec >? 3)));
    [|reflexivity].
  rewrite !nth_io_quiet by exact Hq. cbn [negb].
  change (write_code io_good) with JOURNAL_OK. cbn [Z.eqb JOURNAL_OK negb].
  rewrite (after_write_quiet w _ _ Hq).
  rewrite (after_write_quiet (page_written w PAGE_A_OFFSET _)) by reflexivity.
  reflexivity.
Qed.

(** Both pages after a page A write followed by a page B write. *)
Lemma pages_after_two_writes (w : World) (ra rb : BootRecord) :
  wf_record ra -> wf_record rb ->
  let w2 := page_written (page_written w PAGE_A_OFFSET ra) PAGE_B_OFFSET rb in
  disk_page (file w2) PAGE_A_OFFSET = Some ra
  /\ disk_page (file w2) PAGE_B_OFFSET = Some rb.
Proof.
  intros Ha Hb. cbv zeta. unfold page_written. cbn [file].
  rewrite file_write_front.
  rewrite file_write_back
    by (rewrite length_app, record_bytes_length; lia).
  rewrite firstn_page_app by apply record_bytes_length.
  split.
  - rewrite disk_page_front by apply record_bytes_length.
    now rewrite record_of_bytes_record_bytes.
  - rewrite disk_page_back by apply record_bytes_length.
    now rewrite record_of_bytes_record_bytes.
Qed.

Lemma page_written_b (w : World) (r page_a : BootRecord) :
  disk_page (file w) PAGE_A_OFFSET = Some page_a -> wf_record r ->
  disk_page (file (page_written w PAGE_B_OFFSET r)) PAGE_A_OFFSET = Some page_a
  /\ disk_page (file (page_written w PAGE_B_OFFSET r)) PAGE_B_OFFSET = Some r.
Proof.
  intros Ha Hr. pose proof (disk_page_length _ _ _ Ha) as Hlen.
  unfold page_written. cbn [file].
  rewrite file_write_back by (unfold PAGE_A_OFFSET in Hlen; lia).
  split.
  - rewrite disk_page_front_kept by (unfold PAGE_A_OFFSET in Hlen; lia). exact Ha.
  - rewrite disk_page_back
      by (try apply record_bytes_length; rewrite length_firstn;
          unfold PAGE_A_OFFSET in Hlen; lia).
    now rewrite record_of_bytes_record_bytes.
Qed.

Lemma page_written_a (w : World) (r page_b : BootRecord) :
  disk_page (file w) PAGE_B_OFFSET = Some page_b -> wf_record r ->
  disk_page (file (page_written w PAGE_A_OFFSET r)) PAGE_A_OFFSET = Some r
  /\ disk_page (file (page_written w PAGE_A_OFFSET r)) PAGE_B_OFFSET = Some page_b.
Proof.
  intros Hb Hr. unfold page_written. cbn [file].
  rewrite file_write_front, record_bytes_length. split.
  - rewrite disk_page_front by apply record_bytes_length.
    now rewrite record_of_bytes_record_bytes.
  - rewrite disk_page_back_kept by apply record_bytes_length. exact Hb.
Qed.

Lemma journal_validate_sealed (r : BootRecord) :
  trailer r = JOURNAL_MAGIC ->
  journal_validate (set_crc32 r (record_calculate_crc r)) =
  (version r =? 1) && negb ((tier r <? 1) || (tier r >? 3)).
Proof.
  intro Hm. unfold journal_validate.
  rewrite record_calculate_crc_set_crc32.
  cbn [trailer set_crc32 crc32 version tier].
  rewrite Hm, !Z.eqb_refl. cbn [negb].
  unfold JOURNAL_VERSION, TIER_1, TIER_3.
  destruct (version r =? 1); cbn [negb andb]; [|reflexivity].
  destruct ((tier r <? 1) || (tier r >? 3)); reflexivity.
Qed.

Lemma default_record_valid (w : World) :
  journal_validate (fst (journal_create_default w)) = true
  /\ wf_record (fst (journal_create_default w)).
Proof.
  unfold journal_create_default, bind, time, ret. cbn [fst]. split.
  - rewrite journal_validate_sealed by reflexivity. reflexivity.
  - unfold wf_record.
    cbn [version tier tries_t2 tries_t3 rollback_idx flags boot_count timestamp
         crc32 trailer set_crc32].
    unfold JOURNAL_VERSION, TIER_1, DEFAULT_TRIES_T2, DEFAULT_TRIES_T3,
      JOURNAL_MAGIC, u64.
    pose proof (record_calculate_crc_range
      (mkBootRecord 1 1 3 3 0 0 0 (now w mod 2 ^ 64) 0 0xA771A771)) as Hc.
    pose proof (Z.mod_pos_bound (now w) (2 ^ 64) ltac:(lia)) as Ht.
    repeat match goal with |- _ /\ _ => split end; try lia; apply Hc.
Qed.

(** X2. Whatever the clock shows, the record [journal_create_default]
    makes passes [journal_validate] and holds version 1, tier 1, three
    tries for each of tiers 2 and 3, rollback index 0, no flag, boot
    count 0, the time of the call and the magic trailer. *)
Theorem journal_create_default_valid (w : World) :
  journal_validate (fst (journal_create_default w)) = true
  /\ version (fst (journal_create_default w)) = 1
  /\ tier (fst (journal_create_default w)) = 1
  /\ tries_t2 (fst (journal_create_default w)) = 3
  /\ tries_t3 (fst (journal_create_default w)) = 3
  /\ rollback_idx (fst (journal_create_default w)) = 0
  /\ flags (fst (journal_create_default w)) = 0
  /\ boot_count (fst (journal_create_default w)) = 0
  /\ timestamp (fst (journal_create_default w)) = now w mod 2 ^ 64
  /\ trailer (fst (journal_create_default w)) = 0xA771A771.
Proof.
  split; [apply default_record_valid|]. repeat split.
Qed.

Lemma slice_file_write (f bs : list Z) (off : nat) :
  slice off (List.length bs) (file_write f off bs) = bs \/ bs = [].
Proof.
  destruct bs as [|b bs']; [right; reflexivity | left].
  set (bs := b :: bs'). unfold file_write. fold bs.
  change (match bs with [] => f | _ :: _ =>
            firstn off f ++ repeat 0 (off - List.length f) ++ bs
            ++ skipn (off + List.length bs) f end)
    with (firstn off f ++ repeat 0 (off - List.length f) ++ bs
          ++ skipn (off + List.length bs) f).
  unfold slice. rewrite app_assoc.
  rewrite skipn_app.
  assert (Hpre : List.length (firstn off f ++ repeat 0 (off - List.length f)) = off).
  { rewrite length_app, length_firstn, repeat_length. lia. }
  rewrite Hpre, Nat.sub_diag. cbn [skipn].
  rewrite skipn_all2 by lia. cbn [List.app].
  rewrite firstn_app, Nat.sub_diag, firstn_all. cbn [firstn]. apply app_nil_r.
Qed.

Lemma write_code_ok (io : PageIO) :
  write_code io = JOURNAL_OK ->
  seek_ok io = true /\ fsync_ok io = true
  /\ exists n, xfer io = Some n /\ (PAGE_SIZE <= n)%nat.
Proof.
  unfold write_code, transfers.
  destruct (seek_ok io); cbn [andb]; [|discriminate].
  destruct (xfer io) as [n|]; cbn [andb]; [|discriminate].
  destruct (Nat.leb_spec PAGE_SIZE n); cbn [andb]; [|discriminate].
  destruct (fsync_ok io); [|discriminate].
  intros _. repeat split. exists n. split; [reflexivity | assumption].
Qed.

(** X1. A record whose fields fit their types, once [write_page] has
    stored it at an offset and returned [JOURNAL_OK], is what a
    [read_page] of that offset that transfers a whole page delivers,
    field for field: the packed layout loses nothing. *)
Theorem write_page_then_read_page
  (z : Z) (offset : nat) (rec : BootRecord) (w : World) :
  0 <= z -> wf_record rec ->
  write_code (nth_io 0 w) = JOURNAL_OK ->
  transfers (nth_io 1 w) = true ->
  fst (write_page z offset rec w) = JOURNAL_OK
  /\ fst (read_page z offset (snd (write_page z offset rec w)))
     = (JOURNAL_OK, Some rec).
Proof.
  intros Hz Hwf Hw Hr. rewrite (write_page_eq z offset rec w Hz). cbn [fst snd].
  split; [exact Hw|].
  rewrite read_page_transfers
    by (try exact Hz; rewrite nth_io_after_write; exact Hr).
  destruct (write_code_ok _ Hw) as (Hs & _ & n & Hx & Hn).
  unfold after_write, written_file. cbn [file]. rewrite Hs, Hx.
  rewrite Nat.min_r by exact Hn.
  rewrite firstn_all2 by (rewrite record_bytes_length; lia).
  unfold disk_page.
  destruct (slice_file_write (file w) (record_bytes rec) offset) as [E|E].
  - rewrite record_bytes_length in E. rewrite E.
    rewrite record_bytes_length, Nat.eqb_refl.
    now rewrite record_of_bytes_record_bytes.
  - apply (f_equal (@List.length Z)) in E. rewrite record_bytes_length in E.
    discriminate.
Qed.

(** X3. On an open journal with no failing system call, [journal_write]
    of a record with version 1 and a tier in 1..3 returns [JOURNAL_OK]
    and leaves the same valid record in both pages; a [journal_recover]
    that follows returns that record, which is the caller's but for the
    regenerated timestamp and crc32 (and the magic trailer), and writes
    nothing. *)
Theorem journal_write_then_recover (rec rec' : BootRecord) (w : World) :
  journal_open w -> io_script w = [] ->
  wf_record rec -> version rec = 1 -> 1 <= tier rec <= 3 ->
  exists (w1 : World) (out : BootRecord),
    journal_write (Some rec) w = (JOURNAL_OK, w1)
    /\ journal_recover rec' w1 = ((JOURNAL_OK, out), w1)
    /\ out = updated_record rec (now w)
    /\ version out = version rec /\ tier out = tier rec
    /\ tries_t2 out = tries_t2 rec /\ tries_t3 out = tries_t3 rec
    /\ rollback_idx out = rollback_idx rec /\ flags out = flags rec
    /\ boot_count out = boot_count rec
    /\ timestamp out = now w mod 2 ^ 64
    /\ journal_validate out = true
    /\ disk_page (file w1) PAGE_A_OFFSET = Some out
    /\ disk_page (file w1) PAGE_B_OFFSET = Some out.
Proof.
  intros Ho Hq Hwf Hv Ht.
  pose proof (proj2 (semantic_fields_spec rec) (conj Hv Ht)) as Hsem.
  rewrite (journal_write_quiet rec w Ho Hq). cbv zeta. rewrite Hsem.
  set (u := updated_record rec (now w)).
  set (w1 := page_written (page_written w PAGE_A_OFFSET u) PAGE_B_OFFSET u).
  assert (Hu : wf_record u) by (apply updated_record_wf; exact Hwf).
  assert (Vu : journal_validate u = true)
    by (unfold u; rewrite journal_validate_updated; exact Hsem).
  destruct (pages_after_two_writes w u u Hu Hu) as [Pa Pb]. fold w1 in Pa, Pb.
  exists w1, u. split; [reflexivity|]. split.
  - rewrite journal_recover_quiet; [| exact Ho | reflexivity].
    unfold valid_disk_page. rewrite Pa, Pb, Vu.
    rewrite Z.geb_leb, Z.leb_refl. reflexivity.
  - repeat split; try reflexivity; assumption.
Qed.

Lemma valid_disk_page_intro (f : list Z) (offset : nat) (r : BootRecord) :
  disk_page f offset = Some r -> journal_validate r = true ->
  valid_disk_page f offset = Some r.
Proof. intros H V. apply valid_disk_page_some. auto. Qed.

Lemma page_written_open (w : World) (offset : nat) (r : BootRecord) :
  journal_open w -> journal_open (page_written w offset r).
Proof. intro H. exact H. Qed.

(** X4. On an open journal with no failing system call, whatever the
    file holds, [journal_recover] returns [JOURNAL_OK] with a valid
    record and leaves both pages valid, one of them holding the record
    returned; a second [journal_recover] returns the same record and
    changes nothing. *)
Theorem journal_recover_heals (rec rec' : BootRecord) (w : World) :
  journal_open w -> io_script w = [] ->
  exists (out : BootRecord) (w1 : World) (page_a page_b : BootRecord),
    journal_recover rec w = ((JOURNAL_OK, out), w1)
    /\ journal_validate out = true
    /\ valid_disk_page (file w1) PAGE_A_OFFSET = Some page_a
    /\ valid_disk_page (file w1) PAGE_B_OFFSET = Some page_b
    /\ (out = page_a \/ out = page_b)
    /\ journal_recover rec' w1 = ((JOURNAL_OK, out), w1).
Proof.
  intros Ho Hq. rewrite (journal_recover_quiet rec w Ho Hq).
  destruct (valid_disk_page (file w) PAGE_A_OFFSET) as [page_a|] eqn:Ea;
    destruct (valid_disk_page (file w) PAGE_B_OFFSET) as [page_b|] eqn:Eb.
  - (* both valid *)
    apply valid_disk_page_some in Ea as Ha. apply valid_disk_page_some in Eb as Hb.
    exists (if boot_count page_a >=? boot_count page_b then page_a else page_b),
      w, page_a, page_b.
    split; [reflexivity|]. split; [destruct (_ >=? _); tauto|].
    split; [exact Ea|]. split; [exact Eb|].
    split; [destruct (_ >=? _); auto|].
    rewrite (journal_recover_quiet rec' w Ho Hq), Ea, Eb. reflexivity.
  - (* only page A valid *)
    apply valid_disk_page_some in Ea as [Da Va].
    destruct (page_written_b w page_a page_a Da (disk_page_wf _ _ _ Da)) as [Pa Pb].
    exists page_a, (page_written w PAGE_B_OFFSET page_a), page_a, page_a.
    split; [reflexivity|]. split; [exact Va|].
    split; [exact (valid_disk_page_intro _ _ _ Pa Va)|].
    split; [exact (valid_disk_page_intro _ _ _ Pb Va)|].
    split; [auto|].
    rewrite journal_recover_quiet; [| exact Ho | reflexivity].
    rewrite (valid_disk_page_intro _ _ _ Pa Va), (valid_disk_page_intro _ _ _ Pb Va).
    rewrite Z.geb_leb, Z.leb_refl. reflexivity.
  - (* only page B valid *)
    apply valid_disk_page_some in Eb as [Db Vb].
    destruct (page_written_a w page_b page_b Db (disk_page_wf _ _ _ Db)) as [Pa Pb].
    exists page_b, (page_written w PAGE_A_OFFSET page_b), page_b, page_b.
    split; [reflexivity|]. split; [exact Vb|].
    split; [exact (valid_disk_page_intro _ _ _ Pa Vb)|].
    split; [exact (valid_disk_page_intro _ _ _ Pb Vb)|].
    split; [auto|].
    rewrite journal_recover_quiet; [| exact Ho | reflexivity].
    rewrite (valid_disk_page_intro _ _ _ Pa Vb), (valid_disk_page_intro _ _ _ Pb Vb).
    rewrite Z.geb_leb, Z.leb_refl. reflexivity.
  - (* neither valid *)
    cbv zeta. set (d := fst (journal_create_default w)).
    destruct (default_record_valid w) as [Vd Wd]. fold d in Vd, Wd.
    destruct (pages_after_two_writes w d d Wd Wd) as [Pa Pb].
    set (w1 := page_written (page_written w PAGE_A_OFFSET d) PAGE_B_OFFSET d) in *.
    exists d, w1, d, d.
    split; [reflexivity|]. split; [exact Vd|].
    split; [exact (valid_disk_page_intro _ _ _ Pa Vd)|].
    split; [exact (valid_disk_page_intro _ _ _ Pb Vd)|].
    split; [auto|].
    rewrite journal_recover_quiet; [| exact Ho | reflexivity].
    rewrite (valid_disk_page_intro _ _ _ Pa Vd), (valid_disk_page_intro _ _ _ Pb Vd).
    rewrite Z.geb_leb, Z.leb_refl. reflexivity.
Qed.

(** X5. A valid record stops being valid as soon as its crc32 field, or
    its trailer, is replaced by any other value. *)
Theorem journal_validate_detects_damage (r : BootRecord) (c : Z) :
  journal_validate r = true ->
  (c <> crc32 r -> journal_validate (set_crc32 r c) = false)
  /\ (c <> trailer r -> journal_validate (set_trailer r c) = false).
Proof.
  intro V. unfold journal_validate in V.
  destruct (Z.eqb_spec (trailer r) JOURNAL_MAGIC) as [Hm|]; [|discriminate].
  cbn [negb] in V.
  destruct (Z.eqb_spec (crc32 r) (record_calculate_crc r)) as [Hc|]; [|discriminate].
  split; intro Hne; unfold journal_validate.
  - cbn [trailer set_crc32 crc32]. rewrite Hm, Z.eqb_refl. cbn [negb].
    rewrite record_calculate_crc_set_crc32.
    destruct (Z.eqb_spec c (record_calculate_crc r)); [congruence | reflexivity].
  - cbn [trailer set_trailer].
    destruct (Z.eqb_spec c JOURNAL_MAGIC); [congruence | reflexivity].
Qed.

(** The world after a [write_page] whose [lseek] or [write] fails before
    a byte is stored. *)
Lemma after_write_nothing (w : World) (offset : nat) (rec : BootRecord) :
  seek_ok (nth_io 0 w) = false \/ xfer (nth_io 0 w) = None ->
  file (after_write w offset rec) = file w
  /\ write_code (nth_io 0 w) = JOURNAL_ERR_IO.
Proof.
  intro H. unfold after_write, written_file, write_code, transfers. cbn [file].
  destruct (seek_ok (nth_io 0 w)); cbn [andb]; [|auto].
  destruct H as [H|H]; [discriminate|]. rewrite H. auto.
Qed.

(** X6. When [journal_write] stores page A and then fails on page B
    before a byte is written ([lseek] fails or [write] returns -1), it
    returns [JOURNAL_ERR_IO] with the new record in page A and the old
    one still in page B. The [journal_recover] that follows returns the
    new record when its boot count is at least the old one's and the old
    record otherwise, and in both cases rewrites neither page. *)
Theorem journal_recover_after_failed_page_b
  (rec rec' old : BootRecord) (w : World) (io : PageIO) :
  journal_open w -> io_script w = [io_good; io] ->
  seek_ok io = false \/ xfer io = None ->
  wf_record rec -> version rec = 1 -> 1 <= tier rec <= 3 ->
  valid_disk_page (file w) PAGE_B_OFFSET = Some old ->
  exists w1 : World,
    journal_write (Some rec) w = (JOURNAL_ERR_IO, w1)
    /\ disk_page (file w1) PAGE_A_OFFSET = Some (updated_record rec (now w))
    /\ disk_page (file w1) PAGE_B_OFFSET = Some old
    /\ journal_recover rec' w1 =
       ((JOURNAL_OK,
         if boot_count rec >=? boot_count old
         then updated_record rec (now w) else old), w1).
Proof.
  intros Ho Hs Hio Hwf Hv Ht Hold.
  destruct Ho as [Hi Hf].
  pose proof (proj2 (semantic_fields_spec rec) (conj Hv Ht)) as Hsem.
  apply valid_disk_page_some in Hold as [Dold Vold].
  rewrite (journal_write_eq rec w Hi Hf). cbv zeta.
  rewrite journal_validate_updated, Hsem. cbn [negb].
  set (u := updated_record rec (now w)).
  assert (Hu : wf_record u) by (apply updated_record_wf; exact Hwf).
  assert (Vu : journal_validate u = true)
    by (unfold u; rewrite journal_validate_updated; exact Hsem).
  assert (H0 : nth_io 0 w = io_good) by (unfold nth_io; rewrite Hs; reflexivity).
  assert (H1 : nth_io 1 w = io) by (unfold nth_io; rewrite Hs; reflexivity).
  rewrite H0, H1. change (write_code io_good) with JOURNAL_OK.
  cbn [Z.eqb JOURNAL_OK negb].
  set (wa := after_write w PAGE_A_OFFSET u).
  assert (Hwa : wa = mkWorld (journal_state w)
                       (file_write (file w) PAGE_A_OFFSET (record_bytes u))
                       (now w) [io] (write_log w ++ [mkWriteCall PAGE_A_OFFSET JOURNAL_OK])).
  { unfold wa, after_write, written_file. rewrite H0, Hs.
    cbn [io_good seek_ok xfer tl].
    rewrite Nat.min_id, firstn_all2 by (rewrite record_bytes_length; lia).
    reflexivity. }
  assert (Hio' : seek_ok (nth_io 0 wa) = false \/ xfer (nth_io 0 wa) = None)
    by (rewrite Hwa; exact Hio).
  destruct (after_write_nothing wa PAGE_B_OFFSET u Hio') as [Hfile Hcode].
  assert (Hcode' : write_code io = JOURNAL_ERR_IO)
    by (rewrite Hwa in Hcode; exact Hcode).
  rewrite Hcode'. cbn [Z.eqb JOURNAL_ERR_IO JOURNAL_OK negb].
  set (w1 := after_write wa PAGE_B_OFFSET u).
  assert (Pa : disk_page (file w1) PAGE_A_OFFSET = Some u).
  { unfold w1. rewrite Hfile, Hwa. cbn [file].
    rewrite file_write_front, record_bytes_length.
    rewrite disk_page_front by apply record_bytes_length.
    now rewrite record_of_bytes_record_bytes. }
  assert (Pb : disk_page (file w1) PAGE_B_OFFSET = Some old).
  { unfold w1. rewrite Hfile, Hwa. cbn [file].
    rewrite file_write_front, record_bytes_length.
    rewrite disk_page_back_kept by apply record_bytes_length. exact Dold. }
  exists w1. split; [reflexivity|]. split; [exact Pa|]. split; [exact Pb|].
  assert (Hq1 : io_script w1 = []) by (unfold w1, after_write; rewrite Hwa; reflexivity).
  assert (Ho1 : journal_open w1) by (split; [exact Hi | exact Hf]).
  rewrite (journal_recover_quiet rec' w1 Ho1 Hq1).
  rewrite (valid_disk_page_intro _ _ _ Pa Vu), (valid_disk_page_intro _ _ _ Pb Vold).
  reflexivity.
Qed.

Lemma journal_close_eq (w : World) :
  journal_close w =
  (tt, mkWorld (mkJournalState None
                  (if fd (journal_state w) >=? 0 then -1 else fd (journal_state w))
                  false)
         (file w) (now w) (io_script w) (write_log w)).
Proof. reflexivity. Qed.

Lemma closed_guard (w : World) :
  initialized (journal_state w) = false ->
  negb (initialized (journal_state w)) || (fd (journal_state w) <? 0) = true.
Proof. intro H. rewrite H. reflexivity. Qed.

Lemma journal_recover_closed (rec : BootRecord) (w : World) :
  initialized (journal_state w) = false ->
  journal_recover rec w = ((JOURNAL_ERR_INVALID, rec), w).
Proof.
  intro H. unfold journal_recover, bind at 1. unfold get_journal_state.
  rewrite (closed_guard w H). reflexivity.
Qed.

Lemma journal_read_closed (rec : BootRecord) (w : World) :
  initialized (journal_state w) = false ->
  journal_read (Some rec) w = ((JOURNAL_ERR_INVALID, Some rec), w).
Proof.
  intro H. unfold journal_read, bind at 1. unfold get_journal_state.
  rewrite (closed_guard w H). reflexivity.
Qed.

Lemma journal_write_closed (rec : BootRecord) (w : World) :
  initialized (journal_state w) = false ->
  journal_write (Some rec) w = (JOURNAL_ERR_INVALID, w).
Proof.
  intro H. unfold journal_write, bind at 1. unfold get_journal_state.
  rewrite (closed_guard w H). reflexivity.
Qed.

(** X7. [journal_close] leaves the file, the log and the pending
    outcomes alone and forgets the path; after it [journal_read],
    [journal_write] and [journal_recover] return [JOURNAL_ERR_INVALID]
    without touching anything, and a second [journal_close] changes
    nothing. *)
Theorem journal_close_rejects (rec : BootRecord) (w : World) :
  exists w1 : World,
    journal_close w = (tt, w1)
    /\ file w1 = file w /\ write_log w1 = write_log w
    /\ io_script w1 = io_script w
    /\ fst (journal_get_path w1) = None
    /\ journal_read (Some rec) w1 = ((JOURNAL_ERR_INVALID, Some rec), w1)
    /\ journal_write (Some rec) w1 = (JOURNAL_ERR_INVALID, w1)
    /\ journal_recover rec w1 = ((JOURNAL_ERR_INVALID, rec), w1)
    /\ journal_close w1 = (tt, w1).
Proof.
  eexists. split; [apply journal_close_eq|].
  cbn [file write_log io_script].
  refine (conj eq_refl (conj eq_refl (conj eq_refl (conj eq_refl
            (conj _ (conj _ (conj _ _))))))).
  - apply journal_read_closed; reflexivity.
  - apply journal_write_closed; reflexivity.
  - apply journal_recover_closed; reflexivity.
  - rewrite journal_close_eq. cbn [journal_state fd file now io_script write_log].
    destruct (fd (journal_state w) >=? 0) eqn:E; [reflexivity|].
    rewrite E. reflexivity.
Qed.

Lemma closed_first_fields (w : World) :
  file (closed_first w) = file w /\ now (closed_first w) = now w
  /\ io_script (closed_first w) = io_script w
  /\ write_log (closed_first w) = write_log w
  /\ initialized (journal_state (closed_first w)) = false.
Proof.
  unfold closed_first. destruct (initialized (journal_state w)) eqn:E.
  - rewrite journal_close_eq. cbn. auto.
  - auto.
Qed.

(** The shape of [journal_init] on a path. *)
Lemma journal_init_eq (p : string) (env : InitEnv) (w : World) :
  let wc := closed_first w in
  let fd1 := open_result env in
  let wo := mkWorld (mkJournalState (Some p) fd1 false)
              (if path_exists env then file w else []) (now w)
              (io_script w) (write_log w) in
  let d := fst (journal_create_default w) in
  journal_init (Some p) env w =
  if negb (strdup_ok env) then
    (JOURNAL_ERR_NOMEM,
     with_journal_state wc (mkJournalState None (fd (journal_state wc)) false))
  else if fd1 <? 0 then
    (JOURNAL_ERR_IO, with_journal_state wc (mkJournalState None fd1 false))
  else if negb (path_exists env)
          || (Z.of_nat (List.length (file w)) <? Z.of_nat JOURNAL_FILE_SIZE) then
    if negb (write_code (nth_io 0 w) =? JOURNAL_OK) then
      (JOURNAL_ERR_IO,
       with_journal_state (after_write wo PAGE_A_OFFSET d)
         (mkJournalState None (-1) false))
    else if negb (write_code (nth_io 1 w) =? JOURNAL_OK) then
      (JOURNAL_ERR_IO,
       with_journal_state (after_write (after_write wo PAGE_A_OFFSET d) PAGE_B_OFFSET d)
         (mkJournalState None (-1) false))
    else
      (JOURNAL_OK,
       with_journal_state (after_write (after_write wo PAGE_A_OFFSET d) PAGE_B_OFFSET d)
         (mkJournalState (Some p) fd1 true))
  else (JOURNAL_OK, with_journal_state wo (mkJournalState (Some p) fd1 true)).
Proof.
  cbv zeta.
  destruct (closed_first_fields w) as (Hf & Hn & Hs & Hl & Hi).
  unfold journal_init. unfold bind at 1. unfold get_journal_state at 1.
  unfold bind at 1.
  assert (Hc : (if initialized (journal_state w) then journal_close else ret tt) w
               = (tt, closed_first w)).
  { unfold closed_first. destruct (initialized (journal_state w)); [|reflexivity].
    rewrite journal_close_eq. reflexivity. }
  rewrite Hc. clear Hc.
  set (wc := closed_first w) in *.
  unfold bind at 1. unfold get_journal_state at 1.
  destruct (strdup_ok env); cbn [negb].
  2:{ unfold bind, ret, with_journal_state. rewrite Hi. reflexivity. }
  unfold bind at 1. unfold get_file at 1.
  destruct (Z.ltb_spec (open_result env) 0) as [Hneg | Hpos].
  { unfold bind, ret, with_journal_state. rewrite Hi. reflexivity. }
  unfold bind at 1.
  assert (Ho : (if path_exists env then ret tt else put_file []) wc
               = (tt, mkWorld (journal_state wc)
                        (if path_exists env then file w else []) (now w)
                        (io_script w) (write_log w))).
  { destruct (path_exists env); unfold ret, put_file; rewrite <- ?Hf, <- Hn, <- Hs, <- Hl;
      [destruct wc; reflexivity | reflexivity]. }
  rewrite Ho. clear Ho.
  unfold bind at 1. unfold put_journal_state at 1.
  cbn [file now io_script write_log]. rewrite Hi, Hf.
  set (wo := mkWorld (mkJournalState (Some p) (open_result env) false)
               (if path_exists env then file w else []) (now w)
               (io_script w) (write_log w)).
  destruct (negb (path_exists env)
            || (Z.of_nat (List.length (file w)) <? Z.of_nat JOURNAL_FILE_SIZE)).
  2:{ reflexivity. }
  unfold bind at 1.
  change (journal_create_default wo) with (fst (journal_create_default w), wo).
  set (d := fst (journal_create_default w)).
  unfold bind at 1. rewrite write_page_eq by exact Hpos.
  change (nth_io 0 wo) with (nth_io 0 w).
  destruct (negb (write_code (nth_io 0 w) =? JOURNAL_OK)); [reflexivity|].
  unfold bind at 1. rewrite write_page_eq by exact Hpos.
  rewrite nth_io_after_write. change (nth_io 1 wo) with (nth_io 1 w).
  destruct (negb (write_code (nth_io 1 w) =? JOURNAL_OK)); reflexivity.
Qed.

Lemma journal_read_open (rec : BootRecord) (w : World) :
  journal_open w ->
  journal_read (Some rec) w =
  ((fst (fst (journal_recover rec w)), Some (snd (fst (journal_recover rec w)))),
   snd (journal_recover rec w)).
Proof.
  intros [Hi Hf]. unfold journal_read, bind at 1. unfold get_journal_state.
  rewrite (page_eq_dec_guard w Hi Hf). unfold bind, ret.
  destruct (journal_recover rec w) as [[c r] w1]. reflexivity.
Qed.

Lemma committed_recover (rec r : BootRecord) (w : World) :
  journal_open w -> io_script w = [] -> committed (file w) r ->
  journal_recover rec w = ((JOURNAL_OK, r), w).
Proof.
  intros Ho Hq [Ha Hb]. rewrite (journal_recover_quiet rec w Ho Hq), Ha, Hb.
  rewrite Z.geb_leb, Z.leb_refl. reflexivity.
Qed.

Lemma committed_after_two_writes (w : World) (r : BootRecord) :
  wf_record r -> journal_validate r = true ->
  committed
    (file (page_written (page_written w PAGE_A_OFFSET r) PAGE_B_OFFSET r)) r.
Proof.
  intros Hw Hv. destruct (pages_after_two_writes w r r Hw Hw) as [Pa Pb].
  split; apply valid_disk_page_intro; assumption.
Qed.

(** X8. When the path does not exist, or the file is shorter than two
    pages, and no system call fails, [journal_init] returns [JOURNAL_OK],
    marks the journal open on the descriptor [open] gave, and leaves the
    default record in both pages; [journal_read] then returns that
    record: tier 1, three tries each, no flag, boot count 0. *)
Theorem journal_init_fresh
  (p : string) (env : InitEnv) (rec : BootRecord) (w : World) :
  strdup_ok env = true -> 0 <= open_result env ->
  path_exists env = false \/ (List.length (file w) < JOURNAL_FILE_SIZE)%nat ->
  io_script w = [] ->
  exists (w1 : World) (d : BootRecord),
    journal_init (Some p) env w = (JOURNAL_OK, w1)
    /\ journal_state w1 = mkJournalState (Some p) (open_result env) true
    /\ d = fst (journal_create_default w)
    /\ disk_page (file w1) PAGE_A_OFFSET = Some d
    /\ disk_page (file w1) PAGE_B_OFFSET = Some d
    /\ journal_read (Some rec) w1 = ((JOURNAL_OK, Some d), w1)
    /\ journal_validate d = true
    /\ tier d = 1 /\ tries_t2 d = 3 /\ tries_t3 d = 3
    /\ flags d = 0 /\ boot_count d = 0.
Proof.
  intros Hs Ho Hfresh Hq.
  rewrite (journal_init_eq p env w). cbv zeta. rewrite Hs. cbn [negb].
  destruct (Z.ltb_spec (open_result env) 0) as [Hneg|_]; [lia|].
  assert (Hc : negb (path_exists env)
               || (Z.of_nat (List.length (file w)) <? Z.of_nat JOURNAL_FILE_SIZE)
               = true).
  { destruct Hfresh as [He | Hl]; [rewrite He; reflexivity|].
    apply orb_true_iff. right. apply Z.ltb_lt. lia. }
  rewrite Hc. rewrite !nth_io_quiet by exact Hq.
  change (write_code io_good) with JOURNAL_OK. cbn [Z.eqb JOURNAL_OK negb].
  set (d := fst (journal_create_default w)).
  set (wo := mkWorld _ _ _ _ _).
  rewrite (after_write_quiet wo) by exact Hq.
  rewrite (after_write_quiet (page_written wo PAGE_A_OFFSET d)) by reflexivity.
  destruct (default_record_valid w) as [Vd Wd]. fold d in Vd, Wd.
  pose proof (committed_after_two_writes wo d Wd Vd) as Hcm.
  set (w2 := page_written (page_written wo PAGE_A_OFFSET d) PAGE_B_OFFSET d) in *.
  set (w1 := with_journal_state w2 (mkJournalState (Some p) (open_result env) true)).
  assert (Hfile : file w1 = file w2) by reflexivity.
  assert (Hopen : journal_open w1) by (split; [reflexivity | exact Ho]).
  assert (Hq1 : io_script w1 = []) by reflexivity.
  destruct Hcm as [Ca Cb].
  exists w1, d. split; [reflexivity|]. split; [reflexivity|]. split; [reflexivity|].
  split; [rewrite Hfile; apply valid_disk_page_some in Ca; tauto|].
  split; [rewrite Hfile; apply valid_disk_page_some in Cb; tauto|].
  split.
  - assert (Hcm1 : committed (file w1) d).
    { unfold committed. rewrite Hfile. split; [exact Ca | exact Cb]. }
    rewrite (journal_read_open rec w1 Hopen).
    rewrite (committed_recover rec d w1 Hopen Hq1 Hcm1).
    reflexivity.
  - split; [exact Vd|]. repeat split.
Qed.

(** X9. On an existing file of at least two pages [journal_init]
    returns [JOURNAL_OK] and marks the journal open without reading or
    writing the file: its bytes, the log and the pending outcomes are as
    before, whatever the pages hold. *)
Theorem journal_init_existing (p : string) (env : InitEnv) (w : World) :
  strdup_ok env = true -> 0 <= open_result env ->
  path_exists env = true ->
  (JOURNAL_FILE_SIZE <= List.length (file w))%nat ->
  exists w1 : World,
    journal_init (Some p) env w = (JOURNAL_OK, w1)
    /\ journal_state w1 = mkJournalState (Some p) (open_result env) true
    /\ file w1 = file w
    /\ write_log w1 = write_log w
    /\ io_script w1 = io_script w
    /\ now w1 = now w.
Proof.
  intros Hs Ho He Hl.
  rewrite (journal_init_eq p env w). cbv zeta. rewrite Hs, He. cbn [negb orb].
  destruct (Z.ltb_spec (open_result env) 0) as [Hneg|_]; [lia|].
  destruct (Z.ltb_spec (Z.of_nat (List.length (file w))) (Z.of_nat JOURNAL_FILE_SIZE));
    [lia|].
  eexists. split; [reflexivity|]. repeat split.
Qed.

(** X10. When [journal_init] on a path does not return [JOURNAL_OK] it
    returns [JOURNAL_ERR_NOMEM], exactly when [strdup] failed, or
    [JOURNAL_ERR_IO]; in both cases the journal is left closed, with no
    path, also when another journal was open before the call, so that
    [journal_read] and [journal_write] return [JOURNAL_ERR_INVALID]. *)
Theorem journal_init_failure
  (p : string) (env : InitEnv) (rec : BootRecord) (w w1 : World) (code : Z) :
  journal_init (Some p) env w = (code, w1) ->
  code <> JOURNAL_OK ->
  (code = JOURNAL_ERR_NOMEM \/ code = JOURNAL_ERR_IO)
  /\ (code = JOURNAL_ERR_NOMEM <-> strdup_ok env = false)
  /\ initialized (journal_state w1) = false
  /\ path (journal_state w1) = None
  /\ journal_read (Some rec) w1 = ((JOURNAL_ERR_INVALID, Some rec), w1)
  /\ journal_write (Some rec) w1 = (JOURNAL_ERR_INVALID, w1).
Proof.
  rewrite (journal_init_eq p env w). cbv zeta.
  destruct (strdup_ok env); cbn [negb].
  2:{ intros H _. injection H as <- <-.
      split; [left; reflexivity|]. split; [tauto|].
      split; [reflexivity|]. split; [reflexivity|].
      split; [apply journal_read_closed | apply journal_write_closed]; reflexivity. }
  assert (Hio : forall w0 : World,
            initialized (journal_state w0) = false ->
            path (journal_state w0) = None ->
            (JOURNAL_ERR_IO = JOURNAL_ERR_NOMEM \/ JOURNAL_ERR_IO = JOURNAL_ERR_IO)
            /\ (JOURNAL_ERR_IO = JOURNAL_ERR_NOMEM <-> true = false)
            /\ initialized (journal_state w0) = false
            /\ path (journal_state w0) = None
            /\ journal_read (Some rec) w0 = ((JOURNAL_ERR_INVALID, Some rec), w0)
            /\ journal_write (Some rec) w0 = (JOURNAL_ERR_INVALID, w0)).
  { intros w0 Hi Hp. split; [right; reflexivity|].
    split; [split; discriminate|]. split; [exact Hi|]. split; [exact Hp|].
    split; [apply journal_read_closed | apply journal_write_closed]; exact Hi. }
  destruct (open_result env <? 0).
  { intros H _. injection H as <- <-. apply Hio; reflexivity. }
  destruct (negb (path_exists env) || _).
  2:{ intros H Hne. injection H as <- <-. contradiction. }
  destruct (negb (write_code (nth_io 0 w) =? JOURNAL_OK)).
  { intros H _. injection H as <- <-. apply Hio; reflexivity. }
  destruct (negb (write_code (nth_io 1 w) =? JOURNAL_OK)).
  { intros H _. injection H as <- <-. apply Hio; reflexivity. }
  intros H Hne. injection H as <- <-. contradiction.
Qed.

Lemma journal_validate_fields (r : BootRecord) :
  journal_validate r = true ->
  trailer r = JOURNAL_MAGIC /\ crc32 r = record_calculate_crc r
  /\ version r = 1 /\ 1 <= tier r <= 3.
Proof.
  unfold journal_validate.
  destruct (Z.eqb_spec (trailer r) JOURNAL_MAGIC); [|discriminate]. cbn [negb].
  destruct (Z.eqb_spec (crc32 r) (record_calculate_crc r)); [|discriminate].
  cbn [negb].
  destruct (Z.eqb_spec (version r) JOURNAL_VERSION); [|discriminate]. cbn [negb].
  destruct (Z.ltb_spec (tier r) TIER_1); [discriminate|].
  rewrite Z.gtb_ltb.
  destruct (Z.ltb_spec TIER_3 (tier r)); [discriminate|].
  unfold JOURNAL_VERSION, TIER_1, TIER_3 in *. auto.
Qed.

Lemma committed_length (f : list Z) (r : BootRecord) :
  committed f r -> (JOURNAL_FILE_SIZE <= List.length f)%nat.
Proof.
  intros [_ Hb]. apply valid_disk_page_some in Hb as [Hb _].
  apply disk_page_length in Hb. exact Hb.
Qed.

Lemma committed_wf (f : list Z) (r : BootRecord) : committed f r -> wf_record r.
Proof.
  intros [Ha _]. apply valid_disk_page_some in Ha as [Ha _].
  exact (disk_page_wf _ _ _ Ha).
Qed.

Lemma committed_valid (f : list Z) (r : BootRecord) :
  committed f r -> journal_validate r = true.
Proof. intros [Ha _]. apply valid_disk_page_some in Ha. tauto. Qed.

Lemma set_boot_count_wf (r : BootRecord) (n : Z) :
  wf_record r -> wf_record (set_boot_count r (u64 n)).
Proof.
  intros (Hv & Ht & H2 & H3 & Hr & Hf & Hb & Hs & Hc & Hm).
  unfold wf_record. cbn. repeat (split; try assumption);
    apply Z.mod_pos_bound; lia.
Qed.

(** One run of [inc-boot] on a journal file that holds [r] in both pages. *)
Lemma inc_boot_step
  (p : string) (env : InitEnv) (rec0 r : BootRecord) (w : World) :
  strdup_ok env = true -> 0 <= open_result env -> path_exists env = true ->
  io_script w = [] -> committed (file w) r ->
  exists (w1 : World),
    journal_tool_inc_boot p env rec0 w = (0, w1)
    /\ io_script w1 = []
    /\ initialized (journal_state w1) = false
    /\ committed (file w1)
         (updated_record (set_boot_count r (u64 (boot_count r + 1))) (now w)).
Proof.
  intros Hs Ho He Hq Hc.
  pose proof (committed_length _ _ Hc) as Hlen.
  pose proof (committed_wf _ _ Hc) as Hwf.
  destruct (journal_validate_fields r (committed_valid _ _ Hc)) as (_ & _ & Hv & Ht).
  unfold journal_tool_inc_boot. unfold bind at 1.
  rewrite (journal_init_eq p env w). cbv zeta. rewrite Hs, He. cbn [negb orb].
  destruct (Z.ltb_spec (open_result env) 0) as [Hneg|_]; [lia|].
  destruct (Z.ltb_spec (Z.of_nat (List.length (file w))) (Z.of_nat JOURNAL_FILE_SIZE));
    [lia|].
  set (wi := with_journal_state _ _).
  assert (Hopen : journal_open wi) by (split; [reflexivity | exact Ho]).
  assert (Hqi : io_script wi = []) by exact Hq.
  assert (Hci : committed (file wi) r) by exact Hc.
  cbn [Z.eqb JOURNAL_OK negb].
  unfold bind at 1. rewrite (journal_read_open rec0 wi Hopen).
  rewrite (committed_recover rec0 r wi Hopen Hqi Hci). cbn [fst snd].
  cbn [Z.eqb JOURNAL_OK negb].
  set (r1 := set_boot_count r (u64 (boot_count r + 1))).
  unfold bind at 1. rewrite (journal_write_quiet r1 wi Hopen Hqi). cbv zeta.
  assert (Hsem : (version r1 =? 1) && negb ((tier r1 <? 1) || (tier r1 >? 3)) = true).
  { apply semantic_fields_spec. split; assumption. }
  rewrite Hsem. cbn [Z.eqb JOURNAL_OK negb].
  unfold bind, ret. rewrite journal_close_eq.
  eexists. split; [reflexivity|]. cbn [io_script journal_state initialized file].
  split; [reflexivity|]. split; [reflexivity|].
  apply committed_after_two_writes.
  - apply updated_record_wf, set_boot_count_wf, Hwf.
  - rewrite journal_validate_updated. exact Hsem.
Qed.

Lemma at_time_committed (t : Z) (w : World) (r : BootRecord) :
  committed (file w) r -> committed (file (at_time t w)) r.
Proof. intro H. exact H. Qed.

(** X11. Starting from a journal file that holds a valid record in both
    pages, any number of runs of [journal_tool inc-boot], each one an
    init, read, increment, write and close at a time of its own, leave
    in both pages a valid record whose boot count is the old one plus
    the number of runs (modulo 2^64), with tier, tries, rollback index
    and flags as they were. *)
Theorem inc_boot_runs_count
  (p : string) (env : InitEnv) (rec0 r : BootRecord) (ts : list Z) (w : World) :
  strdup_ok env = true -> 0 <= open_result env -> path_exists env = true ->
  io_script w = [] -> committed (file w) r ->
  exists r1 : BootRecord,
    committed (file (inc_boot_runs p env rec0 ts w)) r1
    /\ boot_count r1 = (boot_count r + Z.of_nat (List.length ts)) mod 2 ^ 64
    /\ tier r1 = tier r /\ tries_t2 r1 = tries_t2 r /\ tries_t3 r1 = tries_t3 r
    /\ rollback_idx r1 = rollback_idx r /\ flags r1 = flags r.
Proof.
  intros Hs Ho He. revert r w.
  induction ts as [|t ts IH]; intros r w Hq Hc.
  - exists r. split; [exact Hc|]. split; [|auto].
    cbn [List.length Z.of_nat]. rewrite Z.add_0_r.
    destruct (committed_wf _ _ Hc) as (_ & _ & _ & _ & _ & _ & Hb & _).
    symmetry. apply Z.mod_small. exact Hb.
  - cbn [inc_boot_runs].
    destruct (inc_boot_step p env rec0 r (at_time t w) Hs Ho He Hq
                (at_time_committed t w r Hc)) as (w1 & Hrun & Hq1 & _ & Hc1).
    rewrite Hrun. cbn [snd].
    destruct (IH _ w1 Hq1 Hc1) as (r1 & Hcr & Hb & Ht & H2 & H3 & Hr & Hf).
    exists r1. split; [exact Hcr|]. split.
    + rewrite Hb. cbn [boot_count updated_record set_crc32 set_trailer
                       set_timestamp set_boot_count].
      unfold u64. rewrite Zplus_mod_idemp_l. f_equal.
      cbn [List.length]. lia.
    + rewrite Ht, H2, H3, Hr, Hf. repeat split.
Qed.

Lemma not32_bits (f i : Z) :
  0 <= i ->
  Z.testbit (not32 f) i = if i <? 32 then negb (Z.testbit f i) else false.
Proof.
  intro Hi. unfold not32, u32.
  destruct (Z.ltb_spec i 32).
  - rewrite Z.mod_pow2_bits_low by lia. apply Z.lnot_spec. exact Hi.
  - apply Z.mod_pow2_bits_high. lia.
Qed.

Lemma u32_high_bits (x i : Z) : 0 <= x < 2 ^ 32 -> 32 <= i -> Z.testbit x i = false.
Proof.
  intros Hx Hi. rewrite <- (Z.mod_small x (2 ^ 32)) by exact Hx.
  apply Z.mod_pow2_bits_high. lia.
Qed.

Lemma u32_of_bits (z : Z) :
  0 <= z -> (forall i, 32 <= i -> Z.testbit z i = false) -> 0 <= z < 2 ^ 32.
Proof.
  intros Hz Hhigh.
  assert (E : z = z mod 2 ^ 32).
  { apply Z.bits_inj'. intros i Hi. destruct (Z.lt_ge_cases i 32).
    - rewrite Z.mod_pow2_bits_low by lia. reflexivity.
    - rewrite Z.mod_pow2_bits_high by lia. apply Hhigh. lia. }
  rewrite E. apply Z.mod_pos_bound. lia.
Qed.

(** X12. On a record whose fields fit their types: a flag mask that was
    set tests as set unless it is 0, and one that was cleared tests as
    clear; setting or clearing a mask does not change the test of a mask
    disjoint from it; setting twice or clearing twice is the same as
    once; and the flags stay a 32-bit value. *)
Theorem journal_flag_algebra (R : BootRecord) (f g : Z) :
  wf_record R ->
  journal_has_flag (journal_set_flag R f) f = negb (f =? 0)
  /\ journal_has_flag (journal_clear_flag R f) f = false
  /\ (Z.land f g = 0 ->
      journal_has_flag (journal_set_flag R f) g = journal_has_flag R g
      /\ journal_has_flag (journal_clear_flag R f) g = journal_has_flag R g)
  /\ journal_set_flag (journal_set_flag R f) f = journal_set_flag R f
  /\ journal_clear_flag (journal_clear_flag R f) f = journal_clear_flag R f
  /\ wf_record (journal_clear_flag R f)
  /\ (0 <= f < 2 ^ 32 -> wf_record (journal_set_flag R f)).
Proof.
  intros Hwf. pose proof Hwf as (Hv & Ht & H2 & H3 & Hr & Hf & Hb & Hs & Hc & Hm).
  unfold journal_has_flag, journal_set_flag, journal_clear_flag, set_flags.
  cbn [flags version tier tries_t2 tries_t3 rollback_idx boot_count timestamp
       crc32 trailer].
  assert (Hclr : forall x, Z.land (Z.land x (not32 f)) f = 0).
  { intro x. apply Z.bits_inj'. intros i Hi.
    rewrite !Z.land_spec, not32_bits, Z.bits_0 by exact Hi.
    destruct (i <? 32), (Z.testbit x i), (Z.testbit f i); reflexivity. }
  split; [|split; [|split; [|split; [|split; [|split]]]]].
  - replace (Z.land (Z.lor (flags R) f) f) with f; [reflexivity|].
    apply Z.bits_inj'. intros i Hi. rewrite Z.land_spec, Z.lor_spec.
    destruct (Z.testbit (flags R) i), (Z.testbit f i); reflexivity.
  - rewrite Hclr. reflexivity.
  - intro Hd. split.
    + rewrite Z.land_lor_distr_l, Hd, Z.lor_0_r. reflexivity.
    + replace (Z.land (Z.land (flags R) (not32 f)) g) with (Z.land (flags R) g);
        [reflexivity|].
      apply Z.bits_inj'. intros i Hi.
      rewrite !Z.land_spec, not32_bits by exact Hi.
      assert (Hfg : Z.testbit f i && Z.testbit g i = false)
        by (rewrite <- Z.land_spec, Hd; apply Z.bits_0).
      destruct (Z.ltb_spec i 32).
      * destruct (Z.testbit (flags R) i), (Z.testbit f i), (Z.testbit g i);
          try reflexivity; discriminate.
      * rewrite (u32_high_bits _ _ Hf) by lia. reflexivity.
  - f_equal. rewrite <- Z.lor_assoc, Z.lor_diag. reflexivity.
  - f_equal. rewrite <- Z.land_assoc, Z.land_diag. reflexivity.
  - unfold wf_record.
    cbn [flags version tier tries_t2 tries_t3 rollback_idx boot_count timestamp
         crc32 trailer].
    repeat (split; try assumption);
      apply u32_of_bits;
      try (apply Z.land_nonneg; left; lia);
      intros i Hi; rewrite Z.land_spec, (u32_high_bits _ _ Hf) by lia; reflexivity.
  - intros Hfr. unfold wf_record.
    cbn [flags version tier tries_t2 tries_t3 rollback_idx boot_count timestamp
         crc32 trailer].
    repeat (split; try assumption);
      apply u32_of_bits;
      try (apply Z.lor_nonneg; lia);
      intros i Hi;
      rewrite Z.lor_spec, (u32_high_bits _ _ Hf), (u32_high_bits _ _ Hfr) by lia;
      reflexivity.
Qed.

(** X13. [journal_reset_tries] is idempotent; after it a decrement of
    either tier returns 2 and the third decrement of a tier returns 0;
    a decrement of one tier never changes the other tier's counter; and
    all of them keep the fields within their types. *)
Theorem journal_reset_then_decrement (R : BootRecord) :
  wf_record R ->
  journal_reset_tries (journal_reset_tries R) = journal_reset_tries R
  /\ wf_record (journal_reset_tries R)
  /\ journal_decrement_tries (journal_reset_tries R) 2
     = (2, set_tries_t2 (journal_reset_tries R) 2)
  /\ journal_decrement_tries (journal_reset_tries R) 3
     = (2, set_tries_t3 (journal_reset_tries R) 2)
  /\ tries_t3 (snd (journal_decrement_tries R 2)) = tries_t3 R
  /\ tries_t2 (snd (journal_decrement_tries R 3)) = tries_t2 R
  /\ fst (journal_decrement_tries
            (decrement_calls 2 (journal_reset_tries R) 2) 2) = 0
  /\ wf_record (snd (journal_decrement_tries R 2))
  /\ wf_record (snd (journal_decrement_tries R 3)).
Proof.
  intros (Hv & Ht & H2 & H3 & Hr & Hf & Hb & Hs & Hc & Hm).
  split; [reflexivity|].
  split.
  { unfold wf_record, journal_reset_tries, DEFAULT_TRIES_T2, DEFAULT_TRIES_T3.
    cbn [set_tries_t2 set_tries_t3 flags version tier tries_t2 tries_t3
         rollback_idx boot_count timestamp crc32 trailer].
    repeat (split; try assumption); lia. }
  split; [reflexivity|]. split; [reflexivity|].
  change 2 with TIER_2. change 3 with TIER_3.
  rewrite (decrement_tier2_eq R H2), (decrement_tier3_eq R H3).
  split; [destruct (tries_t2 R >? 0); reflexivity|].
  split; [destruct (tries_t3 R >? 0); reflexivity|].
  split; [reflexivity|].
  split.
  - destruct (Z.gtb_spec (tries_t2 R) 0); cbn [snd].
    + unfold wf_record.
      cbn [set_tries_t2 flags version tier tries_t2 tries_t3
           rollback_idx boot_count timestamp crc32 trailer].
      repeat (split; try assumption); lia.
    + unfold wf_record; repeat (split; try assumption).
  - destruct (Z.gtb_spec (tries_t3 R) 0); cbn [snd].
    + unfold wf_record.
      cbn [set_tries_t3 flags version tier tries_t2 tries_t3
           rollback_idx boot_count timestamp crc32 trailer].
      repeat (split; try assumption); lia.
    + unfold wf_record; repeat (split; try assumption).
Qed.

(** *** The CRC and a damaged byte *)

Lemma crc32_compute_fold (data : list Z) (len : nat) :
  crc32_compute data len = not32 (fold_left crc32_step (firstn len data) 0xFFFFFFFF).
Proof. reflexivity. Qed.

Lemma crc32_table_range (i : nat) : 0 <= nth i crc32_table 0 < 2 ^ 32.
Proof.
  assert (Hall : forallb (fun t => (0 <=? t) && (t <? 2 ^ 32)) crc32_table = true)
    by (vm_compute; reflexivity).
  rewrite forallb_forall in Hall.
  destruct (Nat.lt_ge_cases i (List.length crc32_table)) as [Hlt | Hge].
  - specialize (Hall _ (nth_In _ 0 Hlt)).
    apply andb_prop in Hall as [H0 H1].
    apply Z.leb_le in H0. apply Z.ltb_lt in H1. lia.
  - rewrite nth_overflow by exact Hge. lia.
Qed.

Lemma crc32_table_top_injective (i j : nat) :
  (i < 256)%nat -> (j < 256)%nat ->
  crc32_table_top i = crc32_table_top j -> i = j.
Proof.
  assert (Hall : forallb (fun k => Nat.eqb (crc32_top_index (crc32_table_top k)) k)
                   (seq 0 256) = true) by (vm_compute; reflexivity).
  rewrite forallb_forall in Hall.
  intros Hi Hj E.
  pose proof (Hall i ltac:(apply in_seq; lia)) as Ei.
  pose proof (Hall j ltac:(apply in_seq; lia)) as Ej.
  apply Nat.eqb_eq in Ei, Ej. rewrite <- Ei, <- Ej, E. reflexivity.
Qed.

Lemma low_byte_index (z : Z) : (Z.to_nat (Z.land z 255) < 256)%nat.
Proof.
  change 255 with (Z.ones 8). rewrite Z.land_ones by lia.
  pose proof (Z.mod_pos_bound z (2 ^ 8) ltac:(lia)). change (2 ^ 8) with 256 in *.
  lia.
Qed.

Lemma u32_bits_iff (z : Z) :
  0 <= z < 2 ^ 32 <-> (0 <= z /\ forall i, 32 <= i -> Z.testbit z i = false).
Proof.
  split.
  - intros Hz. split; [lia|]. intros i Hi.
    rewrite <- (Z.mod_small z (2 ^ 32)) by exact Hz.
    apply Z.mod_pow2_bits_high. lia.
  - intros [Hz Hhigh].
    assert (E : z = z mod 2 ^ 32).
    { apply Z.bits_inj'. intros i Hi. destruct (Z.lt_ge_cases i 32).
      - rewrite Z.mod_pow2_bits_low by lia. reflexivity.
      - rewrite Z.mod_pow2_bits_high by lia. apply Hhigh. lia. }
    rewrite E. apply Z.mod_pos_bound. lia.
Qed.

Lemma crc32_step_range (crc b : Z) :
  0 <= crc < 2 ^ 32 -> 0 <= crc32_step crc b < 2 ^ 32.
Proof.
  intro Hc. unfold crc32_step.
  set (t := nth _ crc32_table 0).
  assert (Ht : 0 <= t < 2 ^ 32) by apply crc32_table_range.
  apply u32_bits_iff in Hc as [Hc0 Hch]. apply u32_bits_iff in Ht as [Ht0 Hth].
  apply u32_bits_iff. split.
  - apply Z.lxor_nonneg. split; intros _; [exact Ht0|].
    apply Z.shiftr_nonneg. exact Hc0.
  - intros i Hi. rewrite Z.lxor_spec, Z.shiftr_spec by lia.
    rewrite Hch, Hth by lia. reflexivity.
Qed.

Lemma lxor_cancel_l (a x y : Z) : Z.lxor a x = Z.lxor a y -> x = y.
Proof.
  intro H. apply (f_equal (Z.lxor a)) in H.
  rewrite <- !Z.lxor_assoc, Z.lxor_nilpotent, !Z.lxor_0_l in H. exact H.
Qed.

Lemma low_byte_eq (c b1 b2 : Z) :
  is_byte b1 -> is_byte b2 ->
  Z.land (Z.lxor c b1) 255 = Z.land (Z.lxor c b2) 255 -> b1 = b2.
Proof.
  intros H1 H2 E. apply Z.bits_inj'. intros i Hi.
  destruct (Z.lt_ge_cases i 8) as [Hlt | Hge].
  - apply (f_equal (fun z => Z.testbit z i)) in E.
    change 255 with (Z.ones 8) in E.
    rewrite !Z.land_spec, !Z.lxor_spec, Z.ones_spec_low in E by lia.
    rewrite !andb_true_r in E.
    destruct (Z.testbit c i), (Z.testbit b1 i), (Z.testbit b2 i);
      try reflexivity; discriminate.
  - unfold is_byte in *.
    rewrite <- (Z.mod_small b1 (2 ^ 8)), <- (Z.mod_small b2 (2 ^ 8))
      by (change (2 ^ 8) with 256; lia).
    rewrite !Z.mod_pow2_bits_high by lia. reflexivity.
Qed.

Lemma table_entry_of_top (i j : nat) :
  (i < 256)%nat -> (j < 256)%nat ->
  Z.shiftr (nth i crc32_table 0) 24 = Z.shiftr (nth j crc32_table 0) 24 -> i = j.
Proof. apply crc32_table_top_injective. Qed.

(** Two different bytes send a state to two different states. *)
Lemma crc32_step_byte_injective (crc b1 b2 : Z) :
  is_byte b1 -> is_byte b2 -> b1 <> b2 ->
  crc32_step crc b1 <> crc32_step crc b2.
Proof.
  intros H1 H2 Hne E. unfold crc32_step in E. apply lxor_cancel_l in E.
  apply (f_equal (fun t => Z.shiftr t 24)) in E.
  apply table_entry_of_top in E; try apply low_byte_index.
  apply Z2Nat.inj in E.
  - apply Hne. exact (low_byte_eq crc b1 b2 H1 H2 E).
  - change 255 with (Z.ones 8). rewrite Z.land_ones by lia.
    apply Z.mod_pos_bound. lia.
  - change 255 with (Z.ones 8). rewrite Z.land_ones by lia.
    apply Z.mod_pos_bound. lia.
Qed.

(** One byte sends two different states to two different states. *)
Lemma crc32_step_state_injective (c1 c2 b : Z) :
  0 <= c1 < 2 ^ 32 -> 0 <= c2 < 2 ^ 32 ->
  crc32_step c1 b = crc32_step c2 b -> c1 = c2.
Proof.
  intros H1 H2 E. unfold crc32_step in E.
  set (i1 := Z.to_nat (Z.land (Z.lxor c1 b) 255)) in *.
  set (i2 := Z.to_nat (Z.land (Z.lxor c2 b) 255)) in *.
  assert (Htop : forall c t, 0 <= c < 2 ^ 32 ->
            Z.shiftr (Z.lxor (Z.shiftr c 8) t) 24 = Z.shiftr t 24).
  { intros c t Hc. rewrite Z.shiftr_lxor, Z.shiftr_shiftr by lia.
    change (8 + 24) with 32.
    rewrite (Z.shiftr_div_pow2 c 32) by lia.
    rewrite Z.div_small by exact Hc. apply Z.lxor_0_l. }
  assert (Ei : i1 = i2).
  { apply table_entry_of_top; try apply low_byte_index.
    apply (f_equal (fun z => Z.shiftr z 24)) in E.
    rewrite (Htop c1 _ H1), (Htop c2 _ H2) in E. exact E. }
  rewrite Ei in E.
  assert (Ehigh : Z.shiftr c1 8 = Z.shiftr c2 8).
  { rewrite Z.lxor_comm, (Z.lxor_comm (Z.shiftr c2 8)) in E.
    exact (lxor_cancel_l _ _ _ E). }
  assert (Elow : Z.land (Z.lxor c1 b) 255 = Z.land (Z.lxor c2 b) 255).
  { unfold i1, i2 in Ei. apply Z2Nat.inj in Ei; [exact Ei| |];
      change 255 with (Z.ones 8); rewrite Z.land_ones by lia;
      apply Z.mod_pos_bound; lia. }
  apply Z.bits_inj'. intros i Hi.
  destruct (Z.lt_ge_cases i 8) as [Hlt | Hge].
  - apply (f_equal (fun z => Z.testbit z i)) in Elow.
    change 255 with (Z.ones 8) in Elow.
    rewrite !Z.land_spec, !Z.lxor_spec, Z.ones_spec_low in Elow by lia.
    rewrite !andb_true_r in Elow.
    destruct (Z.testbit c1 i), (Z.testbit c2 i), (Z.testbit b i);
      try reflexivity; discriminate.
  - apply (f_equal (fun z => Z.testbit z (i - 8))) in Ehigh.
    rewrite !Z.shiftr_spec in Ehigh by lia.
    replace (i - 8 + 8) with i in Ehigh by lia. exact Ehigh.
Qed.

Lemma crc32_fold_range (bs : list Z) (crc : Z) :
  0 <= crc < 2 ^ 32 -> 0 <= fold_left crc32_step bs crc < 2 ^ 32.
Proof.
  revert crc. induction bs as [|b bs IH]; intros crc H; [exact H|].
  cbn [fold_left]. apply IH. apply crc32_step_range. exact H.
Qed.

Lemma crc32_fold_state_injective (bs : list Z) (c1 c2 : Z) :
  0 <= c1 < 2 ^ 32 -> 0 <= c2 < 2 ^ 32 ->
  fold_left crc32_step bs c1 = fold_left crc32_step bs c2 -> c1 = c2.
Proof.
  revert c1 c2. induction bs as [|b bs IH]; intros c1 c2 H1 H2 E; [exact E|].
  cbn [fold_left] in E.
  apply IH in E; try (apply crc32_step_range; assumption).
  exact (crc32_step_state_injective c1 c2 b H1 H2 E).
Qed.

Lemma not32_injective (c1 c2 : Z) :
  0 <= c1 < 2 ^ 32 -> 0 <= c2 < 2 ^ 32 -> not32 c1 = not32 c2 -> c1 = c2.
Proof.
  intros H1 H2. unfold not32, u32.
  assert (Hn : forall c, 0 <= c < 2 ^ 32 -> Z.lnot c mod 2 ^ 32 = 2 ^ 32 - 1 - c).
  { intros c Hc. unfold Z.lnot. rewrite <- Z.sub_1_r.
    replace (- c - 1) with (2 ^ 32 - 1 - c + (-1) * 2 ^ 32) by lia.
    rewrite Z.mod_add by lia. apply Z.mod_small. lia. }
  rewrite (Hn c1 H1), (Hn c2 H2). lia.
Qed.

(** The states of the CRC loop after two buffers that differ in one byte. *)
Lemma crc32_fold_single_byte (pre post : list Z) (b1 b2 crc : Z) :
  0 <= crc < 2 ^ 32 -> is_byte b1 -> is_byte b2 -> b1 <> b2 ->
  fold_left crc32_step (pre ++ b1 :: post) crc
  <> fold_left crc32_step (pre ++ b2 :: post) crc.
Proof.
  intros Hc H1 H2 Hne E. rewrite !fold_left_app in E. cbn [fold_left] in E.
  pose proof (crc32_fold_range pre crc Hc) as Hp.
  apply crc32_fold_state_injective in E; try (apply crc32_step_range; exact Hp).
  exact (crc32_step_byte_injective _ b1 b2 H1 H2 Hne E).
Qed.

Lemma skipn_cons_nth (i : nat) (l : list Z) :
  (i < List.length l)%nat -> skipn i l = nth i l 0 :: skipn (S i) l.
Proof.
  revert l. induction i as [|i IH]; intros l Hl.
  - destruct l; [cbn in Hl; lia | reflexivity].
  - destruct l as [|x l]; [cbn in Hl; lia|].
    cbn [skipn nth]. apply IH. cbn in Hl. lia.
Qed.

(** X22. Two buffers of bytes that differ in exactly one byte never have
    the same CRC: [crc32_compute] over the whole buffer changes whenever
    one of its bytes is replaced by a different byte. *)
Theorem crc32_compute_detects_byte (data : list Z) (i : nat) (b : Z) :
  (i < List.length data)%nat ->
  is_byte (nth i data 0) -> is_byte b -> b <> nth i data 0 ->
  crc32_compute (set_byte i b data) (List.length data)
  <> crc32_compute data (List.length data)
  /\ List.length (set_byte i b data) = List.length data.
Proof.
  intros Hi Hold Hb Hne.
  assert (Hlen : List.length (set_byte i b data) = List.length data).
  { unfold set_byte. rewrite length_app, length_firstn. cbn [List.length].
    rewrite length_skipn. lia. }
  split; [|exact Hlen].
  rewrite !crc32_compute_fold. rewrite <- Hlen at 1. rewrite !firstn_all.
  intro E. apply not32_injective in E;
    try (apply crc32_fold_range; vm_compute; split; congruence).
  assert (Hd : data = firstn i data ++ nth i data 0 :: skipn (S i) data).
  { rewrite <- (firstn_skipn i data) at 1. f_equal.
    apply skipn_cons_nth. exact Hi. }
  rewrite Hd in E at 2. unfold set_byte in E.
  revert E. apply crc32_fold_single_byte; try assumption.
  vm_compute. split; congruence.
Qed.

Lemma le_bytes_le_value (n : nat) (l : list Z) :
  List.length l = n -> Forall is_byte l -> le_bytes n (le_value l) = l.
Proof.
  revert n. induction l as [|x l IH]; intros n Hn Hb.
  - cbn in Hn. subst n. reflexivity.
  - cbn [List.length] in Hn. subst n. inversion Hb as [|? ? Hx Hl]; subst.
    cbn [le_value le_bytes].
    assert (Hx' : Z.land x 255 = x).
    { change 255 with (Z.ones 8). rewrite Z.land_ones by lia.
      apply Z.mod_small. exact Hx. }
    rewrite Hx'.
    assert (Hlow : Z.land (Z.lor x (Z.shiftl (le_value l) 8)) 255 = x).
    { apply Z.bits_inj'. intros i Hi. change 255 with (Z.ones 8).
      rewrite Z.land_spec, Z.lor_spec.
      destruct (Z.lt_ge_cases i 8).
      - rewrite Z.ones_spec_low, Z.shiftl_spec_low by lia.
        rewrite orb_false_r, andb_true_r. reflexivity.
      - rewrite Z.ones_spec_high by lia. rewrite andb_false_r.
        unfold is_byte in Hx. rewrite <- (Z.mod_small x (2 ^ 8)) by exact Hx.
        rewrite Z.mod_pow2_bits_high by lia. reflexivity. }
    assert (Hhigh : Z.shiftr (Z.lor x (Z.shiftl (le_value l) 8)) 8 = le_value l).
    { rewrite Z.shiftr_lor, Z.shiftr_shiftl_l by lia.
      rewrite Z.sub_diag, Z.shiftl_0_r.
      rewrite (Z.shiftr_div_pow2 x 8) by lia.
      rewrite Z.div_small by exact Hx. apply Z.lor_0_l. }
    rewrite Hlow, Hhigh, IH by (auto). reflexivity.
Qed.

(** The bytes of a whole page are the bytes of the record read from it. *)
Lemma record_bytes_record_of_bytes (bs : list Z) :
  List.length bs = PAGE_SIZE -> Forall is_byte bs ->
  record_bytes (record_of_bytes bs) = bs.
Proof.
  intros Hlen Hb.
  do 36 (destruct bs as [|? bs]; [discriminate Hlen|]).
  destruct bs; [|discriminate Hlen]. clear Hlen.
  repeat match goal with
         | H : Forall _ (_ :: _) |- _ => inversion H; clear H; subst
         end.
  unfold record_bytes, record_of_bytes, slice.
  cbn [skipn firstn version tier tries_t2 tries_t3 rollback_idx flags
       boot_count timestamp crc32 trailer].
  rewrite !le_bytes_le_value
    by (try reflexivity; repeat (apply Forall_cons; [assumption|]);
        apply Forall_nil).
  reflexivity.
Qed.

Lemma set_byte_length (i : nat) (b : Z) (l : list Z) :
  (i < List.length l)%nat -> List.length (set_byte i b l) = List.length l.
Proof.
  intro Hi. unfold set_byte. rewrite length_app, length_firstn.
  cbn [List.length]. rewrite length_skipn. lia.
Qed.

Lemma set_byte_bytes (i : nat) (b : Z) (l : list Z) :
  is_byte b -> Forall is_byte l -> Forall is_byte (set_byte i b l).
Proof.
  intros Hb Hl. rewrite Forall_forall in Hl. unfold set_byte.
  apply Forall_app. split.
  - apply Forall_forall. intros x Hx. apply Hl.
    rewrite <- (firstn_skipn i l). apply in_or_app. left. exact Hx.
  - constructor; [exact Hb|]. apply Forall_forall. intros x Hx. apply Hl.
    rewrite <- (firstn_skipn (S i) l). apply in_or_app. right. exact Hx.
Qed.

Lemma skipn_set_byte (n i : nat) (b : Z) (l : list Z) :
  (i < n)%nat -> (i < List.length l)%nat ->
  skipn n (set_byte i b l) = skipn n l.
Proof.
  intros Hn Hi. unfold set_byte. rewrite skipn_app.
  rewrite skipn_all2 by (rewrite length_firstn; lia).
  rewrite length_firstn, Nat.min_l by lia. cbn [List.app].
  replace (n - i)%nat with (S (n - S i)) by lia.
  rewrite skipn_cons, skipn_skipn. f_equal. lia.
Qed.

Lemma firstn_set_byte (n i : nat) (b : Z) (l : list Z) :
  (i < n)%nat -> (n <= List.length l)%nat ->
  firstn n (set_byte i b l) = set_byte i b (firstn n l).
Proof.
  intros Hn Hl. unfold set_byte. rewrite firstn_app.
  rewrite length_firstn, Nat.min_l by lia.
  rewrite (firstn_all2 (n:=n) (firstn i l)) by (rewrite length_firstn; lia).
  rewrite firstn_firstn, Nat.min_l by lia.
  replace (n - i)%nat with (S (n - S i)) by lia.
  rewrite firstn_cons.
  rewrite (skipn_firstn_comm (S i) n l). reflexivity.
Qed.

Lemma nth_firstn_lt (n i : nat) (l : list Z) :
  (i < n)%nat -> nth i (firstn n l) 0 = nth i l 0.
Proof.
  revert n l. induction i as [|i IH]; intros n l Hn.
  - destruct n; [lia|]. destruct l; reflexivity.
  - destruct n; [lia|]. destruct l; [reflexivity|]. cbn. apply IH. lia.
Qed.

(** The CRC of a prefix changes with any one of its bytes. *)
Lemma crc32_prefix_single_byte (data : list Z) (len i : nat) (b : Z) :
  (i < len)%nat -> (len <= List.length data)%nat ->
  is_byte (nth i data 0) -> is_byte b -> b <> nth i data 0 ->
  crc32_compute (set_byte i b data) len <> crc32_compute data len.
Proof.
  intros Hi Hlen Hold Hb Hne. rewrite !crc32_compute_fold.
  rewrite firstn_set_byte by assumption.
  set (p := firstn len data).
  assert (Hp : (i < List.length p)%nat) by (unfold p; rewrite length_firstn; lia).
  assert (Hnth : nth i p 0 = nth i data 0) by (apply nth_firstn_lt; exact Hi).
  intro E. apply not32_injective in E;
    try (apply crc32_fold_range; vm_compute; split; congruence).
  assert (Hd : p = firstn i p ++ nth i p 0 :: skipn (S i) p).
  { rewrite <- (firstn_skipn i p) at 1. f_equal. apply skipn_cons_nth. exact Hp. }
  rewrite Hd in E at 2. unfold set_byte in E. rewrite Hnth in E.
  revert E. apply crc32_fold_single_byte; try assumption.
  vm_compute. split; congruence.
Qed.

(** X23. A page of bytes that holds a valid record stops being valid
    when any one of the 28 bytes before the crc32 field is replaced by a
    different byte: [journal_validate] detects every single-byte damage
    of the fields the CRC covers. *)
Theorem journal_validate_detects_byte_damage (bs : list Z) (i : nat) (b : Z) :
  List.length bs = PAGE_SIZE -> Forall is_byte bs ->
  journal_validate (record_of_bytes bs) = true ->
  (i < CRC_OFFSET)%nat -> is_byte b -> b <> nth i bs 0 ->
  journal_validate (record_of_bytes (set_byte i b bs)) = false.
Proof.
  intros Hlen Hbytes Hvalid Hi Hb Hne.
  assert (Hi' : (i < List.length bs)%nat)
    by (rewrite Hlen; unfold CRC_OFFSET, PAGE_SIZE in *; lia).
  set (bs' := set_byte i b bs).
  assert (Hlen' : List.length bs' = PAGE_SIZE)
    by (unfold bs'; rewrite set_byte_length; assumption).
  assert (Hbytes' : Forall is_byte bs') by (apply set_byte_bytes; assumption).
  assert (Hcrc_old : crc32 (record_of_bytes bs) = crc32_compute bs CRC_OFFSET).
  { unfold journal_validate in Hvalid.
    destruct (negb (trailer (record_of_bytes bs) =? JOURNAL_MAGIC)); [discriminate|].
    destruct (Z.eqb_spec (crc32 (record_of_bytes bs))
                (record_calculate_crc (record_of_bytes bs))) as [E|]; [|discriminate].
    rewrite E. unfold record_calculate_crc.
    rewrite record_bytes_record_of_bytes by assumption. reflexivity. }
  assert (Hcrc_same : crc32 (record_of_bytes bs') = crc32 (record_of_bytes bs)).
  { unfold record_of_bytes. cbn [crc32]. unfold slice, bs'.
    rewrite skipn_set_byte; [reflexivity | unfold CRC_OFFSET in Hi; lia | exact Hi']. }
  assert (Hdiff : crc32_compute bs' CRC_OFFSET <> crc32_compute bs CRC_OFFSET).
  { apply crc32_prefix_single_byte; try assumption.
    - rewrite Hlen. unfold CRC_OFFSET, PAGE_SIZE. lia.
    - rewrite Forall_forall in Hbytes. apply Hbytes. apply nth_In. exact Hi'. }
  unfold journal_validate.
  destruct (negb (trailer (record_of_bytes bs') =? JOURNAL_MAGIC)); [reflexivity|].
  unfold record_calculate_crc.
  rewrite record_bytes_record_of_bytes by assumption.
  rewrite Hcrc_same, Hcrc_old.
  destruct (Z.eqb_spec (crc32_compute bs CRC_OFFSET) (crc32_compute bs' CRC_OFFSET));
    [congruence | reflexivity].
Qed.

Lemma read_page_fails (z : Z) (offset : nat) (w : World) :
  transfers (nth_io 0 w) = false ->
  fst (read_page z offset w) = (JOURNAL_ERR_IO, None).
Proof.
  intro Hio. unfold read_page, bind. rewrite next_io_eq. unfold get_file, ret.
  unfold transfers in Hio.
  destruct ((z <? 0) || negb (seek_ok (nth_io 0 w))) eqn:Eg; [reflexivity|].
  apply orb_false_iff in Eg as [_ Hs]. apply negb_false_iff in Hs.
  rewrite Hs in Hio. cbn [andb] in Hio.
  destruct (xfer (nth_io 0 w)) as [n|]; [|reflexivity].
  apply Nat.leb_gt in Hio.
  destruct (Nat.eqb_spec
              (List.length (firstn (Nat.min n PAGE_SIZE)
                              (skipn offset (file (advance w))))) PAGE_SIZE)
    as [E|E]; [|reflexivity].
  rewrite length_firstn in E. lia.
Qed.

(** X24. When both [read_page] calls of [journal_recover] fail to
    deliver a whole page, the two pages count as invalid whatever the
    file holds: even on a file with a valid record in both pages,
    [journal_recover] returns [JOURNAL_OK] with the default record (boot
    count 0, tier 1, no flag) and, when its writes succeed, overwrites
    both pages with it. *)
Theorem journal_recover_read_failure_resets
  (rec r : BootRecord) (w : World) (io1 io2 : PageIO) :
  journal_open w -> io_script w = [io1; io2] ->
  transfers io1 = false -> transfers io2 = false ->
  committed (file w) r ->
  exists (w1 : World) (d : BootRecord),
    journal_recover rec w = ((JOURNAL_OK, d), w1)
    /\ d = fst (journal_create_default w)
    /\ boot_count d = 0 /\ tier d = 1 /\ flags d = 0
    /\ committed (file w1) d
    /\ write_log w1 =
       write_log w ++ [mkWriteCall PAGE_A_OFFSET JOURNAL_OK;
                       mkWriteCall PAGE_B_OFFSET JOURNAL_OK].
Proof.
  intros Ho Hs H1 H2 Hc. destruct Ho as [Hi Hf].
  rewrite (journal_recover_eq rec w Hi Hf). cbv zeta.
  assert (E0 : nth_io 0 w = io1) by (unfold nth_io; rewrite Hs; reflexivity).
  assert (E1 : nth_io 0 (advance w) = io2)
    by (rewrite nth_io_advance; unfold nth_io; rewrite Hs; reflexivity).
  rewrite (read_page_fails _ PAGE_A_OFFSET w) by (rewrite E0; exact H1).
  rewrite (read_page_fails _ PAGE_B_OFFSET (advance w)) by (rewrite E1; exact H2).
  cbn [valid_page].
  set (d := fst (journal_create_default w)).
  set (w2 := advance (advance w)).
  assert (Hq : io_script w2 = [])
    by (unfold w2, advance; cbn [io_script]; rewrite Hs; reflexivity).
  rewrite (after_write_quiet w2 PAGE_A_OFFSET d Hq).
  rewrite (after_write_quiet (page_written w2 PAGE_A_OFFSET d)) by reflexivity.
  destruct (default_record_valid w) as [Vd Wd]. fold d in Vd, Wd.
  exists (page_written (page_written w2 PAGE_A_OFFSET d) PAGE_B_OFFSET d), d.
  split; [reflexivity|]. split; [reflexivity|].
  split; [reflexivity|]. split; [reflexivity|]. split; [reflexivity|].
  split; [apply committed_after_two_writes; assumption|].
  unfold page_written. cbn [write_log]. rewrite <- app_assoc. reflexivity.
Qed.

(** * Further properties of the health oracle *)

Local Open Scope string_scope.
Local Open Scope Z_scope.

(** *** ECC *)

Lemma counted_nonneg (readings : list Z) : 0 <= counted readings.
Proof.
  induction readings as [|c rest IH]; cbn [counted]; [lia|].
  destruct (Z.geb_spec c 0); lia.
Qed.

Lemma ecc_step_eq (host : Host) (ce_total ue_total : Z) (d_name : string) :
  ecc_step host (ce_total, ue_total) d_name =
  if prefix "mc" d_name then
    (if ce_count host d_name >=? 0
     then u32 (ce_total + ce_count host d_name) else ce_total,
     if ue_count host d_name >=? 0
     then u32 (ue_total + ue_count host d_name) else ue_total)
  else (ce_total, ue_total).
Proof.
  unfold ecc_step, ce_count, ue_count.
  destruct (prefix "mc" d_name); reflexivity.
Qed.

Lemma u32_add_counted (total c rest : Z) :
  0 <= total < 2 ^ 32 ->
  0 <= (if c >=? 0 then u32 (total + c) else total) < 2 ^ 32
  /\ u32 ((if c >=? 0 then u32 (total + c) else total) + rest)
     = u32 (total + ((if c >=? 0 then c else 0) + rest)).
Proof.
  intro Ht. unfold u32. destruct (c >=? 0).
  - split; [apply Z.mod_pos_bound; lia|].
    rewrite Zplus_mod_idemp_l. f_equal. lia.
  - split; [exact Ht | f_equal; lia].
Qed.

(** The loop over the entries adds up, modulo 2^32, the counts of the
    memory controllers. *)
Lemma ecc_fold_sums (host : Host) (entries : list string) (ce_total ue_total : Z) :
  0 <= ce_total < 2 ^ 32 -> 0 <= ue_total < 2 ^ 32 ->
  fold_left (ecc_step host) entries (ce_total, ue_total) =
  (u32 (ce_total + counted (map (ce_count host) (memory_controllers entries))),
   u32 (ue_total + counted (map (ue_count host) (memory_controllers entries)))).
Proof.
  revert ce_total ue_total.
  induction entries as [|d entries IH]; intros ce_total ue_total Hc Hu.
  - cbn. unfold u32. rewrite !Z.add_0_r, !Z.mod_small by lia. reflexivity.
  - cbn [fold_left]. rewrite ecc_step_eq.
    unfold memory_controllers. cbn [filter]. fold (memory_controllers entries).
    destruct (prefix "mc" d).
    + cbn [map counted].
      destruct (u32_add_counted ce_total (ce_count host d)
                  (counted (map (ce_count host) (memory_controllers entries))) Hc)
        as [Hc1 Hc2].
      destruct (u32_add_counted ue_total (ue_count host d)
                  (counted (map (ue_count host) (memory_controllers entries))) Hu)
        as [Hu1 Hu2].
      rewrite IH by assumption. rewrite Hc2, Hu2. reflexivity.
    + apply IH; assumption.
Qed.

(** X14. Without /sys/devices/system/edac the ECC probe passes with value
    0, whatever the threshold. With it, and with [entries] in
    /sys/devices/system/edac/mc, the probe adds up what it reads from the
    files ce_count and ue_count of the entries whose name starts with mc,
    a negative reading such as the -1 of a missing file left out, each
    total modulo 2^32; this for readings that are not within 2^32 of
    [LONG_MAX], so that no addition overflows. The value is the
    correctable total, and the probe passes exactly when the
    uncorrectable total is 0 and the correctable total is below the
    threshold, which a threshold of 0 never allows. When the mc
    directory cannot be opened both totals are 0. *)
Theorem health_check_ecc_outcome (threshold : Z) (host : Host) :
  (file_exists host "/sys/devices/system/edac" = false ->
   health_check_ecc threshold host =
   {| ok := true; message := "EDAC not available, assuming OK"; value := 0 |})
  /\ (forall entries : list string,
        file_exists host "/sys/devices/system/edac" = true ->
        host_opendir host "/sys/devices/system/edac/mc" = Some entries ->
        Forall (fun d_name =>
                  ce_count host d_name <= LONG_MAX - 2 ^ 32
                  /\ ue_count host d_name <= LONG_MAX - 2 ^ 32)
          (memory_controllers entries) ->
        let ce_total :=
          u32 (counted (map (ce_count host) (memory_controllers entries))) in
        let ue_total :=
          u32 (counted (map (ue_count host) (memory_controllers entries))) in
        value (health_check_ecc threshold host) = ce_total
        /\ ok (health_check_ecc threshold host)
           = (ue_total =? 0) && (ce_total <? threshold)
        /\ (threshold <= 0 -> ok (health_check_ecc threshold host) = false))
  /\ (file_exists host "/sys/devices/system/edac" = true ->
      host_opendir host "/sys/devices/system/edac/mc" = None ->
      value (health_check_ecc threshold host) = 0
      /\ ok (health_check_ecc threshold host) = (0 <? threshold)).
Proof.
  split; [|split].
  - intro He. unfold health_check_ecc. rewrite He. reflexivity.
  - intros entries He Hd _ ce_total ue_total.
    unfold health_check_ecc, opendir. rewrite He, Hd. cbn [negb].
    rewrite ecc_fold_sums by lia. rewrite !Z.add_0_l.
    fold ce_total ue_total.
    assert (Hc : 0 <= ce_total < 2 ^ 32) by (apply Z.mod_pos_bound; lia).
    assert (Hu : 0 <= ue_total < 2 ^ 32) by (apply Z.mod_pos_bound; lia).
    destruct (Z.gtb_spec ue_total 0) as [Hpos | Hzero].
    + cbn [ok value]. destruct (Z.eqb_spec ue_total 0); [lia|].
      cbn [andb]. auto.
    + destruct (Z.eqb_spec ue_total 0); [|lia]. cbn [andb].
      destruct (Z.ltb_spec ce_total threshold); cbn [ok value];
        (split; [reflexivity|]); (split; [reflexivity|]);
        intro; [lia | reflexivity].
  - intros He Hd. unfold health_check_ecc, opendir. rewrite He, Hd.
    cbn [negb]. change (0 >? 0) with false. cbv iota.
    destruct (0 <? threshold); cbn [ok value]; split; reflexivity.
Qed.

(** *** Storage *)

(** X15. When [statvfs] reports no blocks at all the storage probe
    divides by zero. When it reports [f_bavail <= f_blocks] with
    [f_bavail * 100] below 2^64, the value is the free percentage rounded
    down, at most 100, and the probe passes exactly when that is at least
    [min_free_pct]. *)
Theorem health_check_storage_percent
  (min_free_pct : Z) (host : Host) (f_blocks f_bavail : Z) :
  host_statvfs host = inr (f_blocks, f_bavail) ->
  (f_blocks mod 2 ^ 64 = 0 -> health_check_storage min_free_pct host = None)
  /\ (0 < f_blocks < 2 ^ 64 -> 0 <= f_bavail <= f_blocks ->
      f_bavail * 100 < 2 ^ 64 ->
      exists r : HealthCheckResult,
        health_check_storage min_free_pct host = Some r
        /\ value r = f_bavail * 100 / f_blocks
        /\ 0 <= value r <= 100
        /\ ok r = (min_free_pct <=? value r)).
Proof.
  intro Hs. unfold health_check_storage. rewrite Hs. split.
  - intro Hz. unfold u64. rewrite Hz. reflexivity.
  - intros Hb Ha Hmul. unfold u64.
    rewrite (Z.mod_small f_blocks) by lia.
    rewrite (Z.mod_small f_bavail) by lia.
    rewrite (Z.mod_small (f_bavail * 100)) by lia.
    destruct (Z.eqb_spec f_blocks 0); [lia|].
    assert (Hq : 0 <= f_bavail * 100 / f_blocks <= 100).
    { split; [apply Z.div_pos; lia|].
      apply Z.div_le_upper_bound; lia. }
    unfold u8. rewrite (Z.mod_small (f_bavail * 100 / f_blocks)) by lia.
    set (pct := f_bavail * 100 / f_blocks) in *.
    rewrite Z.geb_leb.
    destruct (min_free_pct <=? pct) eqn:E; eexists; (split; [reflexivity|]);
      cbn [value ok]; (split; [reflexivity|]);
      (split; [exact Hq | symmetry; exact E]).
Qed.

(** *** Network *)

Lemma ping_command_fits (timeout_sec : Z) :
  0 <= timeout_sec < 256 ->
  snprintf 256 (ping_command timeout_sec "8.8.8.8")
    = ping_command timeout_sec "8.8.8.8"
  /\ snprintf 256 (ping_command timeout_sec "1.1.1.1")
     = ping_command timeout_sec "1.1.1.1".
Proof.
  intro Ht.
  assert (Hall : forallb
            (fun n : nat =>
               String.eqb (snprintf 256 (ping_command (Z.of_nat n) "8.8.8.8"))
                 (ping_command (Z.of_nat n) "8.8.8.8")
               && String.eqb (snprintf 256 (ping_command (Z.of_nat n) "1.1.1.1"))
                    (ping_command (Z.of_nat n) "1.1.1.1"))
            (seq 0 256) = true) by (vm_compute; reflexivity).
  rewrite forallb_forall in Hall.
  specialize (Hall (Z.to_nat timeout_sec)).
  rewrite Z2Nat.id in Hall by lia.
  assert (Hin : In (Z.to_nat timeout_sec) (seq 0 256)) by (apply in_seq; lia).
  apply Hall in Hin. apply andb_prop in Hin as [H1 H2].
  apply String.eqb_eq in H1, H2. auto.
Qed.

(** X16. For a timeout that fits [uint8_t] the network probe runs
    [ping -c 1 -W <timeout> 8.8.8.8 >/dev/null 2>&1], nothing cut off by
    the 256-byte buffer, and the same for 1.1.1.1 only when the first
    did not return 0; it passes when either returns 0, naming in its
    message the first target that answered. *)
Theorem health_check_network_reachable (timeout_sec : Z) (host : Host) :
  0 <= timeout_sec < 256 ->
  health_check_network timeout_sec host =
  if host_system host (ping_command timeout_sec "8.8.8.8") =? 0 then
    {| ok := true; message := "Network reachable (tested: 8.8.8.8)"; value := 0 |}
  else if host_system host (ping_command timeout_sec "1.1.1.1") =? 0 then
    {| ok := true; message := "Network reachable (tested: 1.1.1.1)"; value := 0 |}
  else {| ok := false; message := "Network unreachable"; value := 0 |}.
Proof.
  intro Ht. destruct (ping_command_fits timeout_sec Ht) as [H1 H2].
  unfold health_check_network, ping_targets. cbn [ping_loop].
  change ("ping -c 1 -W " ++ dec timeout_sec ++ " " ++ "8.8.8.8" ++ " >/dev/null 2>&1")
    with (ping_command timeout_sec "8.8.8.8").
  change ("ping -c 1 -W " ++ dec timeout_sec ++ " " ++ "1.1.1.1" ++ " >/dev/null 2>&1")
    with (ping_command timeout_sec "1.1.1.1").
  rewrite H1, H2.
  destruct (host_system host (ping_command timeout_sec "8.8.8.8") =? 0);
    [reflexivity|].
  destruct (host_system host (ping_command timeout_sec "1.1.1.1") =? 0);
    reflexivity.
Qed.

(** *** Memory *)

Lemma take_line_spec (n : nat) (s : string) :
  fst (take_line n s) ++ snd (take_line n s) = s
  /\ (length (fst (take_line n s)) <= n)%nat
  /\ (n <> 0%nat -> s <> EmptyString -> fst (take_line n s) <> EmptyString).
Proof.
  revert s. induction n as [|n IH]; intro s.
  - cbn. repeat split; [lia | congruence].
  - destruct s as [|c s1]; [cbn; repeat split; [lia | congruence]|].
    cbn [take_line]. destruct (Ascii.eqb c newline).
    + cbn. repeat split; [lia | discriminate].
    + destruct (IH s1) as (Hcat & Hlen & _).
      destruct (take_line n s1) as [l r]. cbn [fst snd] in *.
      cbn [append length]. rewrite Hcat. repeat split; [lia | discriminate].
Qed.

Lemma length_append (s1 s2 : string) :
  length (s1 ++ s2) = (length s1 + length s2)%nat.
Proof. induction s1 as [|c s1 IH]; cbn; [reflexivity | now rewrite IH]. Qed.

Lemma fgets_loop_all (size : nat) (fuel : nat) (content : string) :
  (2 <= size)%nat -> (length content <= fuel)%nat ->
  string_concat (fgets_loop fuel size content) = content
  /\ Forall (fun line => (1 <= length line <= size - 1)%nat)
       (fgets_loop fuel size content).
Proof.
  intro Hsize. revert content.
  induction fuel as [|fuel IH]; intros content Hfuel.
  - destruct content; [cbn; auto | cbn in Hfuel; lia].
  - cbn [fgets_loop]. unfold fgets.
    destruct content as [|c s1]; [cbn; auto|].
    set (content := String c s1) in *.
    destruct (take_line_spec (size - 1) content) as (Hcat & Hlen & Hne).
    destruct (take_line (size - 1) content) as [line rest]. cbn [fst snd] in *.
    assert (Hline : (1 <= length line)%nat).
    { destruct line; [exfalso; apply Hne; [lia | discriminate | reflexivity]|].
      cbn. lia. }
    assert (Hrest : (length rest <= fuel)%nat).
    { apply (f_equal length) in Hcat. rewrite length_append in Hcat.
      unfold content in Hcat, Hfuel. cbn [length] in *. lia. }
    destruct (IH rest Hrest) as [Hc Hf].
    cbn [string_concat]. rewrite Hc. split; [exact Hcat|].
    constructor; [lia | exact Hf].
Qed.

Lemma ends_line_nonempty (line : string) :
  ends_line line = true -> (1 <= length line)%nat.
Proof. destruct line; [discriminate | cbn; lia]. Qed.

(** One [fgets] takes a line of text whole when the buffer has room. *)
Lemma take_line_text (n : nat) (line rest : string) :
  ends_line line = true -> (length line <= n)%nat ->
  take_line n (line ++ rest) = (line, rest).
Proof.
  revert n. induction line as [|c s1 IH]; intros n He Hn; [discriminate|].
  destruct n as [|k]; [cbn in Hn; lia|].
  cbn [append take_line]. cbn [ends_line] in He.
  destruct s1 as [|c1 s2].
  - rewrite He. reflexivity.
  - apply andb_prop in He as [Hc He].
    apply negb_true_iff in Hc. rewrite Hc.
    change (String c1 (s2 ++ rest)) with (String c1 s2 ++ rest).
    rewrite (IH k He) by (cbn [length] in *; lia). reflexivity.
Qed.

(** On a file made of lines of text that fit the buffer, the loop of
    [fgets] calls sees these lines one by one. *)
Lemma fgets_loop_lines (lines : list string) (fuel : nat) :
  Forall text_line lines ->
  (length (string_concat lines) <= fuel)%nat ->
  fgets_loop fuel 256 (string_concat lines) = lines.
Proof.
  revert fuel. induction lines as [|line lines IH]; intros fuel Hall Hfuel.
  - destruct fuel; reflexivity.
  - inversion Hall as [|x l [He Hlen] Hrest]; subst.
    pose proof (ends_line_nonempty line He) as Hne.
    cbn [string_concat] in *. rewrite length_append in Hfuel.
    destruct fuel as [|fuel]; [lia|].
    cbn [fgets_loop]. unfold fgets.
    destruct (line ++ string_concat lines) as [|c s] eqn:Hcat.
    { apply (f_equal length) in Hcat. rewrite length_append in Hcat.
      cbn in Hcat. lia. }
    rewrite <- Hcat. change (256 - 1)%nat with 255%nat.
    rewrite (take_line_text 255 line (string_concat lines) He Hlen).
    rewrite IH by (assumption || lia). reflexivity.
Qed.

Lemma prefix_cons (a : ascii) (s line : string) :
  prefix (String a s) line = true ->
  exists rest, line = String a rest /\ prefix s rest = true.
Proof.
  destruct line as [|b rest]; [discriminate|]. cbn [prefix].
  destruct (ascii_dec a b) as [-> | _]; [|discriminate].
  intro H. exists rest. auto.
Qed.

(** No line starts with two of the three keys. *)
Lemma meminfo_keys_apart (line : string) :
  (prefix "MemAvailable:" line = true -> prefix "MemFree:" line = false)
  /\ (prefix "MemAvailable:" line = true -> prefix "MemTotal:" line = false)
  /\ (prefix "MemFree:" line = true -> prefix "MemAvailable:" line = false)
  /\ (prefix "MemFree:" line = true -> prefix "MemTotal:" line = false)
  /\ (prefix "MemTotal:" line = true -> prefix "MemAvailable:" line = false)
  /\ (prefix "MemTotal:" line = true -> prefix "MemFree:" line = false).
Proof.
  repeat split; intro H;
    do 4 (apply prefix_cons in H as (? & -> & H)); reflexivity.
Qed.


(** A line that does not start with a key leaves the number of that key
    as it was. *)
Lemma meminfo_step_keep (acc : Z * Z * Z) (line : string) :
  (prefix "MemAvailable:" line = false ->
   fst (fst (meminfo_step acc line)) = fst (fst acc))
  /\ (prefix "MemFree:" line = false ->
      snd (fst (meminfo_step acc line)) = snd (fst acc))
  /\ (prefix "MemTotal:" line = false ->
      snd (meminfo_step acc line) = snd acc).
Proof.
  destruct acc as [[a f] t]. unfold meminfo_step.
  destruct (prefix "MemAvailable:" line);
    [|destruct (prefix "MemFree:" line);
      [|destruct (prefix "MemTotal:" line)]];
    repeat split; intros; (discriminate || reflexivity).
Qed.

(** A line that starts with a key and has a number after it sets the
    number of that key. *)
Lemma meminfo_step_set (acc : Z * Z * Z) (line : string) (v : Z) :
  (prefix "MemAvailable:" line = true ->
   scan_long (substring (length "MemAvailable:") (length line) line) = Some v ->
   fst (fst (meminfo_step acc line)) = v)
  /\ (prefix "MemFree:" line = true ->
      scan_long (substring (length "MemFree:") (length line) line) = Some v ->
      snd (fst (meminfo_step acc line)) = v)
  /\ (prefix "MemTotal:" line = true ->
      scan_long (substring (length "MemTotal:") (length line) line) = Some v ->
      snd (meminfo_step acc line) = v).
Proof.
  destruct acc as [[a f] t].
  destruct (meminfo_keys_apart line) as (Haf & Hat & Hfa & Hft & Hta & Htf).
  unfold meminfo_step, sscanf_ld.
  change (length "MemAvailable:") with 13%nat.
  change (length "MemFree:") with 8%nat.
  change (length "MemTotal:") with 9%nat.
  repeat split; intros Hp Hs.
  - rewrite Hp, Hs. reflexivity.
  - rewrite (Hfa Hp), Hp, Hs. reflexivity.
  - rewrite (Hta Hp), (Htf Hp), Hp, Hs. reflexivity.
Qed.

Lemma meminfo_fold_keep (lines : list string) (acc : Z * Z * Z) :
  (no_line "MemAvailable:" lines ->
   fst (fst (fold_left meminfo_step lines acc)) = fst (fst acc))
  /\ (no_line "MemFree:" lines ->
      snd (fst (fold_left meminfo_step lines acc)) = snd (fst acc))
  /\ (no_line "MemTotal:" lines ->
      snd (fold_left meminfo_step lines acc) = snd acc).
Proof.
  revert acc. induction lines as [|line lines IH]; intro acc;
    [repeat split|].
  cbn [fold_left].
  destruct (IH (meminfo_step acc line)) as (Ha & Hf & Ht).
  destruct (meminfo_step_keep acc line) as (Ka & Kf & Kt).
  unfold no_line.
  repeat split; intro H; inversion H; subst.
  - rewrite Ha by assumption. auto.
  - rewrite Hf by assumption. auto.
  - rewrite Ht by assumption. auto.
Qed.

(** After the loop each number is the one of the last line with its
    key. *)
Lemma meminfo_fold_last (lines : list string) (acc : Z * Z * Z) (v : Z) :
  (last_line "MemAvailable:" v lines ->
   fst (fst (fold_left meminfo_step lines acc)) = v)
  /\ (last_line "MemFree:" v lines ->
      snd (fst (fold_left meminfo_step lines acc)) = v)
  /\ (last_line "MemTotal:" v lines ->
      snd (fold_left meminfo_step lines acc) = v).
Proof.
  repeat split; intros (before & line & after & -> & Hp & Hs & Hno);
    rewrite fold_left_app; cbn [fold_left];
    destruct (meminfo_fold_keep after
                (meminfo_step (fold_left meminfo_step before acc) line))
      as (Ka & Kf & Kt);
    destruct (meminfo_step_set (fold_left meminfo_step before acc) line v)
      as (Sa & Sf & St).
  - rewrite Ka by assumption. auto.
  - rewrite Kf by assumption. auto.
  - rewrite Kt by assumption. auto.
Qed.

(** X17. The memory probe fails when /proc/meminfo cannot be opened. On a
    file made of lines of text of at most 255 characters it fails when
    no line starts with MemTotal:, or none with MemAvailable: and none
    with MemFree:. When the last MemTotal: line gives [mem_total] and the
    last MemAvailable: line, or without such a line the last MemFree:
    line, gives [mem_avail], both not negative, the probe has no result
    if [mem_total] is 0 (a division by zero) or [mem_avail * 100]
    overflows [long]; otherwise it passes exactly when [mem_avail] is at
    least [min_free_kb], its value is [mem_avail] modulo 2^32 and its
    message gives [mem_avail] and the percentage
    [mem_avail * 100 / mem_total] modulo 256. On any file the loop of
    [fgets] calls sees the whole content. *)
Theorem health_check_memory_outcome (min_free_kb : Z) (host : Host) :
  (host_fopen host "/proc/meminfo" = None ->
   health_check_memory min_free_kb host =
   Some {| ok := false; message := "Failed to read /proc/meminfo"; value := 0 |})
  /\ (forall lines : list string,
        host_fopen host "/proc/meminfo" = Some (string_concat lines) ->
        Forall text_line lines ->
        (no_line "MemTotal:" lines
         \/ (no_line "MemAvailable:" lines /\ no_line "MemFree:" lines) ->
         health_check_memory min_free_kb host =
         Some {| ok := false; message := "Failed to parse memory info";
                 value := 0 |})
        /\ (forall mem_total mem_avail : Z,
              last_line "MemTotal:" mem_total lines ->
              last_line "MemAvailable:" mem_avail lines
              \/ (no_line "MemAvailable:" lines
                  /\ last_line "MemFree:" mem_avail lines) ->
              0 <= mem_total -> 0 <= mem_avail ->
              (mem_total = 0 \/ LONG_MAX < mem_avail * 100 ->
               health_check_memory min_free_kb host = None)
              /\ (0 < mem_total -> mem_avail * 100 <= LONG_MAX ->
                  exists r : HealthCheckResult,
                    health_check_memory min_free_kb host = Some r
                    /\ ok r = (min_free_kb <=? mem_avail)
                    /\ value r = mem_avail mod 2 ^ 32
                    /\ message r =
                       snprintf 256
                         ((if ok r then "Memory healthy: " else "Low memory: ")
                          ++ dec mem_avail ++ "KB available ("
                          ++ dec ((mem_avail * 100 / mem_total) mod 256)
                          ++ "%)"))))
  /\ (forall content : string,
        string_concat (fgets_loop (length content) 256 content) = content).
Proof.
  split.
  { intro H. unfold health_check_memory. rewrite H. reflexivity. }
  split; [|intro content; apply (fgets_loop_all 256); lia].
  intros lines Hopen Htext.
  unfold health_check_memory. rewrite Hopen.
  rewrite fgets_loop_lines by (assumption || lia).
  destruct (meminfo_fold_keep lines (-1, -1, -1)) as (Ka & Kf & Kt).
  cbn [fst snd] in Ka, Kf, Kt.
  split.
  - intros [Hno | [Hnoa Hnof]].
    + specialize (Kt Hno).
      destruct (fold_left meminfo_step lines (-1, -1, -1)) as [[a f] t].
      cbn [snd] in Kt. subst t. change (-1 <? 0) with true.
      rewrite orb_true_r. reflexivity.
    + specialize (Ka Hnoa). specialize (Kf Hnof).
      destruct (fold_left meminfo_step lines (-1, -1, -1)) as [[a f] t].
      cbn [fst snd] in Ka, Kf. subst a f. reflexivity.
  - intros mem_total mem_avail Htotal Havail Ht0 Ha0.
    destruct (meminfo_fold_last lines (-1, -1, -1) mem_total) as (_ & _ & Lt).
    destruct (meminfo_fold_last lines (-1, -1, -1) mem_avail) as (La & Lf & _).
    specialize (Lt Htotal).
    assert (Hav : let '(a, f, _) := fold_left meminfo_step lines (-1, -1, -1) in
                  (if a >=? 0 then a else f) = mem_avail).
    { destruct Havail as [Hl | [Hno Hl]].
      - specialize (La Hl).
        destruct (fold_left meminfo_step lines (-1, -1, -1)) as [[a f] t].
        cbn [fst] in La. subst a.
        destruct (Z.geb_spec mem_avail 0); [reflexivity | lia].
      - specialize (Ka Hno). specialize (Lf Hl).
        destruct (fold_left meminfo_step lines (-1, -1, -1)) as [[a f] t].
        cbn [fst snd] in Ka, Lf. subst a f. reflexivity. }
    destruct (fold_left meminfo_step lines (-1, -1, -1)) as [[a f] t].
    cbn [snd] in Lt. subst t. rewrite Hav.
    destruct (Z.ltb_spec mem_avail 0); [lia|].
    destruct (Z.ltb_spec mem_total 0); [lia|]. cbn [orb].
    split.
    + intros [Hz | Hover].
      * subst mem_total. destruct (_ >? LONG_MAX); reflexivity.
      * destruct (Z.gtb_spec (mem_avail * 100) LONG_MAX); [reflexivity | lia].
    + intros Hpos Hfit.
      destruct (Z.gtb_spec (mem_avail * 100) LONG_MAX); [lia|].
      destruct (Z.eqb_spec mem_total 0); [lia|].
      rewrite Z.quot_div_nonneg by lia.
      rewrite Z.geb_leb. unfold u8, u32. change (2 ^ 8) with 256.
      destruct (min_free_kb <=? mem_avail) eqn:E; eexists;
        (split; [reflexivity|]); cbn [ok value message];
        repeat split; reflexivity.
Qed.

(** *** Temperature *)


(** *** Verdict *)

Lemma health_verdict_cases (score : Z) :
  (health_verdict score = HEALTH_OK <-> 5 <= score)
  /\ (health_verdict score = HEALTH_DEGRADED <-> 3 <= score <= 4)
  /\ (health_verdict score = HEALTH_CRITICAL <-> score <= 2).
Proof.
  unfold health_verdict, HEALTH_OK, HEALTH_DEGRADED, HEALTH_CRITICAL.
  destruct (Z.geb_spec score 5); [|destruct (Z.geb_spec score 3)];
    repeat split; intros; try lia; try discriminate.
Qed.

(** X19. A run of [health_check_run] that returns a report returns
    [HEALTH_OK] exactly when at least five probes passed,
    [HEALTH_DEGRADED] when three or four did and [HEALTH_CRITICAL] when
    at most two did; the report carries the time of the run and does not
    depend on what the caller's report held before; without a report the
    call returns [HEALTH_ERROR]. *)
Theorem health_check_run_verdict
  (config : option HealthConfig) (report0 : HealthReport) (host : Host)
  (verdict : Z) (report : HealthReport) :
  health_check_run config (Some report0) host = Some (verdict, Some report) ->
  (verdict = HEALTH_OK <-> 5 <= probes_ok report)
  /\ (verdict = HEALTH_DEGRADED <-> 3 <= probes_ok report <= 4)
  /\ (verdict = HEALTH_CRITICAL <-> probes_ok report <= 2)
  /\ report_timestamp report = host_time host
  /\ health_check_run config (Some health_report_clear) host
     = Some (verdict, Some report)
  /\ health_check_run config None host = Some (HEALTH_ERROR, None).
Proof.
  intro Hrun.
  assert (Hclear : health_check_run config (Some health_report_clear) host
                   = Some (verdict, Some report)) by exact Hrun.
  unfold health_check_run in Hrun.
  set (cfg := match config with Some c => c | None => HEALTH_CONFIG_DEFAULT end)
    in Hrun.
  destruct (health_check_storage _ host) as [rs|]; [|discriminate].
  destruct (health_check_memory _ host) as [rm|]; [|discriminate].
  destruct (health_check_temperature _ host) as [rt|]; [|discriminate].
  injection Hrun as Hv Hr.
  pose proof (score_is_count (health_check_watchdog host)
                (health_check_ecc (ecc_threshold cfg) host) rs
                (health_check_network (network_timeout_sec cfg) host) rm rt)
    as [Hcount _].
  cbv zeta in Hcount.
  assert (Hp : verdict = health_verdict (probes_ok report)).
  { rewrite <- Hv. subst report. unfold probes_ok.
    cbn [watchdog ecc storage network memory temperature].
    rewrite <- Hcount. reflexivity. }
  destruct (health_verdict_cases (probes_ok report)) as (H1 & H2 & H3).
  rewrite Hp.
  split; [exact H1|]. split; [exact H2|]. split; [exact H3|].
  split; [subst report; reflexivity|]. split; [rewrite <- Hp; exact Hclear|].
  reflexivity.
Qed.

(** X20. [health_score_to_status] returns one of its three strings and
    never ranks a higher score below a lower one; with a maximum of 0 or
    1 every score, 0 included, is healthy; with a maximum of at least 6
    a score below half of it is critical. *)
Theorem health_score_to_status_monotone (score1 score2 max : Z) :
  score1 <= score2 ->
  status_rank (health_score_to_status score1 max)
    <= status_rank (health_score_to_status score2 max)
  /\ In (health_score_to_status score1 max) ["healthy"; "degraded"; "critical"]
  /\ (0 <= max <= 1 -> 0 <= score1 ->
      health_score_to_status score1 max = "healthy")
  /\ (6 <= max -> score1 < max / 2 ->
      health_score_to_status score1 max = "critical").
Proof.
  intro Hle. unfold health_score_to_status.
  split; [|split; [|split]].
  - destruct (Z.geb_spec score1 (max * 5 / 6));
      destruct (Z.geb_spec score2 (max * 5 / 6));
      destruct (Z.geb_spec score1 (max / 2));
      destruct (Z.geb_spec score2 (max / 2));
      cbn; lia.
  - destruct (score1 >=? max * 5 / 6); [cbn; auto|].
    destruct (score1 >=? max / 2); cbn; auto.
  - intros Hm Hs.
    assert (Hq : max * 5 / 6 = 0).
    { assert (max = 0 \/ max = 1) as [-> | ->] by lia; reflexivity. }
    rewrite Hq. destruct (Z.geb_spec score1 0); [reflexivity | lia].
  - intros Hm Hs.
    assert (Hq : max / 2 <= max * 5 / 6).
    { apply Z.div_le_lower_bound; [lia|].
      pose proof (Z.mul_div_le max 2 ltac:(lia)).
      pose proof (Z.mod_pos_bound max 2 ltac:(lia)).
      pose proof (Z.div_mod max 2 ltac:(lia)). lia. }
    destruct (Z.geb_spec score1 (max * 5 / 6)); [lia|].
    destruct (Z.geb_spec score1 (max / 2)); [lia | reflexivity].
Qed.

(** *** journal_tool.c *)


Lemma note_temperature_range (acc : Z * bool) (temp_millic : Z) :
  0 <= fst acc < 256 -> 0 <= fst (note_temperature acc temp_millic) < 256.
Proof.
  destruct acc as [m f]. cbn [fst]. intro H. unfold note_temperature.
  destruct (temp_millic >? 0); [|exact H]. cbn [fst].
  pose proof (Z.mod_pos_bound (Z.quot temp_millic 1000) (2 ^ 8) ltac:(lia)) as Hu.
  unfold u8. change (2 ^ 8) with 256 in *.
  destruct (_ >? m); lia.
Qed.

Lemma thermal_fold_range (host : Host) (entries : list string) (acc : Z * bool) :
  0 <= fst acc < 256 ->
  0 <= fst (fold_left (thermal_step host) entries acc) < 256.
Proof.
  revert acc. induction entries as [|e es IH]; intros acc H; [exact H|].
  cbn [fold_left]. apply IH. unfold thermal_step.
  destruct (negb (prefix "thermal_zone" e)); [exact H|].
  apply note_temperature_range. exact H.
Qed.

(** X25. On a host without /sys/class/hwmon the temperature probe always
    returns: its value is below 256, it fails only with a value above
    [max_celsius], it cannot fail for a limit of 255 or more, and without
    /sys/class/thermal it passes with "Temperature monitoring not
    available". *)
Theorem health_check_temperature_without_hwmon (max_celsius : Z) (host : Host) :
  host_opendir host "/sys/class/hwmon" = None ->
  exists r : HealthCheckResult,
    health_check_temperature max_celsius host = Some r
    /\ 0 <= value r < 256
    /\ (ok r = false -> max_celsius < value r)
    /\ (255 <= max_celsius -> ok r = true)
    /\ (host_opendir host "/sys/class/thermal" = None ->
        r = {| ok := true; message := "Temperature monitoring not available";
               value := 0 |}).
Proof.
  intro Hh. unfold health_check_temperature, opendir. rewrite Hh.
  destruct (host_opendir host "/sys/class/thermal") as [entries|].
  - pose proof (thermal_fold_range host entries (0, false) ltac:(cbn; lia)) as Hr.
    destruct (fold_left (thermal_step host) entries (0, false)) as [m found].
    cbn [fst] in Hr. unfold temperature_result.
    destruct found; cbn [negb].
    + destruct (Z.leb_spec m max_celsius); eexists; (split; [reflexivity|]);
        cbn [ok value]; (split; [exact Hr|]);
        (split; [intro; try discriminate; lia|]);
        (split; [intro; try reflexivity; lia | discriminate]).
    + eexists. split; [reflexivity|]. unfold zero_result. cbn [ok value].
      split; [lia|]. split; [discriminate|]. split; [reflexivity | discriminate].
  - eexists. split; [reflexivity|]. unfold temperature_result, zero_result.
    cbn [negb ok value].
    split; [lia|]. split; [discriminate|]. split; reflexivity.
Qed.

(** * The properties at sample inputs *)

Lemma committed_record_wf (n : Z) : 0 <= n < 2 ^ 64 -> wf_record (committed_record n).
Proof.
  intro Hn. unfold committed_record. apply updated_record_wf.
  destruct sample_record_wf as (Hv & Ht & H2 & H3 & Hr & Hf & Hb & Hs & Hc & Hm).
  unfold wf_record. cbn [set_boot_count flags version tier tries_t2 tries_t3
    rollback_idx boot_count timestamp crc32 trailer].
  repeat (split; try assumption); lia.
Qed.

Lemma committed_record_valid (n : Z) : journal_validate (committed_record n) = true.
Proof. unfold committed_record. rewrite journal_validate_updated. reflexivity. Qed.

Lemma steady_world_open : journal_open steady_world.
Proof. split; [reflexivity | vm_compute; discriminate]. Qed.

Lemma steady_world_committed : committed (file steady_world) (committed_record 7).
Proof.
  unfold steady_world, sample_world. cbn [file].
  split; apply valid_disk_page_intro; try apply committed_record_valid.
  - rewrite disk_page_front by apply record_bytes_length.
    rewrite record_of_bytes_record_bytes; [reflexivity|].
    apply committed_record_wf. lia.
  - rewrite <- (app_nil_r (record_bytes (committed_record 7))) at 2.
    rewrite disk_page_back by apply record_bytes_length.
    rewrite record_of_bytes_record_bytes; [reflexivity|].
    apply committed_record_wf. lia.
Qed.

Lemma write_page_then_read_page_witness :
  fst (write_page 3 PAGE_B_OFFSET (committed_record 8) steady_world) = JOURNAL_OK
  /\ fst (read_page 3 PAGE_B_OFFSET
            (snd (write_page 3 PAGE_B_OFFSET (committed_record 8) steady_world)))
     = (JOURNAL_OK, Some (committed_record 8)).
Proof.
  apply (write_page_then_read_page 3 PAGE_B_OFFSET (committed_record 8) steady_world).
  - lia.
  - apply committed_record_wf. lia.
  - reflexivity.
  - reflexivity.
Defined.

Lemma journal_write_then_recover_witness :
  exists (w1 : World) (out : BootRecord),
    journal_write (Some (committed_record 8)) steady_world = (JOURNAL_OK, w1)
    /\ journal_recover zero_record w1 = ((JOURNAL_OK, out), w1)
    /\ boot_count out = 8.
Proof.
  destruct (journal_write_then_recover (committed_record 8) zero_record steady_world)
    as (w1 & out & Hw & Hr & _ & _ & _ & _ & _ & _ & _ & Hb & _).
  - exact steady_world_open.
  - reflexivity.
  - apply committed_record_wf. lia.
  - reflexivity.
  - vm_compute. split; discriminate.
  - exists w1, out. split; [exact Hw|]. split; [exact Hr|]. rewrite Hb. reflexivity.
Defined.

Lemma journal_recover_heals_witness :
  exists (out : BootRecord) (w1 : World),
    journal_recover zero_record
      (sample_world (corrupt_page 7) (record_bytes (committed_record 7)) [])
    = ((JOURNAL_OK, out), w1)
    /\ journal_recover zero_record w1 = ((JOURNAL_OK, out), w1).
Proof.
  destruct (journal_recover_heals zero_record zero_record
              (sample_world (corrupt_page 7) (record_bytes (committed_record 7)) []))
    as (out & w1 & _ & _ & H1 & _ & _ & _ & _ & H2).
  - split; [reflexivity | vm_compute; discriminate].
  - reflexivity.
  - exists out, w1. split; [exact H1 | exact H2].
Defined.

Lemma journal_validate_detects_damage_witness :
  journal_validate (set_crc32 (committed_record 7) 0xDEADBEEF) = false.
Proof.
  apply (journal_validate_detects_damage (committed_record 7) 0xDEADBEEF).
  - apply committed_record_valid.
  - vm_compute. discriminate.
Defined.

Lemma journal_recover_after_failed_page_b_witness :
  exists w1 : World,
    journal_write (Some (committed_record 8))
      (sample_world (record_bytes (committed_record 7))
         (record_bytes (committed_record 7)) [io_good; mkPageIO false None true])
    = (JOURNAL_ERR_IO, w1)
    /\ disk_page (file w1) PAGE_B_OFFSET = Some (committed_record 7).
Proof.
  destruct (journal_recover_after_failed_page_b (committed_record 8) zero_record
              (committed_record 7)
              (sample_world (record_bytes (committed_record 7))
                 (record_bytes (committed_record 7))
                 [io_good; mkPageIO false None true])
              (mkPageIO false None true))
    as (w1 & H1 & _ & H2 & _).
  - split; [reflexivity | vm_compute; discriminate].
  - reflexivity.
  - left. reflexivity.
  - apply committed_record_wf. lia.
  - reflexivity.
  - vm_compute. split; discriminate.
  - apply steady_world_committed.
  - exists w1. split; [exact H1 | exact H2].
Defined.

Lemma journal_init_fresh_witness :
  exists (w1 : World) (d : BootRecord),
    journal_init (Some "/var/pac/journal.dat") fresh_env blank_world
    = (JOURNAL_OK, w1)
    /\ journal_read (Some zero_record) w1 = ((JOURNAL_OK, Some d), w1)
    /\ tier d = 1 /\ boot_count d = 0.
Proof.
  destruct (journal_init_fresh "/var/pac/journal.dat" fresh_env zero_record
              blank_world)
    as (w1 & d & H1 & _ & _ & _ & _ & H2 & _ & H3 & _ & _ & _ & H4).
  - reflexivity.
  - vm_compute. discriminate.
  - left. reflexivity.
  - reflexivity.
  - exists w1, d. auto.
Defined.

Lemma journal_init_existing_witness :
  exists w1 : World,
    journal_init (Some "/var/pac/journal.dat") good_env steady_world
    = (JOURNAL_OK, w1)
    /\ file w1 = file steady_world.
Proof.
  destruct (journal_init_existing "/var/pac/journal.dat" good_env steady_world)
    as (w1 & H1 & _ & H2 & _).
  - reflexivity.
  - vm_compute. discriminate.
  - reflexivity.
  - vm_compute. repeat constructor.
  - exists w1. auto.
Defined.

Lemma journal_init_failure_witness :
  initialized
    (journal_state
       (snd (journal_init (Some "/var/pac/journal.dat") locked_env steady_world)))
  = false.
Proof.
  apply (journal_init_failure "/var/pac/journal.dat" locked_env zero_record
           steady_world
           (snd (journal_init (Some "/var/pac/journal.dat") locked_env steady_world))
           JOURNAL_ERR_IO).
  - reflexivity.
  - discriminate.
Defined.

Lemma inc_boot_runs_count_witness :
  exists r1 : BootRecord,
    committed
      (file (inc_boot_runs "/var/pac/journal.dat" good_env zero_record
               [1700000200; 1700000300; 1700000400] steady_world)) r1
    /\ boot_count r1 = 10.
Proof.
  destruct (inc_boot_runs_count "/var/pac/journal.dat" good_env zero_record
              (committed_record 7) [1700000200; 1700000300; 1700000400]
              steady_world)
    as (r1 & H1 & H2 & _).
  - reflexivity.
  - vm_compute. discriminate.
  - reflexivity.
  - reflexivity.
  - apply steady_world_committed.
  - exists r1. split; [exact H1|]. rewrite H2. reflexivity.
Defined.

Lemma journal_flag_algebra_witness :
  journal_has_flag (journal_set_flag sample_record FLAG_BROWNOUT) FLAG_BROWNOUT
  = negb (FLAG_BROWNOUT =? 0).
Proof.
  apply (journal_flag_algebra sample_record FLAG_BROWNOUT FLAG_DIRTY).
  apply sample_record_wf.
Defined.

Lemma journal_reset_then_decrement_witness :
  journal_reset_tries (journal_reset_tries sample_record)
  = journal_reset_tries sample_record.
Proof.
  apply (journal_reset_then_decrement sample_record). apply sample_record_wf.
Defined.

Lemma health_check_storage_percent_witness :
  exists r : HealthCheckResult,
    health_check_storage 5 (sample_host true true true true true true) = Some r
    /\ value r = 50.
Proof.
  destruct (health_check_storage_percent 5
              (sample_host true true true true true true) 1000 500)
    as [_ H]; [reflexivity|].
  destruct H as (r & H1 & H2 & _); try lia.
  exists r. split; [exact H1|]. rewrite H2. reflexivity.
Defined.

Lemma health_check_network_reachable_witness :
  ok (health_check_network 2 (sample_host true true true true true true)) = true.
Proof.
  rewrite (health_check_network_reachable 2
             (sample_host true true true true true true)) by lia.
  reflexivity.
Defined.


Lemma health_check_run_verdict_witness :
  health_check_run None (Some health_report_clear)
    (sample_host true true false true false true)
  = Some (HEALTH_DEGRADED,
          Some {| report_timestamp := 1700000000;
                  watchdog := health_check_watchdog
                                (sample_host true true false true false true);
                  ecc := health_check_ecc 10
                           (sample_host true true false true false true);
                  storage := {| ok := false;
                                message := "Storage low: 1% free (min: 5%)";
                                value := 1 |};
                  network := health_check_network 2
                               (sample_host true true false true false true);
                  memory := {| ok := false;
                               message := "Low memory: 2000KB available (0%)";
                               value := 2000 |};
                  temperature := {| ok := true;
                                    message := "Temperature normal: 45°C (max: 85°C)";
                                    value := 45 |};
                  overall_score := 4; max_score := 6;
                  overall_status := "degraded" |}).
Proof.
  refine (proj1 (proj2 (proj2 (proj2 (proj2
            (health_check_run_verdict None health_report_clear
               (sample_host true true false true false true) HEALTH_DEGRADED
               _ _)))))).
  vm_compute. reflexivity.
Defined.

Lemma health_score_to_status_monotone_witness :
  status_rank (health_score_to_status 2 6)
  <= status_rank (health_score_to_status 5 6).
Proof.
  apply (health_score_to_status_monotone 2 5 6). lia.
Defined.

Lemma le_bytes_bytes (n : nat) (v : Z) : Forall is_byte (le_bytes n v).
Proof.
  revert v. induction n as [|n IH]; intro v; cbn [le_bytes]; constructor.
  - unfold is_byte. change 255 with (Z.ones 8). rewrite Z.land_ones by lia.
    apply Z.mod_pos_bound. lia.
  - apply IH.
Qed.

Lemma record_bytes_bytes (r : BootRecord) : Forall is_byte (record_bytes r).
Proof.
  unfold record_bytes. repeat (apply Forall_app; split); apply le_bytes_bytes.
Qed.

Lemma crc32_compute_detects_byte_witness :
  crc32_compute (set_byte 12 8 (record_bytes (committed_record 7)))
    (List.length (record_bytes (committed_record 7)))
  <> crc32_compute (record_bytes (committed_record 7))
       (List.length (record_bytes (committed_record 7)))
  /\ List.length (set_byte 12 8 (record_bytes (committed_record 7)))
     = List.length (record_bytes (committed_record 7)).
Proof.
  apply (crc32_compute_detects_byte (record_bytes (committed_record 7)) 12 8).
  - rewrite record_bytes_length. unfold PAGE_SIZE. lia.
  - vm_compute. split; [discriminate | reflexivity].
  - vm_compute. split; [discriminate | reflexivity].
  - vm_compute. discriminate.
Defined.

Lemma journal_validate_detects_byte_damage_witness :
  journal_validate
    (record_of_bytes (set_byte 12 8 (record_bytes (committed_record 7)))) = false.
Proof.
  apply (journal_validate_detects_byte_damage
           (record_bytes (committed_record 7)) 12 8).
  - apply record_bytes_length.
  - apply record_bytes_bytes.
  - vm_compute. reflexivity.
  - unfold CRC_OFFSET. lia.
  - vm_compute. split; [discriminate | reflexivity].
  - vm_compute. discriminate.
Defined.

Lemma journal_recover_read_failure_resets_witness :
  exists (w1 : World) (d : BootRecord),
    journal_recover zero_record
      (sample_world (record_bytes (committed_record 7))
         (record_bytes (committed_record 7))
         [mkPageIO false None true; mkPageIO true None true])
    = ((JOURNAL_OK, d), w1)
    /\ boot_count d = 0.
Proof.
  destruct (journal_recover_read_failure_resets zero_record (committed_record 7)
              (sample_world (record_bytes (committed_record 7))
                 (record_bytes (committed_record 7))
                 [mkPageIO false None true; mkPageIO true None true])
              (mkPageIO false None true) (mkPageIO true None true))
    as (w1 & d & H1 & _ & H2 & _).
  - split; [reflexivity | vm_compute; discriminate].
  - reflexivity.
  - reflexivity.
  - reflexivity.
  - exact steady_world_committed.
  - exists w1, d. split; [exact H1 | exact H2].
Defined.

Lemma health_check_temperature_without_hwmon_witness :
  exists r : HealthCheckResult,
    health_check_temperature 85 (sample_host true true true true true false)
    = Some r
    /\ 0 <= value r < 256.
Proof.
  destruct (health_check_temperature_without_hwmon 85
              (sample_host true true true true true false))
    as (r & H1 & H2 & _).
  - reflexivity.
  - exists r. split; [exact H1 | exact H2].
Defined.

Lemma health_check_ecc_outcome_witness :
  value (health_check_ecc 10 edac_host) = 7
  /\ ok (health_check_ecc 10 edac_host) = true
  /\ ok (health_check_ecc 7 edac_host) = false.
Proof.
  assert (He : file_exists edac_host "/sys/devices/system/edac" = true)
    by reflexivity.
  assert (Hd : host_opendir edac_host "/sys/devices/system/edac/mc"
               = Some ["."; ".."; "mc0"; "mc1"; "power"]) by reflexivity.
  assert (Hb : Forall (fun d_name =>
                         ce_count edac_host d_name <= LONG_MAX - 2 ^ 32
                         /\ ue_count edac_host d_name <= LONG_MAX - 2 ^ 32)
                 (memory_controllers ["."; ".."; "mc0"; "mc1"; "power"])).
  { change (memory_controllers ["."; ".."; "mc0"; "mc1"; "power"])
      with ["mc0"; "mc1"].
    repeat (apply Forall_cons; [split; vm_compute; discriminate|]).
    apply Forall_nil. }
  destruct (proj1 (proj2 (health_check_ecc_outcome 10 edac_host)) _ He Hd Hb)
    as (Hv & Ho & _).
  destruct (proj1 (proj2 (health_check_ecc_outcome 7 edac_host)) _ He Hd Hb)
    as (_ & Ho7 & _).
  rewrite Hv, Ho, Ho7. vm_compute. repeat split.
Defined.

Lemma health_check_memory_outcome_witness :
  exists r : HealthCheckResult,
    health_check_memory 10240 (sample_host true true true true true true)
    = Some r
    /\ ok r = true
    /\ value r = 2000000
    /\ message r = "Memory healthy: 2000000KB available (50%)".
Proof.
  set (host := sample_host true true true true true true).
  set (l1 := "MemTotal:        4000000 kB" ++ nl).
  set (l2 := "MemFree:            1000 kB" ++ nl).
  set (l3 := "MemAvailable:   2000000 kB" ++ nl).
  assert (Hopen : host_fopen host "/proc/meminfo"
                  = Some (string_concat [l1; l2; l3])) by reflexivity.
  assert (Htext : Forall text_line [l1; l2; l3]).
  { repeat (apply Forall_cons; [split; vm_compute; [reflexivity | lia]|]).
    apply Forall_nil. }
  assert (Htotal : last_line "MemTotal:" 4000000 [l1; l2; l3]).
  { exists [], l1, [l2; l3]. repeat split; try reflexivity.
    repeat (apply Forall_cons; [reflexivity|]). apply Forall_nil. }
  assert (Havail : last_line "MemAvailable:" 2000000 [l1; l2; l3]).
  { exists [l1; l2], l3, []. repeat split; try reflexivity. apply Forall_nil. }
  assert (Hfit : 2000000 * 100 <= LONG_MAX) by (vm_compute; discriminate).
  destruct (proj2 (proj2 (proj1 (proj2 (health_check_memory_outcome 10240 host))
                            [l1; l2; l3] Hopen Htext)
                         4000000 2000000 Htotal (or_introl Havail)
                         ltac:(lia) ltac:(lia))
                  ltac:(lia) Hfit)
    as (r & Hr & Hok & Hval & Hmsg).
  exists r. split; [exact Hr|].
  assert (Hok' : ok r = true) by (rewrite Hok; reflexivity).
  split; [exact Hok'|]. split; [rewrite Hval; reflexivity|].
  rewrite Hmsg, Hok'. reflexivity.
Defined.

Local Close Scope string_scope.
